(** * claude-powerline: the rendering and composition engine

    A shallow embedding of the segment renderer ([SegmentRenderer]), the
    theme lookup ([getTheme]) and the line composer ([PowerlineRenderer]),
    followed by the properties of the specification that were checked
    against them.

    JavaScript strings are modelled as [string] (a sequence of code units),
    integer counts as [Z], money and rates as [Q]; the numbers of the context
    provider, which divides and rounds them, are binary64 floating-point
    numbers ([float]), as in the language.  Modules the engine only
    imports (colour encoders, number formatters, the terminal, the facts
    providers, the theme tables) are interfaces: type classes whose members
    keep the imported names. *)

From Stdlib Require Import ZArith QArith Qround Lia Ascii Floats.
From stdpp Require Import base option list strings gmap pretty.

Local Open Scope string_scope.
Local Open Scope Z_scope.

(** ** JavaScript string primitives used by the engine *)

Module JsString.

(** [s.startsWith(p)] *)
Definition startsWith (s p : string) : bool := String.prefix p s.

(** [dropPrefix p s = Some r] exactly when [s = p ++ r]. *)
Fixpoint dropPrefix (p s : string) : option string :=
  match p, s with
  | EmptyString, _ => Some s
  | String _ _, EmptyString => None
  | String a p', String b s' =>
      if Ascii.eqb a b then dropPrefix p' s' else None
  end.

(** [s.replace(pat, rep)] with a string pattern: only the first
    occurrence is replaced ([rep] holds no [$] pattern here). *)
Fixpoint replace (pat rep s : string) : string :=
  match dropPrefix pat s with
  | Some rest => rep +:+ rest
  | None =>
      match s with
      | EmptyString => EmptyString
      | String c s' => String c (replace pat rep s')
      end
  end.

(** [s.slice(n)] for [0 <= n]. *)
Fixpoint slice (s : string) (n : nat) : string :=
  match n, s with
  | O, _ => s
  | S _, EmptyString => EmptyString
  | S n', String _ s' => slice s' n'
  end.

(** [s.charAt(0)] *)
Definition charAt0 (s : string) : string :=
  match s with
  | EmptyString => EmptyString
  | String c _ => String c EmptyString
  end.

(** [s.split(sep)] for a one-character separator; never the empty list. *)
Fixpoint split (sep : ascii) (s : string) : list string :=
  match s with
  | EmptyString => [EmptyString]
  | String c s' =>
      if Ascii.eqb c sep then EmptyString :: split sep s'
      else match split sep s' with
           | [] => [String c EmptyString]
           | p :: ps => String c p :: ps
           end
  end.

(** [parts.join(sep)] *)
Fixpoint join (sep : string) (parts : list string) : string :=
  match parts with
  | [] => EmptyString
  | [p] => p
  | p :: ps => p +:+ sep +:+ join sep ps
  end.

(** Truthiness of an optional string: [undefined] and [""] are falsy. *)
Definition truthy (o : option string) : bool :=
  match o with
  | Some s => negb (String.eqb s "")
  | None => false
  end.

(** [a || d] where [d] is a string. *)
Definition orElse (a : option string) (d : string) : string :=
  match a with
  | Some s => if String.eqb s "" then d else s
  | None => d
  end.

(** [a || b] where both may be absent. *)
Definition orOpt (a b : option string) : option string :=
  if truthy a then a else b.

(** Whether a one-character separator occurs in a string. *)
Fixpoint contains (sep : ascii) (s : string) : bool :=
  match s with
  | EmptyString => false
  | String c s' => Ascii.eqb c sep || contains sep s'
  end.

End JsString.

(** ** [node:path], POSIX flavour *)

Module Path.

Definition sep : ascii := "/"%char.

(** [path.basename(p)]: the last non-empty component, trailing
    separators ignored; the empty string when there is none. *)
Definition basename (p : string) : string :=
  List.last (List.filter (fun c => negb (String.eqb c "")) (JsString.split sep p)) "".

End Path.

(** The line break that joins the lines of the statusline. *)
Definition LF : string := String "010"%char EmptyString.

(** ** Numbers

    A JavaScript number is truthy when it is neither zero nor [NaN]. *)

Definition Qltb (x y : Q) : bool := negb (Qle_bool y x).
Definition Qtruthy (x : Q) : bool := negb (Qeq_bool x 0).

(** [`${n}`] for an integer. *)
Definition showZ (n : Z) : string := pretty n.

(** [Math.round] of a number that is given as a rational: the nearest
    integer, a half rounded up. *)
Definition mathRound (x : Q) : Z := Qfloor (x + (1 # 2)).

(** *** Numbers as the language has them

    Where the engine computes with numbers (the context provider), a number
    is a binary64 value: [float], with the arithmetic of IEEE 754, the
    infinities and [NaN]. *)

Module JsNumber.
Local Open Scope float_scope.

(** A number is truthy when it is neither zero (of either sign) nor [NaN]. *)
Definition truthy (x : float) : bool := negb (is_nan x) && negb (x =? 0).

(** [a || d] for a number that may be [undefined]. *)
Definition orElse (a : option float) (d : float) : float :=
  match a with
  | Some x => if truthy x then x else d
  | None => d
  end.

Definition isNegZero (x : float) : bool :=
  match classify x with
  | NZero => true
  | _ => false
  end.

(** [Math.max(a, b)]: [NaN] when either is, and [+0] above [-0]. *)
Definition max (a b : float) : float :=
  if is_nan a || is_nan b then nan
  else if a <? b then b
  else if b <? a then a
  else if isNegZero a then b else a.

(** [Math.min(a, b)]: [NaN] when either is, and [-0] below [+0]. *)
Definition min (a b : float) : float :=
  if is_nan a || is_nan b then nan
  else if a <? b then a
  else if b <? a then b
  else if isNegZero a then a else b.

(** From 2^52 on every number is an integer. *)
Definition twoTo52 : float := 4503599627370496.

(** The largest integer at most [y], for [0 <= y < 2^52]: adding and
    taking away 2^52 rounds [y] to an integer, which is then put right. *)
Definition floorBelow52 (y : float) : float :=
  let r := (y + twoTo52) - twoTo52 in
  if y <? r then r - 1 else r.

(** [Math.round(x)]: the integer nearest to [x], the greater one of two
    that are equally near; [NaN], the infinities, the zeros and the
    integers are returned as they are, and a negative number that rounds
    to zero gives [-0]. *)
Definition round (x : float) : float :=
  if is_nan x then x
  else if twoTo52 <=? abs x then x
  else if 0 <? x then
    let f := floorBelow52 x in
    if (x - f) <? 0.5 then f else f + 1
  else if x <? 0 then
    let y := - x in
    let f := floorBelow52 y in
    - (if (y - f) <=? 0.5 then f else f + 1)
  else x.

End JsNumber.

(** ** Data model *)

(** *** themes/index.ts *)

Record SegmentColor := { bg : string; fg : string }.

(** The interface declares every category but [warning] as required; a
    table read from a configuration file can still lack one, which is why
    [getThemeColors] falls back category by category.  Fields carry the
    prefix [th_]. *)
Record ColorTheme := {
  th_directory : option SegmentColor;
  th_git : option SegmentColor;
  th_model : option SegmentColor;
  th_session : option SegmentColor;
  th_block : option SegmentColor;
  th_today : option SegmentColor;
  th_tmux : option SegmentColor;
  th_context : option SegmentColor;
  th_metrics : option SegmentColor;
  th_version : option SegmentColor;
  th_warning : option SegmentColor;
}.

Record PowerlineColors := {
  reset : string;
  modeBg : string; modeFg : string;
  gitBg : string; gitFg : string;
  modelBg : string; modelFg : string;
  sessionBg : string; sessionFg : string;
  blockBg : string; blockFg : string;
  todayBg : string; todayFg : string;
  tmuxBg : string; tmuxFg : string;
  contextBg : string; contextFg : string;
  metricsBg : string; metricsFg : string;
  versionBg : string; versionFg : string;
  warningBg : string; warningFg : string;
}.

Inductive ColorSupport := CsNone | CsAnsi | CsAnsi256 | CsTruecolor.

(** [display.colorCompatibility]: ["auto"] or a fixed capability. *)
Inductive ColorMode := Auto | Fixed (cs : ColorSupport).

(** *** segments: configuration *)

Inductive DirectoryStyle := StyleFull | StyleFish | StyleBasename.
Inductive CostSource := Calculated | Official.
Inductive BurnType := BurnCost | BurnTokens | BurnBoth | BurnNone.
Inductive BudgetType := BudgetCost | BudgetTokens.

(** [AnySegmentConfig]: the union of the per-segment configurations, read
    through whichever interface the segment kind selects; every option but
    [enabled] may be absent.  [cfg_style], [cfg_type] and
    [cfg_warningThreshold] are the options [style], [type] and
    [warningThreshold]. *)
Record SegmentConfig := {
  enabled : bool;
  cfg_style : option DirectoryStyle;
  showBasename : option bool;
  showSha : option bool;
  showAheadBehind : option bool;
  showWorkingTree : option bool;
  showOperation : option bool;
  showTag : option bool;
  showTimeSinceCommit : option bool;
  showStashCount : option bool;
  showUpstream : option bool;
  showRepoName : option bool;
  cfg_type : option string;
  costSource : option CostSource;
  showPercentageOnly : option bool;
  cfg_warningThreshold : option float;
  showResponseTime : option bool;
  showLastResponseTime : option bool;
  showDuration : option bool;
  showMessageCount : option bool;
  showLinesAdded : option bool;
  showLinesRemoved : option bool;
  burnType : option BurnType;
}.

(** [config?.opt] used as a condition. *)
Definition isOn (o : option bool) : bool := default false o.
(** [config?.opt !== false] *)
Definition notOff (o : option bool) : bool := default true o.

(** *** segments: facts *)

Record Workspace := { current_dir : option string; project_dir : option string }.
Record ModelInfo := { model_id : option string; display_name : option string }.

Record ClaudeHookData := {
  hd_workspace : option Workspace;
  hd_cwd : option string;
  hd_model : option ModelInfo;
  hd_session_id : string;
  hd_transcript_path : string;
  hd_version : option string;
}.

Inductive GitStatus := Clean | Dirty | Conflicts.

Record GitInfo := {
  repoName : option string;
  isWorktree : option bool;
  operation : option string;
  branch : string;
  tag : option string;
  sha : option string;
  ahead : Z;
  behind : Z;
  staged : option Z;
  unstaged : option Z;
  untracked : option Z;
  conflicts : option Z;
  upstream : option string;
  stashCount : option Z;
  timeSinceCommit : option Z;
  status : GitStatus;
}.

(** Modelled from the spec: the declaration of [TokenBreakdown] is not part
    of the sources; it is the token count by kind and is only handed to
    [formatTokenBreakdown]. *)
Record TokenBreakdown := {
  tb_input : Z; tb_output : Z; tb_cacheCreation : Z; tb_cacheRead : Z;
}.

Record SessionUsage := {
  ses_cost : option Q;
  ses_calculatedCost : option Q;
  ses_officialCost : option Q;
  ses_tokens : option Z;
  ses_tokenBreakdown : option TokenBreakdown;
}.
Record UsageInfo := { session : SessionUsage }.

Record ContextInfo := {
  inputTokens : float;
  percentage : float;
  usablePercentage : float;
  contextLeftPercentage : float;
  maxTokens : float;
  usableTokens : float;
}.

Record MetricsInfo := {
  responseTime : option Q;
  lastResponseTime : option Q;
  sessionDuration : option Q;
  messageCount : option Z;
  linesAdded : option Z;
  linesRemoved : option Z;
}.

Record BlockInfo := {
  blk_cost : option Q;
  blk_tokens : option Z;
  blk_weightedTokens : option Z;
  blk_timeRemaining : option Z;
  blk_burnRate : option Q;
  blk_tokenBurnRate : option Q;
}.

Record TodayInfo := {
  td_cost : option Q;
  td_tokens : option Z;
  td_tokenBreakdown : option TokenBreakdown;
}.

(** *** config/loader *)

Inductive DisplayStyle := Powerline | Capsule | Minimal.
Inductive Charset := Unicode | Text.

Record BudgetItem := {
  budget_amount : option Q;
  budget_warningThreshold : option Q;
  budget_type : option BudgetType;
}.

Record BudgetConfig := {
  budget_session : option BudgetItem;
  budget_block : option BudgetItem;
  budget_today : option BudgetItem;
}.

(** [segments] is an object: its entries are visited in insertion order,
    which is the left-to-right order on screen (keys that are array
    indices would be visited first; no segment kind is one). *)
Record LineConfig := { segments : list (string * option SegmentConfig) }.

Record DisplayConfig := {
  display_style : DisplayStyle;
  charset : option Charset;
  colorCompatibility : option ColorMode;
  autoWrap : bool;
  lines : list LineConfig;
}.

Record CustomColors := { custom : option ColorTheme }.

Record PowerlineConfig := {
  theme : string;
  display : DisplayConfig;
  colors : option CustomColors;
  budget : option BudgetConfig;
}.

(** *** segments/renderer *)

(** Fields carry the prefix [sym_]. *)
Record PowerlineSymbols := {
  sym_right : string;
  sym_left : string;
  sym_branch : string;
  sym_model : string;
  sym_git_clean : string;
  sym_git_dirty : string;
  sym_git_conflicts : string;
  sym_git_ahead : string;
  sym_git_behind : string;
  sym_git_worktree : string;
  sym_git_tag : string;
  sym_git_sha : string;
  sym_git_upstream : string;
  sym_git_stash : string;
  sym_git_time : string;
  sym_session_cost : string;
  sym_block_cost : string;
  sym_today_cost : string;
  sym_context_time : string;
  sym_metrics_response : string;
  sym_metrics_last_response : string;
  sym_metrics_duration : string;
  sym_metrics_messages : string;
  sym_metrics_lines_added : string;
  sym_metrics_lines_removed : string;
  sym_metrics_burn : string;
  sym_version : string;
}.

Record SegmentData := { text : string; bgColor : string; fgColor : string }.

(** [RenderedSegment] of the renderer: a [SegmentData] with its kind. *)
Record RenderedSegment := {
  seg_type : string;
  seg_text : string;
  seg_bgColor : string;
  seg_fgColor : string;
}.

(** Budget status tier and the suffix shown for it. *)
Inductive BudgetTier := TierNone | TierOk | TierWarning | TierExceeded.

Record BudgetStatus := {
  budgetPercentage : option Q;
  tier : BudgetTier;
  displayText : string;
}.

(** ** Imported modules, as interfaces *)

(** utils/formatters, and the number formatting methods of the language. *)
Class Formatters := {
  formatCost : option Q -> string;
  formatTokens : option Z -> string;
  formatTokenBreakdown : option TokenBreakdown -> string;
  formatTimeSince : Z -> string;
  formatDuration : Q -> string;
  (** [x.toFixed(digits)] *)
  toFixed : Q -> nat -> string;
  (** [x.toLocaleString()] *)
  toLocaleString : float -> string;
  (** [`${x}`] for a number *)
  numberToString : float -> string;
}.

(** Modelled from the spec: a budget status carries a short display suffix
    for its tier (a percentage or a warning glyph); which text that is, is
    not part of the sources and is left open. *)
Class BudgetDisplay := { budgetSuffix : BudgetTier -> Q -> string }.

(** [process.env], as far as the engine reads it. *)
Record ProcessEnv := { HOME : option string; USERPROFILE : option string }.

(** ** utils/budget *)

(** Modelled from the spec: the tier boundaries of utils/budget, which is
    not part of the sources.  Below the threshold the tier is ok, from the
    threshold up to (not including) 100 it is warning, from 100 on it is
    exceeded. *)
Definition budgetTier (percent threshold : Q) : BudgetTier :=
  if Qltb percent threshold then TierOk
  else if Qltb percent 100 then TierWarning
  else TierExceeded.

(** Modelled from the spec: [getBudgetStatus] is imported from utils/budget,
    which is not part of the sources.  The percentage is value / ceiling x
    100, not capped at 100, computed here without rounding; a ceiling that
    is not positive disables the display: no tier and no suffix. *)
Definition getBudgetStatus `{BudgetDisplay} (value budget threshold : Q) : BudgetStatus :=
  if Qle_bool budget 0 then
    {| budgetPercentage := None; tier := TierNone; displayText := "" |}
  else
    let percent := (value / budget * 100)%Q in
    {| budgetPercentage := Some percent;
       tier := budgetTier percent threshold;
       displayText := budgetSuffix (budgetTier percent threshold) percent |}.

(** ** segments/renderer: [SegmentRenderer] *)

(** [hookData.workspace?.current_dir || hookData.cwd || "/"] *)
Definition currentDirOf (hookData : ClaudeHookData) : string :=
  JsString.orElse (hd_workspace hookData ≫= current_dir)
    (JsString.orElse (hd_cwd hookData) "/").

(** A positive count: [n && n > 0]. *)
Definition isPositive (o : option Z) : bool :=
  match o with
  | Some n => 0 <? n
  | None => false
  end.

Section SegmentRenderer.
Context `{Formatters} `{BudgetDisplay}.
Variable powerlineConfig : PowerlineConfig.
Variable symbols : PowerlineSymbols.
Variable env : ProcessEnv.

Definition getDisplayDirectoryName (currentDir : string) (projectDir : option string) : string :=
  if JsString.startsWith currentDir "~" then currentDir
  else
    match projectDir with
    | Some p =>
        if JsString.truthy projectDir && negb (String.eqb p currentDir) then
          if JsString.startsWith currentDir p then
            let relativePath := JsString.slice currentDir (String.length p + 1) in
            JsString.orElse (Some relativePath)
              (JsString.orElse (Some (Path.basename p)) "project")
          else JsString.orElse (Some (Path.basename currentDir)) "root"
        else JsString.orElse (Some (Path.basename currentDir)) "root"
    | None => JsString.orElse (Some (Path.basename currentDir)) "root"
    end.

Definition abbreviateFishStyle (dirPath : string) : string :=
  let parts := JsString.split Path.sep dirPath in
  JsString.join (String Path.sep EmptyString)
    (imap (fun index part =>
             if Nat.eqb index (length parts - 1) then part
             else if String.eqb part "~" || String.eqb part "" then part
             else JsString.charAt0 part)
          parts).

Definition renderDirectory (hookData : ClaudeHookData) (colors : PowerlineColors)
    (config : option SegmentConfig) : SegmentData :=
  let currentDir := currentDirOf hookData in
  let projectDir := hd_workspace hookData ≫= project_dir in
  let style :=
    match config ≫= cfg_style with
    | Some s => s
    | None => if isOn (config ≫= showBasename) then StyleBasename else StyleFull
    end in
  match style with
  | StyleBasename =>
      {| text := JsString.orElse (Some (Path.basename currentDir)) "root";
         bgColor := modeBg colors; fgColor := modeFg colors |}
  | _ =>
      let homeDir := JsString.orOpt (HOME env) (USERPROFILE env) in
      let displayDir :=
        match homeDir with
        | Some h =>
            if JsString.truthy homeDir && JsString.startsWith currentDir h
            then JsString.replace h "~" currentDir else currentDir
        | None => currentDir
        end in
      let displayProjectDir :=
        match homeDir, projectDir with
        | Some h, Some p =>
            if JsString.truthy homeDir && JsString.truthy projectDir
               && JsString.startsWith p h
            then Some (JsString.replace h "~" p) else projectDir
        | _, _ => projectDir
        end in
      let dirName := getDisplayDirectoryName displayDir displayProjectDir in
      let dirName :=
        match style with
        | StyleFish => abbreviateFishStyle dirName
        | _ => dirName
        end in
      {| text := dirName; bgColor := modeBg colors; fgColor := modeFg colors |}
  end.

Definition renderGit (gitInfo : option GitInfo) (colors : PowerlineColors)
    (config : option SegmentConfig) : option SegmentData :=
  match gitInfo with
  | None => None
  | Some gitInfo =>
      let repo :=
        match repoName gitInfo with
        | Some name =>
            if isOn (config ≫= showRepoName) && JsString.truthy (repoName gitInfo) then
              name :: (if isOn (isWorktree gitInfo) then [sym_git_worktree symbols] else [])
            else []
        | None => []
        end in
      let op :=
        match operation gitInfo with
        | Some o =>
            if isOn (config ≫= showOperation) && JsString.truthy (operation gitInfo)
            then ["[" +:+ o +:+ "]"] else []
        | None => []
        end in
      let br := [sym_branch symbols +:+ " " +:+ branch gitInfo] in
      let tg :=
        match tag gitInfo with
        | Some t =>
            if isOn (config ≫= showTag) && JsString.truthy (tag gitInfo)
            then [sym_git_tag symbols +:+ " " +:+ t] else []
        | None => []
        end in
      let sh :=
        match sha gitInfo with
        | Some s =>
            if isOn (config ≫= showSha) && JsString.truthy (sha gitInfo)
            then [sym_git_sha symbols +:+ " " +:+ s] else []
        | None => []
        end in
      let aheadBehind :=
        if notOff (config ≫= showAheadBehind) then
          if (0 <? ahead gitInfo) && (0 <? behind gitInfo) then
            [sym_git_ahead symbols +:+ showZ (ahead gitInfo)
             +:+ sym_git_behind symbols +:+ showZ (behind gitInfo)]
          else if 0 <? ahead gitInfo then
            [sym_git_ahead symbols +:+ showZ (ahead gitInfo)]
          else if 0 <? behind gitInfo then
            [sym_git_behind symbols +:+ showZ (behind gitInfo)]
          else []
        else [] in
      let workingTree :=
        if isOn (config ≫= showWorkingTree) then
          let counts :=
            ((if isPositive (staged gitInfo)
              then ["+" +:+ showZ (default 0 (staged gitInfo))] else [])
             ++ (if isPositive (unstaged gitInfo)
                 then ["~" +:+ showZ (default 0 (unstaged gitInfo))] else [])
             ++ (if isPositive (untracked gitInfo)
                 then ["?" +:+ showZ (default 0 (untracked gitInfo))] else [])
             ++ (if isPositive (conflicts gitInfo)
                 then ["!" +:+ showZ (default 0 (conflicts gitInfo))] else []))%list in
          if 0 <? Z.of_nat (length counts)
          then ["(" +:+ JsString.join " " counts +:+ ")"] else []
        else [] in
      let up :=
        match upstream gitInfo with
        | Some u =>
            if isOn (config ≫= showUpstream) && JsString.truthy (upstream gitInfo)
            then [sym_git_upstream symbols +:+ u] else []
        | None => []
        end in
      let stash :=
        if isOn (config ≫= showStashCount) && isPositive (stashCount gitInfo)
        then [sym_git_stash symbols +:+ " " +:+ showZ (default 0 (stashCount gitInfo))]
        else [] in
      let time :=
        match timeSinceCommit gitInfo with
        | Some t =>
            if isOn (config ≫= showTimeSinceCommit)
            then [sym_git_time symbols +:+ " " +:+ formatTimeSince t] else []
        | None => []
        end in
      let gitStatusIcon :=
        match status gitInfo with
        | Conflicts => sym_git_conflicts symbols
        | Dirty => sym_git_dirty symbols
        | Clean => sym_git_clean symbols
        end in
      let parts :=
        (repo ++ op ++ br ++ tg ++ sh ++ aheadBehind ++ workingTree
         ++ up ++ stash ++ time ++ [gitStatusIcon])%list in
      Some {| text := JsString.join " " parts;
              bgColor := gitBg colors; fgColor := gitFg colors |}
  end.

Definition renderModel (hookData : ClaudeHookData) (colors : PowerlineColors) : SegmentData :=
  let modelName := JsString.orElse (hd_model hookData ≫= display_name) "Claude" in
  {| text := sym_model symbols +:+ " " +:+ modelName;
     bgColor := modelBg colors; fgColor := modelFg colors |}.

Definition formatUsageDisplay (cost : option Q) (tokens : option Z)
    (tokenBreakdown : option TokenBreakdown) (type : string) : string :=
  if String.eqb type "cost" then formatCost cost
  else if String.eqb type "tokens" then formatTokens tokens
  else if String.eqb type "both" then
    formatCost cost +:+ " (" +:+ formatTokens tokens +:+ ")"
  else if String.eqb type "breakdown" then formatTokenBreakdown tokenBreakdown
  else formatCost cost.

(** The local [budgetValue] of [formatUsageWithBudget]: the value that is
    measured against the ceiling, [None] for [null]. *)
Definition budgetValueOf (budgetType : option BudgetType) (cost : option Q)
    (tokens : option Z) : option Q :=
  match budgetType, tokens, cost with
  | Some BudgetTokens, Some t, _ => Some (inject_Z t)
  | Some BudgetCost, _, Some c => Some c
  | None, _, Some c => Some c
  | _, _, _ => None
  end.

(** [warningThreshold] has the default value 80, which JavaScript
    substitutes for an argument that is [undefined] (and for no other). *)
Definition formatUsageWithBudget (cost : option Q) (tokens : option Z)
    (tokenBreakdown : option TokenBreakdown) (type : string)
    (budget : option Q) (warningThreshold : option Q)
    (budgetType : option BudgetType) : string :=
  let warningThreshold := default 80%Q warningThreshold in
  let baseDisplay := formatUsageDisplay cost tokens tokenBreakdown type in
  match budget with
  | Some b =>
      if Qtruthy b && Qltb 0 b then
        match budgetValueOf budgetType cost tokens with
        | Some budgetValue =>
            let budgetStatus := getBudgetStatus budgetValue b warningThreshold in
            baseDisplay +:+ displayText budgetStatus
        | None => baseDisplay
        end
      else baseDisplay
  | None => baseDisplay
  end.

(** [t || 80] for an optional number. *)
Definition thresholdOr80 (t : option Q) : Q :=
  match t with
  | Some x => if Qtruthy x then x else 80%Q
  | None => 80%Q
  end.

Definition renderSession (usageInfo : UsageInfo) (colors : PowerlineColors)
    (config : option SegmentConfig) : SegmentData :=
  let type := JsString.orElse (config ≫= cfg_type) "cost" in
  let costSource := config ≫= costSource in
  let sessionBudget := budget powerlineConfig ≫= budget_session in
  let getCost :=
    match costSource with
    | Some Calculated => ses_calculatedCost (session usageInfo)
    | Some Official => ses_officialCost (session usageInfo)
    | None => ses_cost (session usageInfo)
    end in
  let formattedUsage :=
    formatUsageWithBudget getCost
      (ses_tokens (session usageInfo))
      (ses_tokenBreakdown (session usageInfo))
      type
      (sessionBudget ≫= budget_amount)
      (Some (thresholdOr80 (sessionBudget ≫= budget_warningThreshold)))
      (sessionBudget ≫= budget_type) in
  {| text := sym_session_cost symbols +:+ " " +:+ formattedUsage;
     bgColor := sessionBg colors; fgColor := sessionFg colors |}.

Definition renderTmux (sessionId : option string) (colors : PowerlineColors)
    : option SegmentData :=
  match sessionId with
  | Some sid =>
      if JsString.truthy sessionId then
        Some {| text := "tmux:" +:+ sid;
                bgColor := tmuxBg colors; fgColor := tmuxFg colors |}
      else
        Some {| text := "tmux:none";
                bgColor := tmuxBg colors; fgColor := tmuxFg colors |}
  | None =>
      Some {| text := "tmux:none";
              bgColor := tmuxBg colors; fgColor := tmuxFg colors |}
  end.

Definition renderContext (contextInfo : option ContextInfo) (colors : PowerlineColors)
    (config : option SegmentConfig) : option SegmentData :=
  match contextInfo with
  | None =>
      Some {| text := sym_context_time symbols +:+ " 0 (0%)";
              bgColor := contextBg colors; fgColor := contextFg colors |}
  | Some contextInfo =>
      let contextUsed := numberToString (percentage contextInfo) +:+ "%" in
      let warningThreshold := default 100%float (config ≫= cfg_warningThreshold) in
      let isWarning := (warningThreshold <=? percentage contextInfo)%float in
      let text :=
        if isOn (config ≫= showPercentageOnly) then
          sym_context_time symbols +:+ " " +:+ contextUsed
        else
          sym_context_time symbols +:+ " "
          +:+ toLocaleString (inputTokens contextInfo)
          +:+ " (" +:+ contextUsed +:+ ")" in
      Some {| text := text;
              bgColor := if isWarning then warningBg colors else contextBg colors;
              fgColor := if isWarning then warningFg colors else contextFg colors |}
  end.

(** A response time: seconds below a minute, minutes from there on. *)
Definition showResponse (t : Q) : string :=
  if Qltb t 60 then toFixed t 1 +:+ "s" else toFixed (t / 60)%Q 1 +:+ "m".

Definition renderMetrics (metricsInfo : option MetricsInfo) (colors : PowerlineColors)
    (_blockInfo : option BlockInfo) (config : option SegmentConfig)
    : option SegmentData :=
  match metricsInfo with
  | None =>
      Some {| text := sym_metrics_response symbols +:+ " new";
              bgColor := metricsBg colors; fgColor := metricsFg colors |}
  | Some metricsInfo =>
      let last :=
        match lastResponseTime metricsInfo with
        | Some t =>
            if isOn (config ≫= showLastResponseTime)
            then [sym_metrics_last_response symbols +:+ " " +:+ showResponse t] else []
        | None => []
        end in
      let response :=
        match responseTime metricsInfo with
        | Some t =>
            if notOff (config ≫= showResponseTime)
            then [sym_metrics_response symbols +:+ " " +:+ showResponse t] else []
        | None => []
        end in
      let duration :=
        match sessionDuration metricsInfo with
        | Some d =>
            if notOff (config ≫= showDuration)
            then [sym_metrics_duration symbols +:+ " " +:+ formatDuration d] else []
        | None => []
        end in
      let messages :=
        match messageCount metricsInfo with
        | Some n =>
            if notOff (config ≫= showMessageCount)
            then [sym_metrics_messages symbols +:+ " " +:+ showZ n] else []
        | None => []
        end in
      let added :=
        match linesAdded metricsInfo with
        | Some n =>
            if notOff (config ≫= showLinesAdded) && (0 <? n)
            then [sym_metrics_lines_added symbols +:+ " " +:+ showZ n] else []
        | None => []
        end in
      let removed :=
        match linesRemoved metricsInfo with
        | Some n =>
            if notOff (config ≫= showLinesRemoved) && (0 <? n)
            then [sym_metrics_lines_removed symbols +:+ " " +:+ showZ n] else []
        | None => []
        end in
      let parts := (last ++ response ++ duration ++ messages ++ added ++ removed)%list in
      match parts with
      | [] =>
          Some {| text := sym_metrics_response symbols +:+ " active";
                  bgColor := metricsBg colors; fgColor := metricsFg colors |}
      | _ =>
          Some {| text := JsString.join " " parts;
                  bgColor := metricsBg colors; fgColor := metricsFg colors |}
      end
  end.

(** The cost burn rate: cents an hour below a dollar, dollars from there. *)
Definition showCostBurn (rate : option Q) : string :=
  match rate with
  | Some r =>
      if Qltb r 1 then toFixed (r * 100)%Q 0 +:+ "¢/h"
      else "$" +:+ toFixed r 2 +:+ "/h"
  | None => "N/A"
  end.

Definition showTokenBurn (rate : option Q) : string :=
  match rate with
  | Some r => formatTokens (Some (mathRound r)) +:+ "/h"
  | None => "N/A"
  end.

Definition renderBlock (blockInfo : BlockInfo) (colors : PowerlineColors)
    (config : option SegmentConfig) : SegmentData :=
  let displayText :=
    match blk_cost blockInfo, blk_tokens blockInfo with
    | None, None => "No active block"
    | _, _ =>
        let type := JsString.orElse (config ≫= cfg_type) "cost" in
        let burnType := config ≫= burnType in
        let blockBudget := budget powerlineConfig ≫= budget_block in
        let timeStr :=
          match blk_timeRemaining blockInfo with
          | Some t =>
              let hours := t / 60 in
              let minutes := Z.rem t 60 in
              Some (if 0 <? hours
                    then showZ hours +:+ "h " +:+ showZ minutes +:+ "m"
                    else showZ minutes +:+ "m")
          | None => None
          end in
        let costContent :=
          formatUsageWithBudget (blk_cost blockInfo) None None "cost"
            (blockBudget ≫= budget_amount)
            (blockBudget ≫= budget_warningThreshold)
            (blockBudget ≫= budget_type) in
        let mainContent :=
          if String.eqb type "cost" then costContent
          else if String.eqb type "tokens" then
            formatUsageWithBudget None (blk_tokens blockInfo) None "tokens"
              (blockBudget ≫= budget_amount)
              (blockBudget ≫= budget_warningThreshold)
              (blockBudget ≫= budget_type)
          else if String.eqb type "weighted" then
            let rateLimit :=
              match blockBudget ≫= budget_type with
              | Some BudgetTokens => blockBudget ≫= budget_amount
              | _ => None
              end in
            let weightedDisplay := formatTokens (blk_weightedTokens blockInfo) in
            match rateLimit, blk_weightedTokens blockInfo with
            | Some limit, Some weighted =>
                if Qtruthy limit then
                  let rateLimitStatus :=
                    getBudgetStatus (inject_Z weighted) limit
                      (thresholdOr80 (blockBudget ≫= budget_warningThreshold)) in
                  weightedDisplay +:+ displayText rateLimitStatus
                else weightedDisplay +:+ " (weighted)"
            | _, _ => weightedDisplay +:+ " (weighted)"
            end
          else if String.eqb type "both" then
            formatUsageWithBudget (blk_cost blockInfo) (blk_tokens blockInfo) None "both"
              (blockBudget ≫= budget_amount)
              (blockBudget ≫= budget_warningThreshold)
              (blockBudget ≫= budget_type)
          else if String.eqb type "time" then JsString.orElse timeStr "N/A"
          else costContent in
        let burnContent :=
          match burnType with
          | Some BurnCost => " | " +:+ showCostBurn (blk_burnRate blockInfo)
          | Some BurnTokens => " | " +:+ showTokenBurn (blk_tokenBurnRate blockInfo)
          | Some BurnBoth =>
              " | " +:+ showCostBurn (blk_burnRate blockInfo)
              +:+ " / " +:+ showTokenBurn (blk_tokenBurnRate blockInfo)
          | Some BurnNone | None => ""
          end in
        if String.eqb type "time" then mainContent
        else
          match timeStr with
          | Some ts =>
              if JsString.truthy timeStr
              then mainContent +:+ burnContent +:+ " (" +:+ ts +:+ " left)"
              else mainContent +:+ burnContent
          | None => mainContent +:+ burnContent
          end
    end in
  {| text := sym_block_cost symbols +:+ " " +:+ displayText;
     bgColor := blockBg colors; fgColor := blockFg colors |}.

Definition renderToday (todayInfo : TodayInfo) (colors : PowerlineColors)
    (type : string) : SegmentData :=
  let todayBudget := budget powerlineConfig ≫= budget_today in
  {| text :=
       sym_today_cost symbols +:+ " "
       +:+ formatUsageWithBudget (td_cost todayInfo) (td_tokens todayInfo)
             (td_tokenBreakdown todayInfo) type
             (todayBudget ≫= budget_amount)
             (todayBudget ≫= budget_warningThreshold)
             (todayBudget ≫= budget_type);
     bgColor := todayBg colors; fgColor := todayFg colors |}.

Definition renderVersion (hookData : ClaudeHookData) (colors : PowerlineColors)
    (_config : option SegmentConfig) : option SegmentData :=
  match hd_version hookData with
  | Some v =>
      if JsString.truthy (hd_version hookData) then
        Some {| text := sym_version symbols +:+ " v" +:+ v;
                bgColor := versionBg colors; fgColor := versionFg colors |}
      else None
  | None => None
  end.

End SegmentRenderer.

(** ** console.warn and exceptions

    [getThemeColors] writes a warning or throws; the effects are kept in a
    small monad: the warnings written so far, oldest first, and either the
    error thrown or the value returned. *)

Inductive Outcome (A : Type) :=
| Threw (message : string)
| Returned (value : A).
Arguments Threw {A} message.
Arguments Returned {A} value.

Record Eff (A : Type) := mkEff { warnings : list string; outcome : Outcome A }.
Arguments mkEff {A} warnings outcome.
Arguments warnings {A} _.
Arguments outcome {A} _.

#[global] Instance eff_ret : MRet Eff := fun A a => mkEff [] (Returned a).

#[global] Instance eff_bind : MBind Eff := fun A B f m =>
  match outcome m with
  | Threw e => mkEff (warnings m) (Threw e)
  | Returned a => mkEff (warnings m ++ warnings (f a))%list (outcome (f a))
  end.

Definition throw {A : Type} (message : string) : Eff A := mkEff [] (Threw message).
Definition consoleWarn (message : string) : Eff unit := mkEff [message] (Returned tt).

(** ** utils/colors, utils/terminal, utils/constants *)

Class ColorEncoders := {
  hexToAnsi : string -> bool -> string;
  hexToBasicAnsi : string -> bool -> string;
  hexTo256Ansi : string -> bool -> string;
  extractBgToFg : string -> bool -> string;
  (** the capability the terminal reports *)
  getColorSupport : ColorSupport;
}.

Class Terminal := {
  getTerminalWidth : option Z;
  visibleLength : string -> nat;
}.

(** A symbol table of utils/constants; fields carry the prefix [set_]. *)
Record SymbolSet := {
  set_right : string;
  set_right_rounded : string;
  set_left_rounded : string;
  set_branch : string;
  set_model : string;
  set_git_clean : string;
  set_git_dirty : string;
  set_git_conflicts : string;
  set_git_ahead : string;
  set_git_behind : string;
  set_git_worktree : string;
  set_git_tag : string;
  set_git_sha : string;
  set_git_upstream : string;
  set_git_stash : string;
  set_git_time : string;
  set_session_cost : string;
  set_block_cost : string;
  set_today_cost : string;
  set_context_time : string;
  set_metrics_response : string;
  set_metrics_last_response : string;
  set_metrics_duration : string;
  set_metrics_messages : string;
  set_metrics_lines_added : string;
  set_metrics_lines_removed : string;
  set_metrics_burn : string;
  set_version : string;
}.

Class Constants := {
  SYMBOLS : SymbolSet;
  TEXT_SYMBOLS : SymbolSet;
  RESET_CODE : string;
}.

(** ** themes *)

(** The colour tables of the six built-in themes, three variants each. *)
Class ThemeTables := {
  darkTheme : ColorTheme; darkAnsi256Theme : ColorTheme; darkAnsiTheme : ColorTheme;
  lightTheme : ColorTheme; lightAnsi256Theme : ColorTheme; lightAnsiTheme : ColorTheme;
  nordTheme : ColorTheme; nordAnsi256Theme : ColorTheme; nordAnsiTheme : ColorTheme;
  tokyoNightTheme : ColorTheme; tokyoNightAnsi256Theme : ColorTheme;
  tokyoNightAnsiTheme : ColorTheme;
  rosePineTheme : ColorTheme; rosePineAnsi256Theme : ColorTheme;
  rosePineAnsiTheme : ColorTheme;
  gruvboxTheme : ColorTheme; gruvboxAnsi256Theme : ColorTheme;
  gruvboxAnsiTheme : ColorTheme;
}.

(** A property read [o[key]] on an object written as a literal finds the
    properties of the literal and those every object inherits from
    [Object.prototype]. *)
Module JsObject.

(** The property names of [Object.prototype]. *)
Definition prototypeKeys : list string :=
  ["constructor"; "__defineGetter__"; "__defineSetter__"; "hasOwnProperty";
   "__lookupGetter__"; "__lookupSetter__"; "isPrototypeOf"; "propertyIsEnumerable";
   "toString"; "valueOf"; "__proto__"; "toLocaleString"].

Definition inherits (key : string) : bool :=
  existsb (String.eqb key) prototypeKeys.

(** [o[key]], for the own properties [own] of [o] and the reading
    [inherited] of a value found under an inherited name; [None] is
    [undefined]. *)
Definition get {A : Type} (own : gmap string A) (inherited : A) (key : string)
    : option A :=
  match own !! key with
  | Some a => Some a
  | None => if inherits key then Some inherited else None
  end.

End JsObject.

(** What the table of themes yields under an inherited name is a function
    of [Object.prototype], or that object itself for [__proto__]: a truthy
    value that has none of the properties a colour table is read for (the
    ten categories and [warning]).  Read as a table it defines nothing. *)
Definition inheritedTheme : ColorTheme := {|
  th_directory := None; th_git := None; th_model := None; th_session := None;
  th_block := None; th_today := None; th_tmux := None; th_context := None;
  th_metrics := None; th_version := None; th_warning := None;
|}.

(** The own properties of the object [BUILT_IN_THEMES]. *)
Definition BUILT_IN_THEMES `{ThemeTables} : gmap string ColorTheme :=
  list_to_map [
    ("dark", darkTheme);
    ("dark-ansi256", darkAnsi256Theme);
    ("dark-ansi", darkAnsiTheme);
    ("light", lightTheme);
    ("light-ansi256", lightAnsi256Theme);
    ("light-ansi", lightAnsiTheme);
    ("nord", nordTheme);
    ("nord-ansi256", nordAnsi256Theme);
    ("nord-ansi", nordAnsiTheme);
    ("tokyo-night", tokyoNightTheme);
    ("tokyo-night-ansi256", tokyoNightAnsi256Theme);
    ("tokyo-night-ansi", tokyoNightAnsiTheme);
    ("rose-pine", rosePineTheme);
    ("rose-pine-ansi256", rosePineAnsi256Theme);
    ("rose-pine-ansi", rosePineAnsiTheme);
    ("gruvbox", gruvboxTheme);
    ("gruvbox-ansi256", gruvboxAnsi256Theme);
    ("gruvbox-ansi", gruvboxAnsiTheme)
  ].

Definition getTheme `{ThemeTables} (themeName : string) (colorSupport : ColorSupport)
    : option ColorTheme :=
  match JsObject.get BUILT_IN_THEMES inheritedTheme themeName with
  | None => None
  | Some baseTheme =>
      let ansiVariant :=
        match colorSupport with
        | CsNone | CsAnsi =>
            JsObject.get BUILT_IN_THEMES inheritedTheme (themeName +:+ "-ansi")
        | _ => None
        end in
      match ansiVariant with
      | Some v => Some v
      | None =>
          let ansi256Variant :=
            match colorSupport with
            | CsAnsi256 =>
                JsObject.get BUILT_IN_THEMES inheritedTheme (themeName +:+ "-ansi256")
            | _ => None
            end in
          match ansi256Variant with
          | Some v => Some v
          | None => Some baseTheme
          end
      end
  end.

(** ** The facts providers *)

(** The fields [getGitInfo] is asked to compute; prefix [opt_]. *)
Record GitInfoOptions := {
  opt_showSha : option bool;
  opt_showWorkingTree : option bool;
  opt_showOperation : option bool;
  opt_showTag : option bool;
  opt_showTimeSinceCommit : option bool;
  opt_showStashCount : option bool;
  opt_showUpstream : option bool;
  opt_showRepoName : option bool;
}.

(** Every provider resolves to a snapshot or to "unknown" ([None]). *)
Class Providers := {
  getUsageInfo : string -> ClaudeHookData -> option UsageInfo;
  getActiveBlockInfo : option BlockInfo;
  getTodayInfo : option TodayInfo;
  calculateContextTokens : string -> option string -> option ContextInfo;
  getMetricsInfo : string -> ClaudeHookData -> option MetricsInfo;
  getGitInfo : string -> GitInfoOptions -> option string -> option GitInfo;
  getSessionId : option string;
}.

(** ** index: [PowerlineRenderer] *)

(** [lineConfig.segments[segmentType]] *)
Definition segmentConfigOf (line : LineConfig) (segmentType : string) : option SegmentConfig :=
  match List.find (fun e => String.eqb (fst e) segmentType) (segments line) with
  | Some (_, c) => c
  | None => None
  end.

(** The enabled entries of a configured line, in configured order. *)
Definition enabledSegments (lineConfig : LineConfig) : list (string * SegmentConfig) :=
  omap (fun e =>
          match snd e with
          | Some c => if enabled c then Some (fst e, c) else None
          | None => None
          end)
       (segments lineConfig).

(** The packing loop's variables; a physical line is kept as its segments
    and turned into text by [buildLineFromSegments] when the statusline is
    joined. *)
Record WrapState := {
  outputLines : list (list RenderedSegment);
  currentLineSegments : list RenderedSegment;
  currentLineWidth : Z;
}.

Section PowerlineRenderer.
Context `{Formatters} `{BudgetDisplay} `{ColorEncoders} `{Terminal}
        `{Constants} `{ThemeTables} `{Providers}.
Variable powerlineConfig : PowerlineConfig.
Variable env : ProcessEnv.

Definition initializeSymbols : PowerlineSymbols :=
  let style := display_style (display powerlineConfig) in
  let charset := default Unicode (charset (display powerlineConfig)) in
  let isMinimalStyle := match style with Minimal => true | _ => false end in
  let isCapsuleStyle := match style with Capsule => true | _ => false end in
  let symbolSet := match charset with Text => TEXT_SYMBOLS | Unicode => SYMBOLS end in
  {| sym_right :=
       if isMinimalStyle then ""
       else if isCapsuleStyle then set_right_rounded symbolSet else set_right symbolSet;
     sym_left := if isCapsuleStyle then set_left_rounded symbolSet else "";
     sym_branch := set_branch symbolSet;
     sym_model := set_model symbolSet;
     sym_git_clean := set_git_clean symbolSet;
     sym_git_dirty := set_git_dirty symbolSet;
     sym_git_conflicts := set_git_conflicts symbolSet;
     sym_git_ahead := set_git_ahead symbolSet;
     sym_git_behind := set_git_behind symbolSet;
     sym_git_worktree := set_git_worktree symbolSet;
     sym_git_tag := set_git_tag symbolSet;
     sym_git_sha := set_git_sha symbolSet;
     sym_git_upstream := set_git_upstream symbolSet;
     sym_git_stash := set_git_stash symbolSet;
     sym_git_time := set_git_time symbolSet;
     sym_session_cost := set_session_cost symbolSet;
     sym_block_cost := set_block_cost symbolSet;
     sym_today_cost := set_today_cost symbolSet;
     sym_context_time := set_context_time symbolSet;
     sym_metrics_response := set_metrics_response symbolSet;
     sym_metrics_last_response := set_metrics_last_response symbolSet;
     sym_metrics_duration := set_metrics_duration symbolSet;
     sym_metrics_messages := set_metrics_messages symbolSet;
     sym_metrics_lines_added := set_metrics_lines_added symbolSet;
     sym_metrics_lines_removed := set_metrics_lines_removed symbolSet;
     sym_metrics_burn := set_metrics_burn symbolSet;
     sym_version := set_version symbolSet |}.

(** [this.symbols], set by the constructor. *)
Definition symbols : PowerlineSymbols := initializeSymbols.

Definition isCapsuleStyle : bool :=
  match display_style (display powerlineConfig) with Capsule => true | _ => false end.

(** [colorMode === "auto" ? getColorSupport() : colorMode], with
    [colorMode] the configured compatibility or ["auto"]. *)
Definition colorSupport : ColorSupport :=
  match default Auto (colorCompatibility (display powerlineConfig)) with
  | Auto => getColorSupport
  | Fixed cs => cs
  end.

Definition needsSegmentInfo (segmentType : string) : bool :=
  existsb (fun line => default false (enabled <$> segmentConfigOf line segmentType))
          (lines (display powerlineConfig)).

(** One category's colours at the capability in use.  Reading [bg] of a
    category that neither table defines is a [TypeError]. *)
Definition getSegmentColors (colorTheme fallbackTheme : ColorTheme)
    (segment : ColorTheme -> option SegmentColor) : Eff SegmentColor :=
  let colors :=
    match segment colorTheme with
    | Some c => Some c
    | None => segment fallbackTheme
    end in
  match colorSupport with
  | CsNone => mret {| bg := ""; fg := "" |}
  | CsAnsi =>
      match colors with
      | Some c => mret {| bg := hexToBasicAnsi (bg c) true; fg := hexToBasicAnsi (fg c) false |}
      | None => throw "TypeError: Cannot read properties of undefined (reading 'bg')"
      end
  | CsAnsi256 =>
      match colors with
      | Some c => mret {| bg := hexTo256Ansi (bg c) true; fg := hexTo256Ansi (fg c) false |}
      | None => throw "TypeError: Cannot read properties of undefined (reading 'bg')"
      end
  | CsTruecolor =>
      match colors with
      | Some c => mret {| bg := hexToAnsi (bg c) true; fg := hexToAnsi (fg c) false |}
      | None => throw "TypeError: Cannot read properties of undefined (reading 'bg')"
      end
  end.

(** The non-null assertion [getTheme("dark", colorSupport)!]; ["dark"] is
    a key of [BUILT_IN_THEMES], so it always holds. *)
Definition darkThemeAsserted : Eff ColorTheme :=
  match getTheme "dark" colorSupport with
  | Some t => mret t
  | None => throw "TypeError: Cannot read properties of null"
  end.

(** The first part of [getThemeColors]: the table of the configured theme. *)
Definition selectColorTheme : Eff ColorTheme :=
let theme := theme powerlineConfig in
if String.eqb theme "custom" then
  match colors powerlineConfig ≫= custom with
  | Some t => mret t
  | None => throw "Custom theme selected but no colors provided in configuration"
  end
else
  match getTheme theme colorSupport with
  | Some t => mret t
  | None =>
      _ ← consoleWarn ("Built-in theme '" +:+ theme
                       +:+ "' not found, falling back to 'dark' theme");
      darkThemeAsserted
  end.

(** The second part of [getThemeColors]: every category of the chosen
    table, encoded at the capability in use. *)
Definition encodeThemeColors (colorTheme : ColorTheme) : Eff PowerlineColors :=
  fallbackTheme ← darkThemeAsserted;
  directory ← getSegmentColors colorTheme fallbackTheme th_directory;
  git ← getSegmentColors colorTheme fallbackTheme th_git;
  model ← getSegmentColors colorTheme fallbackTheme th_model;
  session ← getSegmentColors colorTheme fallbackTheme th_session;
  block ← getSegmentColors colorTheme fallbackTheme th_block;
  today ← getSegmentColors colorTheme fallbackTheme th_today;
  tmux ← getSegmentColors colorTheme fallbackTheme th_tmux;
  context ← getSegmentColors colorTheme fallbackTheme th_context;
  metrics ← getSegmentColors colorTheme fallbackTheme th_metrics;
  version ← getSegmentColors colorTheme fallbackTheme th_version;
  let warningThemeColors :=
    default {| bg := "#cc0000"; fg := "#ffffff" |} (th_warning colorTheme) in
  let warning :=
    match colorSupport with
    | CsNone => {| bg := ""; fg := "" |}
    | CsAnsi =>
        {| bg := hexToBasicAnsi (bg warningThemeColors) true;
           fg := hexToBasicAnsi (fg warningThemeColors) false |}
    | CsAnsi256 =>
        {| bg := hexTo256Ansi (bg warningThemeColors) true;
           fg := hexTo256Ansi (fg warningThemeColors) false |}
    | CsTruecolor =>
        {| bg := hexToAnsi (bg warningThemeColors) true;
           fg := hexToAnsi (fg warningThemeColors) false |}
    end in
  mret {|
    reset := match colorSupport with CsNone => "" | _ => RESET_CODE end;
    modeBg := bg directory; modeFg := fg directory;
    gitBg := bg git; gitFg := fg git;
    modelBg := bg model; modelFg := fg model;
    sessionBg := bg session; sessionFg := fg session;
    blockBg := bg block; blockFg := fg block;
    todayBg := bg today; todayFg := fg today;
    tmuxBg := bg tmux; tmuxFg := fg tmux;
    contextBg := bg context; contextFg := fg context;
    metricsBg := bg metrics; metricsFg := fg metrics;
    versionBg := bg version; versionFg := fg version;
    warningBg := bg warning; warningFg := fg warning;
  |}.

Definition getThemeColors : Eff PowerlineColors :=
colorTheme ← selectColorTheme;
encodeThemeColors colorTheme.



Definition getSegmentBgColor (segmentType : string) (colors : PowerlineColors) : string :=
  if String.eqb segmentType "directory" then modeBg colors
  else if String.eqb segmentType "git" then gitBg colors
  else if String.eqb segmentType "model" then modelBg colors
  else if String.eqb segmentType "session" then sessionBg colors
  else if String.eqb segmentType "block" then blockBg colors
  else if String.eqb segmentType "today" then todayBg colors
  else if String.eqb segmentType "tmux" then tmuxBg colors
  else if String.eqb segmentType "context" then contextBg colors
  else if String.eqb segmentType "metrics" then metricsBg colors
  else if String.eqb segmentType "version" then versionBg colors
  else modeBg colors.

Definition formatSegment (bgColor fgColor text : string) (nextBgColor : option string)
    (colors : PowerlineColors) : string :=
  let isBasicMode := match colorSupport with CsAnsi => true | _ => false end in
  if isCapsuleStyle then
    let capFgColor := extractBgToFg bgColor isBasicMode in
    let leftCap := capFgColor +:+ sym_left symbols +:+ reset colors in
    let content := bgColor +:+ fgColor +:+ " " +:+ text +:+ " " +:+ reset colors in
    let rightCap := capFgColor +:+ sym_right symbols +:+ reset colors in
    leftCap +:+ content +:+ rightCap
  else
    let output := bgColor +:+ fgColor +:+ " " +:+ text +:+ " " in
    match nextBgColor with
    | Some next =>
        if JsString.truthy nextBgColor then
          let arrowFgColor := extractBgToFg bgColor isBasicMode in
          output +:+ reset colors +:+ next +:+ arrowFgColor +:+ sym_right symbols
        else
          output +:+ reset colors +:+ extractBgToFg bgColor isBasicMode
          +:+ sym_right symbols +:+ reset colors
    | None =>
        output +:+ reset colors +:+ extractBgToFg bgColor isBasicMode
        +:+ sym_right symbols +:+ reset colors
    end.

Definition calculateSegmentWidth (segment : RenderedSegment) (isFirst : bool) : Z :=
  let textWidth := Z.of_nat (visibleLength (seg_text segment)) in
  if isCapsuleStyle then
    let capsuleOverhead := 4 + (if isFirst then 0 else 1) in
    textWidth + capsuleOverhead
  else
    let powerlineOverhead := 3 in
    textWidth + powerlineOverhead.

Definition buildLineFromSegments (segments : list RenderedSegment)
    (colors : PowerlineColors) : string :=
  fold_left
    (fun line '(i, segment) =>
       let isFirst := Nat.eqb i 0 in
       let isLast := Nat.eqb i (length segments - 1) in
       let nextSegment := if isLast then None else segments !! (i + 1)%nat in
       let nextBgColor :=
         match nextSegment with
         | Some n => getSegmentBgColor (seg_type n) colors
         | None => ""
         end in
       let line := if isCapsuleStyle && negb isFirst then line +:+ " " else line in
       line +:+ formatSegment (seg_bgColor segment) (seg_fgColor segment)
                  (seg_text segment)
                  (if isLast then None else Some nextBgColor) colors)
    (imap (fun i segment => (i, segment)) segments)
    (reset colors).

Definition renderGitSegment (config : SegmentConfig) (hookData : ClaudeHookData)
    (colors : PowerlineColors) (currentDir : string) : option SegmentData :=
  if negb (needsSegmentInfo "git") then None
  else
    let gitInfo :=
      getGitInfo currentDir
        {| opt_showSha := showSha config;
           opt_showWorkingTree := showWorkingTree config;
           opt_showOperation := showOperation config;
           opt_showTag := showTag config;
           opt_showTimeSinceCommit := showTimeSinceCommit config;
           opt_showStashCount := showStashCount config;
           opt_showUpstream := showUpstream config;
           opt_showRepoName := showRepoName config |}
        (hd_workspace hookData ≫= project_dir) in
    match gitInfo with
    | Some _ => renderGit symbols gitInfo colors (Some config)
    | None => None
    end.

Definition renderSessionSegment (config : SegmentConfig) (usageInfo : option UsageInfo)
    (colors : PowerlineColors) : option SegmentData :=
  match usageInfo with
  | None => None
  | Some usageInfo => Some (renderSession powerlineConfig symbols usageInfo colors (Some config))
  end.

Definition renderTmuxSegment (colors : PowerlineColors) : option SegmentData :=
  if negb (needsSegmentInfo "tmux") then None
  else renderTmux getSessionId colors.

Definition renderContextSegment (config : SegmentConfig)
    (contextInfo : option ContextInfo) (colors : PowerlineColors) : option SegmentData :=
  if negb (needsSegmentInfo "context") then None
  else renderContext symbols contextInfo colors (Some config).

Definition renderMetricsSegment (config : SegmentConfig)
    (metricsInfo : option MetricsInfo) (blockInfo : option BlockInfo)
    (colors : PowerlineColors) : option SegmentData :=
  renderMetrics symbols metricsInfo colors blockInfo (Some config).

Definition renderBlockSegment (config : SegmentConfig) (blockInfo : option BlockInfo)
    (colors : PowerlineColors) : option SegmentData :=
  match blockInfo with
  | None => None
  | Some blockInfo => Some (renderBlock powerlineConfig symbols blockInfo colors (Some config))
  end.

Definition renderTodaySegment (config : SegmentConfig) (todayInfo : option TodayInfo)
    (colors : PowerlineColors) : option SegmentData :=
  match todayInfo with
  | None => None
  | Some todayInfo =>
      let todayType := JsString.orElse (cfg_type config) "cost" in
      Some (renderToday powerlineConfig symbols todayInfo colors todayType)
  end.

Definition renderVersionSegment (config : SegmentConfig) (hookData : ClaudeHookData)
    (colors : PowerlineColors) : option SegmentData :=
  renderVersion symbols hookData colors (Some config).

Definition renderSegment (segment : string * SegmentConfig) (hookData : ClaudeHookData)
    (usageInfo : option UsageInfo) (blockInfo : option BlockInfo)
    (todayInfo : option TodayInfo) (contextInfo : option ContextInfo)
    (metricsInfo : option MetricsInfo) (colors : PowerlineColors)
    (currentDir : string) : option SegmentData :=
  let type := fst segment in
  let config := snd segment in
  if String.eqb type "directory" then
    Some (renderDirectory env hookData colors (Some config))
  else if String.eqb type "model" then Some (renderModel symbols hookData colors)
  else if String.eqb type "git" then renderGitSegment config hookData colors currentDir
  else if String.eqb type "session" then renderSessionSegment config usageInfo colors
  else if String.eqb type "tmux" then renderTmuxSegment colors
  else if String.eqb type "context" then renderContextSegment config contextInfo colors
  else if String.eqb type "metrics" then
    renderMetricsSegment config metricsInfo blockInfo colors
  else if String.eqb type "block" then renderBlockSegment config blockInfo colors
  else if String.eqb type "today" then renderTodaySegment config todayInfo colors
  else if String.eqb type "version" then renderVersionSegment config hookData colors
  else None.

Definition renderLine (lineConfig : LineConfig) (hookData : ClaudeHookData)
    (usageInfo : option UsageInfo) (blockInfo : option BlockInfo)
    (todayInfo : option TodayInfo) (contextInfo : option ContextInfo)
    (metricsInfo : option MetricsInfo) : Eff string :=
  colors ← getThemeColors;
  let currentDir := currentDirOf hookData in
  let segments := enabledSegments lineConfig in
  mret
    (fold_left
       (fun line '(i, segment) =>
          let isFirst := Nat.eqb i 0 in
          let isLast := Nat.eqb i (length segments - 1) in
          let nextSegment := if isLast then None else segments !! (i + 1)%nat in
          let nextBgColor :=
            match nextSegment with
            | Some n => getSegmentBgColor (fst n) colors
            | None => ""
            end in
          let segmentData :=
            renderSegment segment hookData usageInfo blockInfo todayInfo
              contextInfo metricsInfo colors currentDir in
          match segmentData with
          | Some segmentData =>
              let line := if isCapsuleStyle && negb isFirst then line +:+ " " else line in
              line +:+ formatSegment (bgColor segmentData) (fgColor segmentData)
                         (text segmentData)
                         (if isLast then None else Some nextBgColor) colors
          | None => line
          end)
       (imap (fun i segment => (i, segment)) segments)
       (reset colors)).

(** One turn of the packing loop of [generateAutoWrapStatusline]. *)
Definition wrapStep (terminalWidth : Z) (st : WrapState) (segment : RenderedSegment)
    : WrapState :=
  let segmentWidth :=
    calculateSegmentWidth segment (Nat.eqb (length (currentLineSegments st)) 0) in
  let st :=
    if (0 <? Z.of_nat (length (currentLineSegments st)))
       && (terminalWidth <? currentLineWidth st + segmentWidth)
    then {| outputLines := outputLines st ++ [currentLineSegments st];
            currentLineSegments := [];
            currentLineWidth := 0 |}
    else st in
  {| outputLines := outputLines st;
     currentLineSegments := currentLineSegments st ++ [segment];
     currentLineWidth := currentLineWidth st + segmentWidth |}.

(** The packing loop and the final flush: the physical lines added to
    [outputLines] for one configured line. *)
Definition wrapSegments (terminalWidth : Z) (outputLines0 : list (list RenderedSegment))
    (renderedSegments : list RenderedSegment) : list (list RenderedSegment) :=
  let st :=
    fold_left (wrapStep terminalWidth) renderedSegments
      {| outputLines := outputLines0; currentLineSegments := []; currentLineWidth := 0 |} in
  if 0 <? Z.of_nat (length (currentLineSegments st))
  then outputLines st ++ [currentLineSegments st]
  else outputLines st.

(** The rendered segments of one configured line. *)
Definition renderSegments (lineConfig : LineConfig) (hookData : ClaudeHookData)
    (usageInfo : option UsageInfo) (blockInfo : option BlockInfo)
    (todayInfo : option TodayInfo) (contextInfo : option ContextInfo)
    (metricsInfo : option MetricsInfo) (colors : PowerlineColors)
    (currentDir : string) : list RenderedSegment :=
  omap (fun segment =>
          match renderSegment segment hookData usageInfo blockInfo todayInfo
                  contextInfo metricsInfo colors currentDir with
          | Some segmentData =>
              Some {| seg_type := fst segment;
                      seg_text := text segmentData;
                      seg_bgColor := bgColor segmentData;
                      seg_fgColor := fgColor segmentData |}
          | None => None
          end)
       (enabledSegments lineConfig).

(** The outer loop of [generateAutoWrapStatusline]: one configured line
    adds its physical lines to [outputLines]. *)
Definition autoWrapLine (hookData : ClaudeHookData)
    (usageInfo : option UsageInfo) (blockInfo : option BlockInfo)
    (todayInfo : option TodayInfo) (contextInfo : option ContextInfo)
    (metricsInfo : option MetricsInfo) (colors : PowerlineColors)
    (currentDir : string) (terminalWidth : option Z)
    (outputLines0 : list (list RenderedSegment)) (lineConfig : LineConfig)
    : list (list RenderedSegment) :=
  let renderedSegments :=
    renderSegments lineConfig hookData usageInfo blockInfo todayInfo
      contextInfo metricsInfo colors currentDir in
  if Nat.eqb (length renderedSegments) 0 then outputLines0
  else
    match terminalWidth with
    | Some w =>
        if (w =? 0) || (w <=? 0) then outputLines0 ++ [renderedSegments]
        else wrapSegments w outputLines0 renderedSegments
    | None => outputLines0 ++ [renderedSegments]
    end.

Definition generateAutoWrapStatusline (hookData : ClaudeHookData)
    (usageInfo : option UsageInfo) (blockInfo : option BlockInfo)
    (todayInfo : option TodayInfo) (contextInfo : option ContextInfo)
    (metricsInfo : option MetricsInfo) : Eff string :=
  colors ← getThemeColors;
  let currentDir := currentDirOf hookData in
  let terminalWidth := getTerminalWidth in
  let outputLines :=
    fold_left
      (autoWrapLine hookData usageInfo blockInfo todayInfo contextInfo
         metricsInfo colors currentDir terminalWidth)
      (lines (display powerlineConfig)) [] in
  mret (JsString.join LF (map (fun l => buildLineFromSegments l colors) outputLines)).

Definition generateStatusline (hookData : ClaudeHookData) : Eff string :=
  let usageInfo :=
    if needsSegmentInfo "session"
    then getUsageInfo (hd_session_id hookData) hookData else None in
  let blockInfo := if needsSegmentInfo "block" then getActiveBlockInfo else None in
  let todayInfo := if needsSegmentInfo "today" then getTodayInfo else None in
  let contextInfo :=
    if needsSegmentInfo "context"
    then calculateContextTokens (hd_transcript_path hookData)
           (hd_model hookData ≫= model_id)
    else None in
  let metricsInfo :=
    if needsSegmentInfo "metrics"
    then getMetricsInfo (hd_session_id hookData) hookData else None in
  if autoWrap (display powerlineConfig) then
    generateAutoWrapStatusline hookData usageInfo blockInfo todayInfo
      contextInfo metricsInfo
  else
    lines ←
      mapM (fun lineConfig =>
              renderLine lineConfig hookData usageInfo blockInfo todayInfo
                contextInfo metricsInfo)
           (lines (display powerlineConfig));
    mret (JsString.join LF (List.filter (fun line => 0 <? Z.of_nat (String.length line)) lines)).

End PowerlineRenderer.

(** The configuration with another theme name. *)
Definition withTheme (name : string) (c : PowerlineConfig) : PowerlineConfig :=
  {| theme := name; display := display c; colors := colors c; budget := budget c |}.

(** A table that defines every category, as the interface [ColorTheme]
    requires of the built-in tables. *)
Definition complete (t : ColorTheme) : bool :=
  match th_directory t, th_git t, th_model t, th_session t, th_block t,
        th_today t, th_tmux t, th_context t, th_metrics t, th_version t with
  | Some _, Some _, Some _, Some _, Some _, Some _, Some _, Some _, Some _, Some _ => true
  | _, _, _, _, _, _, _, _, _, _ => false
  end.

Definition darkComplete `{ThemeTables} : bool :=
  complete darkTheme && complete darkAnsi256Theme && complete darkAnsiTheme.

(** The computed width of a physical line, in the words of the
    specification: the visible width of the text of its segments, plus 3 for
    every segment in arrow style, or 4 for every segment and 1 more for every
    segment after the first in capsule style. *)
Definition physicalLineWidth `{Terminal} (cfg : PowerlineConfig)
    (line : list RenderedSegment) : Z :=
  let textWidth :=
    Z.of_nat (sum_list_with (fun s => visibleLength (seg_text s)) line) in
  let n := Z.of_nat (length line) in
  if isCapsuleStyle cfg then textWidth + 4 * n + Z.max 0 (n - 1)
  else textWidth + 3 * n.

(** A physical line fits a terminal when its computed width is at most the
    terminal width, or when it is a single segment that is wider on its own. *)
Definition fitsTerminal `{Terminal} (cfg : PowerlineConfig) (terminalWidth : Z)
    (line : list RenderedSegment) : Prop :=
  line <> []
  /\ (physicalLineWidth cfg line <= terminalWidth
      \/ exists s, line = [s] /\ terminalWidth < physicalLineWidth cfg [s]).

(** What the packing loop maintains, for the lines [out0] it was given and
    the segments [done] it has placed: the lines emitted since fit, the line
    being filled is charged at least its computed width, and a line being
    filled that holds two segments or more is within the terminal. *)
Record WrapInv `{Terminal} (cfg : PowerlineConfig) (W : Z)
    (out0 : list (list RenderedSegment)) (done : list RenderedSegment)
    (st : WrapState) : Prop := {
  inv_emitted :
    exists emitted,
      outputLines st = (out0 ++ emitted)%list
      /\ Forall (fitsTerminal cfg W) emitted
      /\ (concat emitted ++ currentLineSegments st)%list = done;
  inv_charged : physicalLineWidth cfg (currentLineSegments st) <= currentLineWidth st;
  inv_empty : currentLineSegments st = [] -> currentLineWidth st = 0;
  inv_within :
    (2 <= length (currentLineSegments st))%nat -> currentLineWidth st <= W;
}.

(** The warning written for a theme name that is not built in. *)
Definition unknownThemeWarning (name : string) : string :=
  "Built-in theme '" +:+ name +:+ "' not found, falling back to 'dark' theme".

(** ** segments/context: [ContextProvider]

    The provider of the context segment.  Reading and parsing the transcript
    is outside: its outcome is an argument.  The [debug] log lines are not
    modelled; the one of the backwards search reads the timestamp of the
    entry it found, which every parsed entry is taken to carry, as its type
    says. *)

Module JsText.

(** [c.toLowerCase()] for one code unit: the letters A to Z. *)
Definition lowerChar (c : ascii) : ascii :=
  let n := nat_of_ascii c in
  if (65 <=? n)%nat && (n <=? 90)%nat then ascii_of_nat (n + 32) else c.

(** [s.toLowerCase()] *)
Fixpoint toLowerCase (s : string) : string :=
  match s with
  | EmptyString => EmptyString
  | String c s' => String (lowerChar c) (toLowerCase s')
  end.

(** [s.includes(sub)] *)
Fixpoint includes (s sub : string) : bool :=
  if String.prefix sub s then true
  else match s with
       | EmptyString => false
       | String _ s' => includes s' sub
       end.

End JsText.

(** The token counts of an entry are the numbers the transcript holds. *)
Record Usage := {
  input_tokens : option float;
  cache_read_input_tokens : option float;
  cache_creation_input_tokens : option float;
}.

Record Message := { usage : option Usage }.

Record ParsedEntry := {
  message : option Message;
  isSidechain : option bool;
}.

Module ContextProvider.
Section WithConfig.
(** [this.config.modelContextLimits]: limits by model type. *)
Variable modelContextLimits : option (gmap string float).

Definition getModelType (modelId : string) : string :=
  let id := JsText.toLowerCase modelId in
  if JsText.includes id "sonnet" then "sonnet"
  else if JsText.includes id "opus" then "opus"
  else "default".

Definition getContextLimit (modelId : string) : float :=
  let modelLimits := default {[ "default" := 200000%float ]} modelContextLimits in
  let modelType := getModelType modelId in
  JsNumber.orElse (modelLimits !! modelType)
    (JsNumber.orElse (modelLimits !! "default") 200000).

(** The test of the backwards search: an entry of the main chain that
    reports input tokens. *)
Definition countsForContext (entry : ParsedEntry) : bool :=
  default false (JsNumber.truthy <$> (message entry ≫= usage) ≫= input_tokens)
  && negb (match isSidechain entry with Some true => true | _ => false end).

(** [Math.min(100, Math.max(0, Math.round((length / limit) * 100)))] *)
Definition percentOf (length limit : float) : float :=
  JsNumber.min 100 (JsNumber.max 0 (JsNumber.round (length / limit * 100)%float)).

(** [content] is what was read from the transcript ([None] when reading
    failed), [parsedEntries] what [parseJsonlFile] returned ([None] when it
    threw). *)
Definition calculateContextTokens (content : option string)
    (parsedEntries : option (list ParsedEntry)) (modelId : option string)
    : option ContextInfo :=
  if negb (JsString.truthy content) then None
  else
    match parsedEntries with
    | None => None
    | Some parsedEntries =>
        if Nat.eqb (length parsedEntries) 0 then None
        else
          let mostRecentEntry := List.find countsForContext (rev parsedEntries) in
          match (mostRecentEntry ≫= message) ≫= usage with
          | Some usage =>
              let contextLength :=
                (JsNumber.orElse (input_tokens usage) 0
                 + JsNumber.orElse (cache_read_input_tokens usage) 0
                 + JsNumber.orElse (cache_creation_input_tokens usage) 0)%float in
              let contextLimit :=
                match modelId with
                | Some id =>
                    if JsString.truthy modelId then getContextLimit id else 200000%float
                | None => 200000%float
                end in
              let percentage := percentOf contextLength contextLimit in
              let usableLimit := contextLimit in
              let usablePercentage := percentOf contextLength usableLimit in
              let contextLeftPercentage :=
                JsNumber.max 0 (100 - usablePercentage)%float in
              Some {| inputTokens := contextLength;
                      percentage := percentage;
                      usablePercentage := usablePercentage;
                      contextLeftPercentage := contextLeftPercentage;
                      maxTokens := contextLimit;
                      usableTokens := usableLimit |}
          | None => None
          end
    end.

End WithConfig.
End ContextProvider.

(** ** Reference descriptions used by the further properties *)

(** The six built-in themes and the suffix of the variant a capability
    prefers. *)
Definition baseThemeNames : list string :=
  ["dark"; "light"; "nord"; "tokyo-night"; "rose-pine"; "gruvbox"].

Definition variantSuffix (cs : ColorSupport) : string :=
  match cs with
  | CsNone | CsAnsi => "-ansi"
  | CsAnsi256 => "-ansi256"
  | CsTruecolor => ""
  end.

(** One colour at a capability. *)
Definition encodeHex `{ColorEncoders} (cs : ColorSupport) (hex : string) (isBg : bool)
    : string :=
  match cs with
  | CsNone => ""
  | CsAnsi => hexToBasicAnsi hex isBg
  | CsAnsi256 => hexTo256Ansi hex isBg
  | CsTruecolor => hexToAnsi hex isBg
  end.

(** A table with the categories it lacks taken from another; the warning
    pair is left as it is. *)
Definition fillFrom (t fallback : ColorTheme) : ColorTheme :=
  let pick (f : ColorTheme -> option SegmentColor) :=
    match f t with Some c => Some c | None => f fallback end in
  {| th_directory := pick th_directory; th_git := pick th_git;
     th_model := pick th_model; th_session := pick th_session;
     th_block := pick th_block; th_today := pick th_today;
     th_tmux := pick th_tmux; th_context := pick th_context;
     th_metrics := pick th_metrics; th_version := pick th_version;
     th_warning := th_warning t |}.

(** The colour set of a table at a capability: every pair encoded, the
    warning pair red on white unless the table has one. *)
Definition encodedColors `{ColorEncoders} `{Constants} (cs : ColorSupport)
    (t : ColorTheme) : PowerlineColors :=
  let none := {| bg := ""; fg := "" |} in
  let b (o : option SegmentColor) := encodeHex cs (bg (default none o)) true in
  let f (o : option SegmentColor) := encodeHex cs (fg (default none o)) false in
  let warning := Some (default {| bg := "#cc0000"; fg := "#ffffff" |} (th_warning t)) in
  {| reset := match cs with CsNone => "" | _ => RESET_CODE end;
     modeBg := b (th_directory t); modeFg := f (th_directory t);
     gitBg := b (th_git t); gitFg := f (th_git t);
     modelBg := b (th_model t); modelFg := f (th_model t);
     sessionBg := b (th_session t); sessionFg := f (th_session t);
     blockBg := b (th_block t); blockFg := f (th_block t);
     todayBg := b (th_today t); todayFg := f (th_today t);
     tmuxBg := b (th_tmux t); tmuxFg := f (th_tmux t);
     contextBg := b (th_context t); contextFg := f (th_context t);
     metricsBg := b (th_metrics t); metricsFg := f (th_metrics t);
     versionBg := b (th_version t); versionFg := f (th_version t);
     warningBg := b warning; warningFg := f warning |}.

(** The text of the segments of a physical line, one after the other: a
    space before every capsule but the first, and every segment formatted
    towards the background of the kind that follows it. *)
Fixpoint emitSegments `{ColorEncoders} `{Constants} (cfg : PowerlineConfig)
    (colors : PowerlineColors) (isFirst : bool) (segs : list RenderedSegment)
    {struct segs} : string :=
  match segs with
  | [] => ""
  | s :: rest =>
      (if isCapsuleStyle cfg && negb isFirst then " " else "")
      +:+ formatSegment cfg (seg_bgColor s) (seg_fgColor s) (seg_text s)
            (match rest with
             | [] => None
             | n :: _ => Some (getSegmentBgColor (seg_type n) colors)
             end)
            colors
      +:+ emitSegments cfg colors false rest
  end.

(** A rendered segment of a kind. *)
Definition toRendered (type : string) (d : SegmentData) : RenderedSegment :=
  {| seg_type := type; seg_text := text d;
     seg_bgColor := bgColor d; seg_fgColor := fgColor d |}.

(** The colour set without colours. *)
Definition noColors : PowerlineColors := {|
  reset := "";
  modeBg := ""; modeFg := ""; gitBg := ""; gitFg := "";
  modelBg := ""; modelFg := ""; sessionBg := ""; sessionFg := "";
  blockBg := ""; blockFg := ""; todayBg := ""; todayFg := "";
  tmuxBg := ""; tmuxFg := ""; contextBg := ""; contextFg := "";
  metricsBg := ""; metricsFg := ""; versionBg := ""; versionFg := "";
  warningBg := ""; warningFg := "";
|}.

(** The dark table of a capability. *)
Definition darkTable `{ThemeTables} (cs : ColorSupport) : ColorTheme :=
  match cs with
  | CsNone | CsAnsi => darkAnsiTheme
  | CsAnsi256 => darkAnsi256Theme
  | CsTruecolor => darkTheme
  end.

(** The style of the directory segment that is in effect:
    [config?.style ?? (config?.showBasename ? "basename" : "full")]. *)
Definition directoryStyle (config : option SegmentConfig) : DirectoryStyle :=
  match config ≫= cfg_style with
  | Some s => s
  | None => if isOn (config ≫= showBasename) then StyleBasename else StyleFull
  end.

(** The configuration with other budgets. *)
Definition withBudget (b : option BudgetConfig) (c : PowerlineConfig) : PowerlineConfig :=
  {| theme := theme c; display := display c; colors := colors c; budget := b |}.

(** The facts [generateStatusline] gathers before it composes: a provider
    is asked only when some line enables its segment. *)
Definition gatheredUsage `{Providers} (cfg : PowerlineConfig) (hookData : ClaudeHookData)
    : option UsageInfo :=
  if needsSegmentInfo cfg "session"
  then getUsageInfo (hd_session_id hookData) hookData else None.

Definition gatheredBlock `{Providers} (cfg : PowerlineConfig) : option BlockInfo :=
  if needsSegmentInfo cfg "block" then getActiveBlockInfo else None.

Definition gatheredToday `{Providers} (cfg : PowerlineConfig) : option TodayInfo :=
  if needsSegmentInfo cfg "today" then getTodayInfo else None.

Definition gatheredContext `{Providers} (cfg : PowerlineConfig) (hookData : ClaudeHookData)
    : option ContextInfo :=
  if needsSegmentInfo cfg "context"
  then calculateContextTokens (hd_transcript_path hookData) (hd_model hookData ≫= model_id)
  else None.

Definition gatheredMetrics `{Providers} (cfg : PowerlineConfig) (hookData : ClaudeHookData)
    : option MetricsInfo :=
  if needsSegmentInfo cfg "metrics"
  then getMetricsInfo (hd_session_id hookData) hookData else None.

(** The segments a configured line renders from the gathered facts, and
    the text of the line when they are kept on one physical line. *)
Definition lineSegments `{Formatters} `{BudgetDisplay} `{Constants} `{Providers}
    (cfg : PowerlineConfig) (env : ProcessEnv) (hookData : ClaudeHookData)
    (colors : PowerlineColors) (lineConfig : LineConfig) : list RenderedSegment :=
  renderSegments cfg env lineConfig hookData (gatheredUsage cfg hookData)
    (gatheredBlock cfg) (gatheredToday cfg) (gatheredContext cfg hookData)
    (gatheredMetrics cfg hookData) colors (currentDirOf hookData).

Definition allRendered `{Formatters} `{BudgetDisplay} `{Constants} `{Providers}
    (cfg : PowerlineConfig) (env : ProcessEnv) (hookData : ClaudeHookData)
    (colors : PowerlineColors) (lineConfig : LineConfig) : bool :=
  forallb
    (fun segment =>
       bool_decide
         (is_Some
            (renderSegment cfg env segment hookData (gatheredUsage cfg hookData)
               (gatheredBlock cfg) (gatheredToday cfg) (gatheredContext cfg hookData)
               (gatheredMetrics cfg hookData) colors (currentDirOf hookData))))
    (enabledSegments lineConfig).

(** A segment configuration that sets nothing but [enabled]. *)
Definition segmentConfig (on : bool) : SegmentConfig := {|
  enabled := on;
  cfg_style := None; showBasename := None;
  showSha := None; showAheadBehind := None; showWorkingTree := None;
  showOperation := None; showTag := None; showTimeSinceCommit := None;
  showStashCount := None; showUpstream := None; showRepoName := None;
  cfg_type := None; costSource := None;
  showPercentageOnly := None; cfg_warningThreshold := None;
  showResponseTime := None; showLastResponseTime := None; showDuration := None;
  showMessageCount := None; showLinesAdded := None; showLinesRemoved := None;
  burnType := None;
|}.

(** The directory segment configured with a style. *)
Definition directoryConfig (style : DirectoryStyle) : SegmentConfig := {|
  enabled := true;
  cfg_style := Some style; showBasename := None;
  showSha := None; showAheadBehind := None; showWorkingTree := None;
  showOperation := None; showTag := None; showTimeSinceCommit := None;
  showStashCount := None; showUpstream := None; showRepoName := None;
  cfg_type := None; costSource := None;
  showPercentageOnly := None; cfg_warningThreshold := None;
  showResponseTime := None; showLastResponseTime := None; showDuration := None;
  showMessageCount := None; showLinesAdded := None; showLinesRemoved := None;
  burnType := None;
|}.

(** Facts that place the session in [cwd], inside the project [root]. *)
Definition hookDataAt (cwd root : string) (viaWorkspace : bool) : ClaudeHookData := {|
  hd_workspace :=
    Some {| current_dir := if viaWorkspace then Some cwd else None;
            project_dir := Some root |};
  hd_cwd := Some cwd;
  hd_model := None;
  hd_session_id := "";
  hd_transcript_path := "";
  hd_version := None;
|}.

(** ** A concrete platform

    One instance of every interface, and sample facts, on which the model
    is run in the examples below. *)

Module Sample.

(** The whole part of a number, zero for what is not finite. *)
Definition wholePart (x : float) : Z :=
  match Prim2SF x with
  | S754_finite s m e =>
      let v := if 0 <=? e then Z.shiftl (Z.pos m) e else Z.shiftr (Z.pos m) (- e) in
      if s then - v else v
  | _ => 0
  end.

(** A count with its digits in groups of three, as the locale en-US
    writes it. *)
Fixpoint grouped (groups : nat) (n : Z) : string :=
  match groups with
  | O => showZ n
  | S groups' =>
      if n <? 1000 then showZ n
      else
        let r := n mod 1000 in
        grouped groups' (n / 1000) +:+ ","
        +:+ (if r <? 10 then "00" else if r <? 100 then "0" else "") +:+ showZ r
  end.

Definition formatters : Formatters := {|
  formatCost := fun c =>
    match c with Some q => "$" +:+ showZ (Qfloor q) | None => "$0.00" end;
  formatTokens := fun t =>
    match t with Some n => showZ n +:+ " tokens" | None => "0 tokens" end;
  formatTokenBreakdown := fun b =>
    match b with
    | Some x => showZ (tb_input x) +:+ "in + " +:+ showZ (tb_output x) +:+ "out"
    | None => "0 tokens"
    end;
  formatTimeSince := fun t => showZ t +:+ "s";
  formatDuration := fun d => showZ (Qfloor d) +:+ "s";
  toFixed := fun x _ => showZ (mathRound x);
  toLocaleString := fun x => grouped 8 (wholePart x);
  numberToString := fun x =>
    if is_nan x then "NaN"
    else if (x =? infinity)%float then "Infinity"
    else if (x =? neg_infinity)%float then "-Infinity"
    else showZ (wholePart x);
|}.

Definition budgetDisplay : BudgetDisplay := {|
  budgetSuffix := fun t percent =>
    match t with
    | TierNone => ""
    | TierOk => " " +:+ showZ (mathRound percent) +:+ "%"
    | TierWarning => " !" +:+ showZ (mathRound percent) +:+ "%"
    | TierExceeded => " !!" +:+ showZ (mathRound percent) +:+ "%"
    end;
|}.

Definition encoders : ColorEncoders := {|
  hexToAnsi := fun hex isBg => (if isBg then "<bg " else "<fg ") +:+ hex +:+ ">";
  hexToBasicAnsi := fun hex isBg => (if isBg then "<bg16 " else "<fg16 ") +:+ hex +:+ ">";
  hexTo256Ansi := fun hex isBg => (if isBg then "<bg256 " else "<fg256 ") +:+ hex +:+ ">";
  extractBgToFg := fun code _ => "<as-fg " +:+ code +:+ ">";
  getColorSupport := CsTruecolor;
|}.

(** A terminal twenty columns wide that measures a text by its length. *)
Definition terminal : Terminal := {|
  getTerminalWidth := Some 20;
  visibleLength := String.length;
|}.

Definition symbolSet : SymbolSet := {|
  set_right := ">"; set_right_rounded := ")"; set_left_rounded := "(";
  set_branch := "br"; set_model := "M";
  set_git_clean := "ok"; set_git_dirty := "*"; set_git_conflicts := "!";
  set_git_ahead := "^"; set_git_behind := "v"; set_git_worktree := "wt";
  set_git_tag := "tag"; set_git_sha := "#"; set_git_upstream := "@";
  set_git_stash := "st"; set_git_time := "t";
  set_session_cost := "S"; set_block_cost := "B"; set_today_cost := "T";
  set_context_time := "C";
  set_metrics_response := "R"; set_metrics_last_response := "L";
  set_metrics_duration := "D"; set_metrics_messages := "N";
  set_metrics_lines_added := "+"; set_metrics_lines_removed := "-";
  set_metrics_burn := "b"; set_version := "V";
|}.

Definition constants : Constants := {|
  SYMBOLS := symbolSet;
  TEXT_SYMBOLS := symbolSet;
  RESET_CODE := "<reset>";
|}.

(** A table that gives every category the same pair. *)
Definition table (b f : string) : ColorTheme :=
  let c := Some {| bg := b; fg := f |} in
  {| th_directory := c; th_git := c; th_model := c; th_session := c;
     th_block := c; th_today := c; th_tmux := c; th_context := c;
     th_metrics := c; th_version := c; th_warning := None |}.

Definition tables : ThemeTables := {|
  darkTheme := table "#111111" "#eeeeee";
  darkAnsi256Theme := table "#121212" "#e4e4e4";
  darkAnsiTheme := table "#000000" "#ffffff";
  lightTheme := table "#eeeeee" "#111111";
  lightAnsi256Theme := table "#e4e4e4" "#121212";
  lightAnsiTheme := table "#ffffff" "#000000";
  nordTheme := table "#2e3440" "#d8dee9";
  nordAnsi256Theme := table "#303030" "#dadada";
  nordAnsiTheme := table "#000080" "#c0c0c0";
  tokyoNightTheme := table "#1a1b26" "#c0caf5";
  tokyoNightAnsi256Theme := table "#1c1c1c" "#c6c6c6";
  tokyoNightAnsiTheme := table "#000080" "#ffffff";
  rosePineTheme := table "#191724" "#e0def4";
  rosePineAnsi256Theme := table "#1c1c1c" "#e4e4e4";
  rosePineAnsiTheme := table "#800080" "#ffffff";
  gruvboxTheme := table "#282828" "#ebdbb2";
  gruvboxAnsi256Theme := table "#262626" "#ffd7af";
  gruvboxAnsiTheme := table "#808000" "#ffffff";
|}.

(** No provider knows anything. *)
Definition providers : Providers := {|
  getUsageInfo := fun _ _ => None;
  getActiveBlockInfo := None;
  getTodayInfo := None;
  calculateContextTokens := fun _ _ => None;
  getMetricsInfo := fun _ _ => None;
  getGitInfo := fun _ _ _ => None;
  getSessionId := None;
|}.

Definition palette : PowerlineColors := {|
  reset := "<reset>";
  modeBg := "<bg dir>"; modeFg := "<fg dir>";
  gitBg := "<bg git>"; gitFg := "<fg git>";
  modelBg := "<bg model>"; modelFg := "<fg model>";
  sessionBg := "<bg session>"; sessionFg := "<fg session>";
  blockBg := "<bg block>"; blockFg := "<fg block>";
  todayBg := "<bg today>"; todayFg := "<fg today>";
  tmuxBg := "<bg tmux>"; tmuxFg := "<fg tmux>";
  contextBg := "<bg context>"; contextFg := "<fg context>";
  metricsBg := "<bg metrics>"; metricsFg := "<fg metrics>";
  versionBg := "<bg version>"; versionFg := "<fg version>";
  warningBg := "<bg warning>"; warningFg := "<fg warning>";
|}.

(** Alice works in [~/proj/src]. *)
Definition env : ProcessEnv := {| HOME := Some "/home/alice"; USERPROFILE := None |}.

Definition hookData : ClaudeHookData := {|
  hd_workspace :=
    Some {| current_dir := Some "/home/alice/proj/src";
            project_dir := Some "/home/alice/proj" |};
  hd_cwd := Some "/home/alice/proj/src";
  hd_model := None;
  hd_session_id := "session";
  hd_transcript_path := "/tmp/transcript.jsonl";
  hd_version := None;
|}.

(** A configuration with one budget-free theme, style and line list. *)
Definition config (name : string) (style : DisplayStyle) (wrap : bool)
    (configured : list LineConfig) : PowerlineConfig := {|
  theme := name;
  display := {| display_style := style; charset := None;
                colorCompatibility := Some (Fixed CsTruecolor);
                autoWrap := wrap; lines := configured |};
  colors := None;
  budget := None;
|}.

(** The same with a session budget of 10 whose warning threshold is 0. *)
Definition budgetConfig : PowerlineConfig := {|
  theme := "dark";
  display := {| display_style := Powerline; charset := None;
                colorCompatibility := None; autoWrap := false; lines := [] |};
  colors := None;
  budget :=
    Some {| budget_session :=
              Some {| budget_amount := Some 10%Q;
                      budget_warningThreshold := Some 0%Q;
                      budget_type := None |};
            budget_block := None;
            budget_today := None |};
|}.

(** A session that has cost 4 so far. *)
Definition usageInfo : UsageInfo := {|
  session := {| ses_cost := Some 4%Q; ses_calculatedCost := None;
                ses_officialCost := None; ses_tokens := Some 1200;
                ses_tokenBreakdown := None |};
|}.

(** On main, two commits ahead of the remote, with uncommitted changes. *)
Definition gitInfo : GitInfo := {|
  repoName := None; isWorktree := None; operation := None;
  branch := "main"; tag := None; sha := None;
  ahead := 2; behind := 0;
  staged := None; unstaged := None; untracked := None; conflicts := None;
  upstream := None; stashCount := None; timeSinceCommit := None;
  status := Dirty;
|}.

(** Directory, model and multiplexer on one line. *)
Definition threeSegments : LineConfig := {|
  segments := [("directory", Some (directoryConfig StyleBasename));
               ("model", Some (segmentConfig true));
               ("tmux", Some (segmentConfig true))];
|}.

(** A line whose only segment, the version, has nothing to show. *)
Definition versionOnly : LineConfig := {|
  segments := [("version", Some (segmentConfig true))];
|}.

(** The colour set of the sample dark table at full colour. *)
Definition darkColors : PowerlineColors :=
  @encodedColors encoders constants CsTruecolor (table "#111111" "#eeeeee").

(** A custom table that defines the directory only, without colours. *)
Definition monochrome : PowerlineConfig := {|
  theme := "custom";
  display := {| display_style := Powerline; charset := None;
                colorCompatibility := Some (Fixed CsNone);
                autoWrap := false; lines := [] |};
  colors :=
    Some {| custom :=
              Some {| th_directory := Some {| bg := "#123456"; fg := "#ffffff" |};
                      th_git := None; th_model := None; th_session := None;
                      th_block := None; th_today := None; th_tmux := None;
                      th_context := None; th_metrics := None; th_version := None;
                      th_warning := None |} |};
  budget := None;
|}.

(** A block budget of 10, counted in tokens. *)
Definition tokenBudgetConfig : PowerlineConfig := {|
  theme := "dark";
  display := {| display_style := Powerline; charset := None;
                colorCompatibility := None; autoWrap := false; lines := [] |};
  colors := None;
  budget :=
    Some {| budget_session := None;
            budget_block :=
              Some {| budget_amount := Some 10%Q;
                      budget_warningThreshold := None;
                      budget_type := Some BudgetTokens |};
            budget_today := None |};
|}.

(** A block that has cost 4 and used 1200 tokens. *)
Definition blockInfo : BlockInfo := {|
  blk_cost := Some 4%Q; blk_tokens := Some 1200; blk_weightedTokens := None;
  blk_timeRemaining := None; blk_burnRate := None; blk_tokenBurnRate := None;
|}.

(** Lines of one segment. *)
Definition directoryOnly : LineConfig := {|
  segments := [("directory", Some (directoryConfig StyleBasename))];
|}.

Definition modelOnly : LineConfig := {|
  segments := [("model", Some (segmentConfig true))];
|}.

Definition modelThenVersion : LineConfig := {|
  segments := [("model", Some (segmentConfig true));
               ("version", Some (segmentConfig true))];
|}.


(** A rendered segment of a kind with a text. *)
Definition rendered (type text : string) : RenderedSegment := {|
  seg_type := type; seg_text := text; seg_bgColor := "<bg>"; seg_fgColor := "<fg>";
|}.

(** Transcript entries: one that reports its tokens, and one without a
    usage record. *)
Definition entry (input read created : float) (sidechain : bool) : ParsedEntry := {|
  message :=
    Some {| usage :=
              Some {| input_tokens := Some input;
                      cache_read_input_tokens := Some read;
                      cache_creation_input_tokens := Some created |} |};
  isSidechain := Some sidechain;
|}.

Definition noUsage : ParsedEntry := {|
  message := Some {| usage := None |};
  isSidechain := None;
|}.

(** A transcript whose last main-chain entry holds 29000 tokens, followed
    by a sidechain entry and an entry without usage. *)
Definition transcript : list ParsedEntry :=
  [entry 1000 0 0 false; entry 20000 5000 4000 false; entry 999 0 0 true; noUsage].

(** A million tokens for sonnet models, 200000 otherwise. *)
Definition limits : option (gmap string float) :=
  Some {[ "sonnet" := 1000000%float; "default" := 200000%float ]}.

(** The snapshot of that transcript for an opus model: 29000 of 200000
    tokens, which the division and the multiplication by 100 bring just
    below 14.5. *)
Definition contextInfo : ContextInfo := {|
  inputTokens := 29000;
  percentage := 14; usablePercentage := 14; contextLeftPercentage := 86;
  maxTokens := 200000; usableTokens := 200000;
|}.


End Sample.


(** * Properties *)

(** ** Strings *)

Section StringFacts.
Variable sep : ascii.

Lemma split_not_nil (s : string) : JsString.split sep s <> [].
Proof.
  destruct s as [|c s]; simpl; [discriminate|].
  destruct (Ascii.eqb c sep); [discriminate|].
  destruct (JsString.split sep s); discriminate.
Qed.

Lemma split_length_pos (s : string) : (0 < length (JsString.split sep s))%nat.
Proof.
  pose proof (split_not_nil s) as Hne.
  destruct (JsString.split sep s); [congruence | simpl; lia].
Qed.

(** No component of a split holds the separator. *)
Lemma split_components (s : string) :
  Forall (fun p => JsString.contains sep p = false) (JsString.split sep s).
Proof.
  induction s as [|c s IH]; simpl.
  - repeat constructor.
  - destruct (Ascii.eqb c sep) eqn:Hc.
    + constructor; [reflexivity | exact IH].
    + destruct (JsString.split sep s) as [|p ps].
      * repeat constructor. simpl. now rewrite Hc.
      * inversion IH; subst. constructor; [|assumption].
        simpl. now rewrite Hc.
Qed.

Lemma split_single (p : string) :
  JsString.contains sep p = false -> JsString.split sep p = [p].
Proof.
  induction p as [|c p IH]; simpl; [reflexivity|].
  intros Hc. apply orb_false_elim in Hc as [Hc Hp].
  rewrite Hc, (IH Hp). reflexivity.
Qed.

Lemma split_app_sep (p s : string) :
  JsString.contains sep p = false ->
  JsString.split sep (p +:+ String sep s) = p :: JsString.split sep s.
Proof.
  induction p as [|c p IH]; simpl.
  - intros _. now rewrite Ascii.eqb_refl.
  - intros Hc. apply orb_false_elim in Hc as [Hc Hp].
    rewrite Hc, (IH Hp). reflexivity.
Qed.

(** Splitting what was joined gives the components back. *)
Lemma split_join (parts : list string) :
  parts <> [] ->
  Forall (fun p => JsString.contains sep p = false) parts ->
  JsString.split sep (JsString.join (String sep EmptyString) parts) = parts.
Proof.
  induction parts as [|p ps IH]; [congruence|].
  intros _ Hall. inversion Hall as [|? ? Hp Hps]; subst.
  destruct ps as [|q qs].
  - simpl. now apply split_single.
  - change (JsString.join (String sep EmptyString) (p :: q :: qs))
      with (p +:+ String sep EmptyString +:+ JsString.join (String sep EmptyString) (q :: qs)).
    change (String sep EmptyString +:+ JsString.join (String sep EmptyString) (q :: qs))
      with (String sep (JsString.join (String sep EmptyString) (q :: qs))).
    rewrite split_app_sep by assumption.
    f_equal. apply IH; [discriminate | assumption].
Qed.

Lemma charAt0_contains (p : string) :
  JsString.contains sep p = false -> JsString.contains sep (JsString.charAt0 p) = false.
Proof.
  destruct p as [|c p]; simpl; [reflexivity|].
  intros Hc. apply orb_false_elim in Hc as [Hc _]. now rewrite Hc.
Qed.

End StringFacts.

(** Concatenation, normalised to the right. *)
Lemma append_cons (x : ascii) (a b : string) : String x a +:+ b = String x (a +:+ b).
Proof. reflexivity. Qed.

Lemma append_assoc (a b c : string) : (a +:+ b) +:+ c = a +:+ b +:+ c.
Proof. induction a as [|x a IH]; [reflexivity|]. rewrite !append_cons. now rewrite IH. Qed.

Lemma append_nil_l (a : string) : "" +:+ a = a.
Proof. reflexivity. Qed.

Lemma append_nil_r (a : string) : a +:+ "" = a.
Proof. induction a as [|x a IH]; [reflexivity|]. rewrite append_cons. now rewrite IH. Qed.

Ltac normalise_strings :=
  repeat (rewrite append_assoc || rewrite append_cons
          || rewrite append_nil_l || rewrite append_nil_r).

Lemma charAt0_idem (p : string) : JsString.charAt0 (JsString.charAt0 p) = JsString.charAt0 p.
Proof. destruct p; reflexivity. Qed.

(** ** Directory segment *)

(** The components of an abbreviated path are those of the path, each but
    the last cut to its first character unless it is [~] or empty. *)
Lemma abbreviateFishStyle_split (p : string) :
  JsString.split Path.sep (abbreviateFishStyle p)
  = imap (fun index part =>
            if Nat.eqb index (length (JsString.split Path.sep p) - 1) then part
            else if String.eqb part "~" || String.eqb part "" then part
            else JsString.charAt0 part)
         (JsString.split Path.sep p).
Proof.
  unfold abbreviateFishStyle.
  apply split_join.
  - intros Hnil. apply (f_equal length) in Hnil.
    rewrite length_imap in Hnil.
    pose proof (split_length_pos Path.sep p). simpl in Hnil. lia.
  - apply Forall_lookup. intros i x Hi.
    rewrite list_lookup_imap in Hi.
    destruct (JsString.split Path.sep p !! i) as [part|] eqn:Hpart; [|discriminate].
    simpl in Hi. injection Hi as <-.
    assert (Hno : JsString.contains Path.sep part = false).
    { pose proof (split_components Path.sep p) as Hall.
      rewrite Forall_lookup in Hall. eapply Hall, Hpart. }
    destruct (Nat.eqb _ _); [assumption|].
    destruct (_ || _); [assumption|].
    now apply charAt0_contains.
Qed.

(** C8: fish-style abbreviation is idempotent: abbreviating an abbreviated
    path changes nothing, for every path string. *)
Theorem abbreviateFishStyle_idempotent (p : string) :
  abbreviateFishStyle (abbreviateFishStyle p) = abbreviateFishStyle p.
Proof.
  unfold abbreviateFishStyle at 1.
  rewrite abbreviateFishStyle_split.
  unfold abbreviateFishStyle.
  f_equal.
  rewrite length_imap.
  set (n := (length (JsString.split Path.sep p) - 1)%nat).
  apply list_eq. intros i.
  rewrite !list_lookup_imap.
  destruct (JsString.split Path.sep p !! i) as [part|]; [|reflexivity].
  simpl. f_equal.
  destruct (Nat.eqb i n); [reflexivity|].
  destruct (String.eqb part "~" || String.eqb part "") eqn:Hkeep.
  - now rewrite Hkeep.
  - destruct (String.eqb (JsString.charAt0 part) "~"
              || String.eqb (JsString.charAt0 part) ""); [reflexivity|].
    apply charAt0_idem.
Qed.

(** At the inputs of the example the segment does not read [src]. *)
Lemma renderDirectory_alice_not_src :
  text (renderDirectory Sample.env Sample.hookData Sample.palette
          (Some (directoryConfig StyleFull))) <> "src".
Proof. vm_compute. discriminate. Qed.

(** C6, as the code has it: with current directory /home/alice/proj/src,
    home /home/alice and project root /home/alice/proj, the style full (set
    or by default) shows [~/proj/src]: the home prefix becomes [~], and a
    path that starts with [~] is shown whole, before the project root is
    looked at.  Without a home directory the same facts show [src]. *)
Theorem renderDirectory_alice_full (colors : PowerlineColors)
    (userprofile : option string) (viaWorkspace : bool) :
  let hookData := hookDataAt "/home/alice/proj/src" "/home/alice/proj" viaWorkspace in
  let env := {| HOME := Some "/home/alice"; USERPROFILE := userprofile |} in
  text (renderDirectory env hookData colors (Some (directoryConfig StyleFull)))
    = "~/proj/src"
  /\ text (renderDirectory env hookData colors None) = "~/proj/src"
  /\ text (renderDirectory {| HOME := None; USERPROFILE := None |} hookData colors
             (Some (directoryConfig StyleFull))) = "src".
Proof. destruct viaWorkspace; repeat split; reflexivity. Qed.

(** Whatever the project root, a display path under [~] is returned as is. *)
Lemma getDisplayDirectoryName_home (rest : string) (projectDir : option string) :
  getDisplayDirectoryName (String "~" rest) projectDir = String "~" rest.
Proof. destruct rest; reflexivity. Qed.

(** ** Source-control segment *)

(** C7: branch main, two commits ahead, none behind, dirty, with the
    ahead/behind clause enabled and the working-tree, tag and sha clauses
    disabled: the text is the branch glyph and name, the ahead glyph with
    its count and nothing for the zero behind count, then the dirty glyph. *)
Theorem renderGit_main_ahead_dirty `{Formatters} (symbols : PowerlineSymbols)
    (colors : PowerlineColors)
    (config : SegmentConfig) (gitInfo : GitInfo) :
  branch gitInfo = "main" -> ahead gitInfo = 2 -> behind gitInfo = 0 ->
  status gitInfo = Dirty ->
  repoName gitInfo = None -> operation gitInfo = None -> upstream gitInfo = None ->
  stashCount gitInfo = None -> timeSinceCommit gitInfo = None ->
  showAheadBehind config <> Some false ->
  isOn (showWorkingTree config) = false ->
  isOn (showTag config) = false ->
  isOn (showSha config) = false ->
  text <$> renderGit symbols (Some gitInfo) colors (Some config)
  = Some (sym_branch symbols +:+ " main " +:+ sym_git_ahead symbols +:+ "2 "
          +:+ sym_git_dirty symbols).
Proof.
  intros Hbranch Hahead Hbehind Hstatus Hrepo Hop Hup Hstash Htime Hab Hwt Htag Hsha.
  unfold renderGit. cbn [mbind option_bind].
  rewrite Hbranch, Hahead, Hbehind, Hstatus, Hrepo, Hop, Hup, Hstash, Htime, Hwt, Htag, Hsha.
  assert (Hon : notOff (showAheadBehind config) = true).
  { destruct (showAheadBehind config) as [[]|]; [reflexivity | congruence | reflexivity]. }
  rewrite Hon.
  destruct (tag gitInfo), (sha gitInfo); cbn.
  all: rewrite ?andb_false_r; cbn.
  all: f_equal; normalise_strings; reflexivity.
Qed.

(** ** Budgets *)

Lemma Qltb_lt (x y : Q) : Qltb x y = true <-> (x < y)%Q.
Proof.
  unfold Qltb. rewrite negb_true_iff. split.
  - intros Hle. apply Qnot_le_lt. intros Hyx.
    apply Qle_bool_iff in Hyx. congruence.
  - intros Hlt. destruct (Qle_bool y x) eqn:Hle; [|reflexivity].
    apply Qle_bool_iff in Hle. exfalso. exact (Qlt_not_le _ _ Hlt Hle).
Qed.

Lemma Qltb_ge (x y : Q) : Qltb x y = false <-> (y <= x)%Q.
Proof.
  unfold Qltb. rewrite negb_false_iff. apply Qle_bool_iff.
Qed.

Lemma Qtruthy_pos (x : Q) : (0 < x)%Q -> Qtruthy x = true.
Proof.
  intros Hpos. unfold Qtruthy. rewrite negb_true_iff.
  destruct (Qeq_bool x 0) eqn:Heq; [|reflexivity].
  apply Qeq_bool_iff in Heq. rewrite Heq in Hpos.
  exfalso. exact (Qlt_irrefl _ Hpos).
Qed.

Lemma budgetTier_ok (percent threshold : Q) :
  (percent < threshold)%Q -> budgetTier percent threshold = TierOk.
Proof. intros Hlt. unfold budgetTier. now rewrite (proj2 (Qltb_lt _ _) Hlt). Qed.

Lemma budgetTier_warning (percent threshold : Q) :
  (threshold <= percent)%Q -> (percent < 100)%Q ->
  budgetTier percent threshold = TierWarning.
Proof.
  intros Hge Hlt. unfold budgetTier.
  now rewrite (proj2 (Qltb_ge _ _) Hge), (proj2 (Qltb_lt _ _) Hlt).
Qed.

Lemma budgetTier_exceeded (percent threshold : Q) :
  (threshold <= 100)%Q -> (100 <= percent)%Q ->
  budgetTier percent threshold = TierExceeded.
Proof.
  intros Ht Hge. unfold budgetTier.
  rewrite (proj2 (Qltb_ge percent threshold)) by (eapply Qle_trans; eassumption).
  now rewrite (proj2 (Qltb_ge _ _) Hge).
Qed.

(** With a positive ceiling the tier is that of the percentage. *)
Lemma getBudgetStatus_tier `{BudgetDisplay} (value ceiling threshold : Q) :
  (0 < ceiling)%Q ->
  tier (getBudgetStatus value ceiling threshold)
  = budgetTier (value / ceiling * 100) threshold.
Proof.
  intros Hpos. unfold getBudgetStatus.
  destruct (Qle_bool ceiling 0) eqn:Hle; [|reflexivity].
  apply Qle_bool_iff in Hle. exfalso. exact (Qlt_not_le _ _ Hpos Hle).
Qed.

(** C2: for a positive ceiling and a threshold t (a percentage, at most
    100) the tier is ok below t, warning from t up to but not including 100,
    and exceeded from 100 on; a value of exactly ceiling x t / 100 is in the
    warning tier when t is below 100, one unit less is ok, and a value equal
    to the ceiling is exceeded. *)
Theorem getBudgetStatus_tiers `{BudgetDisplay} (value ceiling t : Q) :
  (0 < ceiling)%Q -> (t <= 100)%Q ->
  let percent := (value / ceiling * 100)%Q in
  ((percent < t)%Q -> tier (getBudgetStatus value ceiling t) = TierOk)
  /\ ((t <= percent)%Q -> (percent < 100)%Q ->
      tier (getBudgetStatus value ceiling t) = TierWarning)
  /\ ((100 <= percent)%Q -> tier (getBudgetStatus value ceiling t) = TierExceeded)
  /\ ((t < 100)%Q -> (value == ceiling * t / 100)%Q ->
      tier (getBudgetStatus value ceiling t) = TierWarning)
  /\ ((value == ceiling * t / 100 - 1)%Q ->
      tier (getBudgetStatus value ceiling t) = TierOk)
  /\ ((value == ceiling)%Q ->
      tier (getBudgetStatus value ceiling t) = TierExceeded
      /\ tier (getBudgetStatus value ceiling t) <> TierWarning).
Proof.
  intros Hpos Ht percent.
  assert (Hne : ~ (ceiling == 0)%Q).
  { intros Hz. rewrite Hz in Hpos. exact (Qlt_irrefl _ Hpos). }
  rewrite (getBudgetStatus_tier value ceiling t Hpos). fold percent.
  assert (Hfull : (value == ceiling)%Q -> budgetTier percent t = TierExceeded).
  { intros Hv. apply budgetTier_exceeded; [exact Ht|].
    unfold percent. rewrite Hv.
    assert (Heq : (ceiling / ceiling * 100 == 100)%Q) by (field; exact Hne).
    rewrite Heq. apply Qle_refl. }
  split; [apply budgetTier_ok|].
  split; [apply budgetTier_warning|].
  split; [now apply budgetTier_exceeded|].
  split; [|split].
  - intros Hlt Hv.
    assert (Heq : (percent == t)%Q).
    { unfold percent. rewrite Hv. field. exact Hne. }
    apply budgetTier_warning; rewrite Heq; [apply Qle_refl | exact Hlt].
  - intros Hv. apply budgetTier_ok.
    assert (Heq : (percent == t - 100 / ceiling)%Q).
    { unfold percent. rewrite Hv. field. exact Hne. }
    rewrite Heq.
    assert (Hinv : (0 < 100 / ceiling)%Q).
    { apply Qlt_shift_div_l; [exact Hpos|]. rewrite Qmult_0_l. reflexivity. }
    apply Qlt_minus_iff.
    set (y := (100 / ceiling)%Q) in *.
    assert (Heq2 : (t + - (t - y) == y)%Q) by ring.
    rewrite Heq2. exact Hinv.
  - intros Hv. rewrite (Hfull Hv). split; [reflexivity | discriminate].
Qed.

(** With a positive ceiling and a value to measure, the suffix of the
    budget status is appended to the base display. *)
Lemma formatUsageWithBudget_suffix `{Formatters} `{BudgetDisplay}
    (cost : option Q) (tokens : option Z) (tokenBreakdown : option TokenBreakdown)
    (type : string) (b : Q) (warningThreshold : option Q)
    (budgetType : option BudgetType) (v : Q) :
  (0 < b)%Q -> budgetValueOf budgetType cost tokens = Some v ->
  formatUsageWithBudget cost tokens tokenBreakdown type (Some b) warningThreshold budgetType
  = formatUsageDisplay cost tokens tokenBreakdown type
    +:+ displayText (getBudgetStatus v b (default 80%Q warningThreshold)).
Proof.
  intros Hpos Hv. unfold formatUsageWithBudget.
  rewrite (Qtruthy_pos b Hpos), (proj2 (Qltb_lt 0 b) Hpos), Hv. reflexivity.
Qed.

(** C3: when the budget ceiling is absent, zero or negative, the
    budget-suffixed formatting is the base display text, whatever the usage
    values, the display type, the threshold and the budget kind. *)
Theorem formatUsageWithBudget_no_ceiling `{Formatters} `{BudgetDisplay}
    (cost : option Q) (tokens : option Z) (tokenBreakdown : option TokenBreakdown)
    (type : string) (budget : option Q) (warningThreshold : option Q)
    (budgetType : option BudgetType) :
  (forall b, budget = Some b -> (b <= 0)%Q) ->
  formatUsageWithBudget cost tokens tokenBreakdown type budget warningThreshold budgetType
  = formatUsageDisplay cost tokens tokenBreakdown type.
Proof.
  intros Hoff. unfold formatUsageWithBudget.
  destruct budget as [b|]; [|reflexivity].
  rewrite (proj2 (Qltb_ge 0 b) (Hoff b eq_refl)).
  now rewrite andb_false_r.
Qed.

(** With the threshold 0 no value that is not negative is in the ok tier. *)
Lemma getBudgetStatus_zero_threshold `{BudgetDisplay} (value ceiling t : Q) :
  (0 < ceiling)%Q -> (t == 0)%Q -> (0 <= value)%Q ->
  tier (getBudgetStatus value ceiling t) <> TierOk.
Proof.
  intros Hpos Hzero Hvalue. rewrite (getBudgetStatus_tier value ceiling t Hpos).
  unfold budgetTier.
  assert (Hpct : (t <= value / ceiling * 100)%Q).
  { rewrite Hzero. apply Qmult_le_0_compat; [|discriminate].
    apply Qle_shift_div_l; [exact Hpos|]. now rewrite Qmult_0_l. }
  rewrite (proj2 (Qltb_ge _ _) Hpct).
  destruct (Qltb _ 100); discriminate.
Qed.

(** ** Session segment *)

Lemma thresholdOr80_zero (t : Q) : (t == 0)%Q -> thresholdOr80 (Some t) = 80%Q.
Proof.
  intros Hz. unfold thresholdOr80, Qtruthy.
  now rewrite (proj2 (Qeq_bool_iff t 0) Hz).
Qed.

(** C10: a session budget whose warning threshold is exactly 0 is
    evaluated with the threshold 80.  For a positive ceiling and a positive
    value below 80% of it, the session text ends in the suffix of the budget
    status computed with threshold 80, whose tier is ok, while the status
    computed with the configured threshold 0 is not ok. *)
Theorem renderSession_zero_threshold `{Formatters} `{BudgetDisplay}
    (powerlineConfig : PowerlineConfig) (symbols : PowerlineSymbols)
    (usageInfo : UsageInfo) (colors : PowerlineColors) (config : option SegmentConfig)
    (sessionBudget : BudgetItem) (amount t v : Q) :
  budget powerlineConfig ≫= budget_session = Some sessionBudget ->
  budget_amount sessionBudget = Some amount ->
  budget_warningThreshold sessionBudget = Some t ->
  (t == 0)%Q ->
  (0 < amount)%Q ->
  budgetValueOf (budget_type sessionBudget)
    (match config ≫= costSource with
     | Some Calculated => ses_calculatedCost (session usageInfo)
     | Some Official => ses_officialCost (session usageInfo)
     | None => ses_cost (session usageInfo)
     end)
    (ses_tokens (session usageInfo)) = Some v ->
  (0 < v)%Q -> (v / amount * 100 < 80)%Q ->
  let shown := getBudgetStatus v amount 80 in
  text (renderSession powerlineConfig symbols usageInfo colors config)
  = sym_session_cost symbols +:+ " "
    +:+ formatUsageDisplay
          (match config ≫= costSource with
           | Some Calculated => ses_calculatedCost (session usageInfo)
           | Some Official => ses_officialCost (session usageInfo)
           | None => ses_cost (session usageInfo)
           end)
          (ses_tokens (session usageInfo))
          (ses_tokenBreakdown (session usageInfo))
          (JsString.orElse (config ≫= cfg_type) "cost")
    +:+ displayText shown
  /\ tier shown = TierOk
  /\ tier (getBudgetStatus v amount t) = TierWarning.
Proof.
  intros Hbudget Hamount Hthreshold Hzero Hpos Hvalue Hv Hbelow shown.
  split; [|split].
  - unfold renderSession. cbn [text].
    rewrite Hbudget. cbn [mbind option_bind].
    rewrite Hamount, Hthreshold, (thresholdOr80_zero t Hzero).
    rewrite (formatUsageWithBudget_suffix _ _ _ _ amount _ _ v Hpos Hvalue).
    reflexivity.
  - unfold shown. rewrite (getBudgetStatus_tier v amount 80 Hpos).
    now apply budgetTier_ok.
  - rewrite (getBudgetStatus_tier v amount t Hpos).
    assert (Hpct : (0 < v / amount * 100)%Q).
    { apply Qmult_lt_0_compat; [|reflexivity].
      apply Qlt_shift_div_l; [exact Hpos|]. now rewrite Qmult_0_l. }
    apply budgetTier_warning.
    + rewrite Hzero. now apply Qlt_le_weak.
    + eapply Qlt_trans; [exact Hbelow | reflexivity].
Qed.

(** ** The effect monad *)

Lemma eff_eta {A : Type} (m : Eff A) : mkEff (warnings m) (outcome m) = m.
Proof. now destruct m. Qed.

Lemma eff_bind_ret {A B : Type} (a : A) (f : A -> Eff B) : mret a ≫= f = f a.
Proof. unfold mbind, eff_bind, mret, eff_ret. cbn. apply eff_eta. Qed.

Lemma eff_bind_throw {A B : Type} (e : string) (f : A -> Eff B) :
  throw e ≫= f = throw e.
Proof. reflexivity. Qed.

Lemma eff_bind_warn {B : Type} (message : string) (m : Eff B) :
  consoleWarn message ≫= (fun _ => m) = mkEff (message :: warnings m) (outcome m).
Proof. reflexivity. Qed.

Lemma eff_bind_outcome {A B : Type} (m : Eff A) (f : A -> Eff B) (a : A) :
  outcome m = Returned a ->
  m ≫= f = mkEff (warnings m ++ warnings (f a))%list (outcome (f a)).
Proof. intros Hm. unfold mbind, eff_bind. now rewrite Hm. Qed.

(** ** Themes *)

(** The table [getTheme] finds for ["dark"] at each capability. *)
Lemma getTheme_dark `{ThemeTables} (cs : ColorSupport) :
  getTheme "dark" cs
  = Some match cs with
         | CsNone | CsAnsi => darkAnsiTheme
         | CsAnsi256 => darkAnsi256Theme
         | CsTruecolor => darkTheme
         end.
Proof. destruct cs; reflexivity. Qed.

(** A name that is neither a key of the table nor inherited is not found. *)
Lemma getTheme_unknown `{ThemeTables} (name : string) (cs : ColorSupport) :
  BUILT_IN_THEMES !! name = None -> JsObject.inherits name = false ->
  getTheme name cs = None.
Proof.
  intros Hname Hinherits. unfold getTheme, JsObject.get. now rewrite Hname, Hinherits.
Qed.

(** An inherited name is found, although it is not a key of the table. *)
Lemma getTheme_inherited `{ThemeTables} (name : string) (cs : ColorSupport) :
  JsObject.inherits name = true ->
  name <> "custom" /\ BUILT_IN_THEMES !! name = None
  /\ getTheme name cs = Some inheritedTheme.
Proof.
  unfold JsObject.inherits, JsObject.prototypeKeys. cbn [existsb].
  repeat match goal with
         | |- context [String.eqb name ?key] =>
             let Hkey := fresh "Hkey" in
             destruct (String.eqb name key) eqn:Hkey;
             [apply String.eqb_eq in Hkey as ->; intros _;
              split; [discriminate|]; split; [reflexivity|]; destruct cs; reflexivity
             |cbn [orb]]
         end.
  discriminate.
Qed.

Lemma colorSupport_withTheme `{ColorEncoders} (name : string) (cfg : PowerlineConfig) :
  colorSupport (withTheme name cfg) = colorSupport cfg.
Proof. reflexivity. Qed.

Lemma darkThemeAsserted_returns `{ColorEncoders} `{ThemeTables} (cfg : PowerlineConfig) :
  darkThemeAsserted cfg
  = mret match colorSupport cfg with
         | CsNone | CsAnsi => darkAnsiTheme
         | CsAnsi256 => darkAnsi256Theme
         | CsTruecolor => darkTheme
         end.
Proof. unfold darkThemeAsserted. now rewrite getTheme_dark. Qed.

Lemma encodeThemeColors_withTheme `{ColorEncoders} `{Constants} `{ThemeTables}
    (name : string) (cfg : PowerlineConfig) (t : ColorTheme) :
  encodeThemeColors (withTheme name cfg) t = encodeThemeColors cfg t.
Proof. reflexivity. Qed.

(** Resolving ["dark"] writes no warning and encodes the dark table. *)
Lemma getThemeColors_dark `{ColorEncoders} `{Constants} `{ThemeTables}
    (cfg : PowerlineConfig) :
  getThemeColors (withTheme "dark" cfg)
  = encodeThemeColors cfg
      match colorSupport cfg with
      | CsNone | CsAnsi => darkAnsiTheme
      | CsAnsi256 => darkAnsi256Theme
      | CsTruecolor => darkTheme
      end.
Proof.
  unfold getThemeColors, selectColorTheme. cbn [theme withTheme String.eqb Ascii.eqb Bool.eqb].
  rewrite colorSupport_withTheme, getTheme_dark, eff_bind_ret.
  apply encodeThemeColors_withTheme.
Qed.

Lemma getSegmentColors_returns `{ColorEncoders} (cfg : PowerlineConfig)
    (colorTheme fallbackTheme : ColorTheme) (segment : ColorTheme -> option SegmentColor) :
  is_Some (segment fallbackTheme) ->
  exists c, getSegmentColors cfg colorTheme fallbackTheme segment = mret c.
Proof.
  intros [c Hc]. unfold getSegmentColors. rewrite Hc.
  destruct (segment colorTheme), (colorSupport cfg); eauto.
Qed.

Lemma complete_fields (t : ColorTheme) :
  complete t = true ->
  is_Some (th_directory t) /\ is_Some (th_git t) /\ is_Some (th_model t)
  /\ is_Some (th_session t) /\ is_Some (th_block t) /\ is_Some (th_today t)
  /\ is_Some (th_tmux t) /\ is_Some (th_context t) /\ is_Some (th_metrics t)
  /\ is_Some (th_version t).
Proof.
  unfold complete.
  destruct (th_directory t), (th_git t), (th_model t), (th_session t), (th_block t),
    (th_today t), (th_tmux t), (th_context t), (th_metrics t), (th_version t);
    try discriminate.
  intros _. repeat split; eauto.
Qed.

(** With complete dark tables the encoding of any table returns. *)
Lemma encodeThemeColors_returns `{ColorEncoders} `{Constants} `{ThemeTables}
    (cfg : PowerlineConfig) (t : ColorTheme) :
  darkComplete = true ->
  exists c, encodeThemeColors cfg t = mret c.
Proof.
  intros Hdark. unfold encodeThemeColors.
  rewrite darkThemeAsserted_returns, eff_bind_ret.
  set (fallbackTheme := match colorSupport cfg with
                        | CsNone | CsAnsi => darkAnsiTheme
                        | CsAnsi256 => darkAnsi256Theme
                        | CsTruecolor => darkTheme
                        end).
  assert (Hfb : complete fallbackTheme = true).
  { unfold darkComplete in Hdark.
    apply andb_prop in Hdark as [Hdark Hansi].
    apply andb_prop in Hdark as [Hbase H256].
    unfold fallbackTheme. destruct (colorSupport cfg); assumption. }
  destruct (complete_fields _ Hfb)
    as (Hdir & Hgit & Hmodel & Hsession & Hblock & Htoday & Htmux & Hctx & Hmetrics & Hver).
  destruct (getSegmentColors_returns cfg t fallbackTheme th_directory Hdir) as [? ->].
  rewrite eff_bind_ret.
  destruct (getSegmentColors_returns cfg t fallbackTheme th_git Hgit) as [? ->].
  rewrite eff_bind_ret.
  destruct (getSegmentColors_returns cfg t fallbackTheme th_model Hmodel) as [? ->].
  rewrite eff_bind_ret.
  destruct (getSegmentColors_returns cfg t fallbackTheme th_session Hsession) as [? ->].
  rewrite eff_bind_ret.
  destruct (getSegmentColors_returns cfg t fallbackTheme th_block Hblock) as [? ->].
  rewrite eff_bind_ret.
  destruct (getSegmentColors_returns cfg t fallbackTheme th_today Htoday) as [? ->].
  rewrite eff_bind_ret.
  destruct (getSegmentColors_returns cfg t fallbackTheme th_tmux Htmux) as [? ->].
  rewrite eff_bind_ret.
  destruct (getSegmentColors_returns cfg t fallbackTheme th_context Hctx) as [? ->].
  rewrite eff_bind_ret.
  destruct (getSegmentColors_returns cfg t fallbackTheme th_metrics Hmetrics) as [? ->].
  rewrite eff_bind_ret.
  destruct (getSegmentColors_returns cfg t fallbackTheme th_version Hver) as [? ->].
  rewrite eff_bind_ret.
  eexists. reflexivity.
Qed.

Lemma bind_quiet {A B : Type} (m : Eff A) (f : A -> Eff B) :
  warnings m = [] -> (forall a, warnings (f a) = []) -> warnings (m ≫= f) = [].
Proof.
  intros Hm Hf. unfold mbind, eff_bind.
  destruct (outcome m) as [e|a]; cbn [warnings]; [exact Hm|].
  now rewrite Hm, Hf.
Qed.

Lemma getSegmentColors_quiet `{ColorEncoders} (cfg : PowerlineConfig)
    (colorTheme fallbackTheme : ColorTheme) (segment : ColorTheme -> option SegmentColor) :
  warnings (getSegmentColors cfg colorTheme fallbackTheme segment) = [].
Proof.
  unfold getSegmentColors.
  destruct (segment colorTheme), (segment fallbackTheme), (colorSupport cfg); reflexivity.
Qed.

(** Encoding a table writes no warning. *)
Lemma encodeThemeColors_quiet `{ColorEncoders} `{Constants} `{ThemeTables}
    (cfg : PowerlineConfig) (t : ColorTheme) :
  warnings (encodeThemeColors cfg t) = [].
Proof.
  unfold encodeThemeColors.
  apply bind_quiet; [now rewrite darkThemeAsserted_returns | intros fallbackTheme].
  repeat (apply bind_quiet; [apply getSegmentColors_quiet | intros ?]).
  reflexivity.
Qed.

Lemma eqb_custom (name : string) : name <> "custom" -> String.eqb name "custom" = false.
Proof. intros Hne. now apply String.eqb_neq. Qed.

(** An unknown name resolves as [dark] does, after the warning. *)
Lemma getThemeColors_fallback `{ColorEncoders} `{Constants} `{ThemeTables}
    (cfg : PowerlineConfig) :
  theme cfg <> "custom" ->
  BUILT_IN_THEMES !! theme cfg = None ->
  JsObject.inherits (theme cfg) = false ->
  getThemeColors cfg
  = mkEff [unknownThemeWarning (theme cfg)]
      (outcome (getThemeColors (withTheme "dark" cfg))).
Proof.
  intros Hcustom Hunknown Hinherits.
  rewrite getThemeColors_dark.
  unfold getThemeColors, selectColorTheme.
  rewrite (eqb_custom _ Hcustom), (getTheme_unknown _ _ Hunknown Hinherits).
  rewrite darkThemeAsserted_returns, eff_bind_warn.
  cbn [warnings outcome mret eff_ret].
  unfold mbind at 1, eff_bind at 1. cbn [warnings outcome].
  now rewrite encodeThemeColors_quiet.
Qed.

(** C4, as the code has it for a name that every object inherits from
    [Object.prototype] ([constructor], [toString], [__proto__], ...): such a
    name is neither [custom] nor a key of the built-in themes, yet the lookup
    of [getTheme] finds an inherited value under it, so colour resolution
    writes no warning; what it encodes is that value, which defines no
    category and no warning pair, instead of the dark table. *)
Theorem getThemeColors_inherited_name `{ColorEncoders} `{Constants} `{ThemeTables}
    (cfg : PowerlineConfig) :
  JsObject.inherits (theme cfg) = true ->
  theme cfg <> "custom"
  /\ BUILT_IN_THEMES !! theme cfg = None
  /\ warnings (getThemeColors cfg) = []
  /\ getThemeColors cfg = encodeThemeColors cfg inheritedTheme.
Proof.
  intros Hinherits.
  destruct (getTheme_inherited (theme cfg) (colorSupport cfg) Hinherits)
    as (Hcustom & Hunknown & Hfound).
  assert (Hcolors : getThemeColors cfg = encodeThemeColors cfg inheritedTheme).
  { unfold getThemeColors, selectColorTheme.
    rewrite (eqb_custom _ Hcustom), Hfound. apply eff_bind_ret. }
  split; [exact Hcustom|]. split; [exact Hunknown|].
  split; [|exact Hcolors].
  rewrite Hcolors. apply encodeThemeColors_quiet.
Qed.

(** X21: a theme name that is neither the selector [custom] of the user's
    own table, nor a key of the built-in themes, nor a name inherited from
    [Object.prototype] resolves, at every capability, to exactly what the
    name [dark] resolves to, after one warning: the dark table of that
    capability, chosen by the same variant rule and encoded the same way.
    With complete dark tables that is a colour set, so rendering goes on. *)
Theorem getThemeColors_unknown_theme `{ColorEncoders} `{Constants} `{ThemeTables}
    (cfg : PowerlineConfig) :
  theme cfg <> "custom" ->
  BUILT_IN_THEMES !! theme cfg = None ->
  JsObject.inherits (theme cfg) = false ->
  warnings (getThemeColors cfg) = [unknownThemeWarning (theme cfg)]
  /\ outcome (getThemeColors cfg) = outcome (getThemeColors (withTheme "dark" cfg))
  /\ warnings (getThemeColors (withTheme "dark" cfg)) = []
  /\ getThemeColors (withTheme "dark" cfg)
     = encodeThemeColors cfg
         match colorSupport cfg with
         | CsNone | CsAnsi => darkAnsiTheme
         | CsAnsi256 => darkAnsi256Theme
         | CsTruecolor => darkTheme
         end
  /\ (darkComplete = true -> exists c, outcome (getThemeColors cfg) = Returned c).
Proof.
  intros Hcustom Hunknown Hinherits.
  rewrite (getThemeColors_fallback cfg Hcustom Hunknown Hinherits). cbn [warnings outcome].
  split; [reflexivity|]. split; [reflexivity|].
  split; [rewrite getThemeColors_dark; apply encodeThemeColors_quiet|].
  split; [apply getThemeColors_dark|].
  intros Hdark. rewrite getThemeColors_dark.
  destruct (encodeThemeColors_returns cfg
              match colorSupport cfg with
              | CsNone | CsAnsi => darkAnsiTheme
              | CsAnsi256 => darkAnsi256Theme
              | CsTruecolor => darkTheme
              end Hdark) as [c ->].
  now exists c.
Qed.

(** C5: with the dark tables complete, colour resolution fails exactly as
    follows: selecting [custom] without a custom table throws, and no colour
    set is returned; for every other theme name it returns a colour set. *)
Theorem getThemeColors_fails_only_for_custom `{ColorEncoders} `{Constants} `{ThemeTables}
    (cfg : PowerlineConfig) :
  darkComplete = true ->
  (theme cfg = "custom" -> colors cfg ≫= custom = None ->
   getThemeColors cfg
   = throw "Custom theme selected but no colors provided in configuration")
  /\ (theme cfg <> "custom" -> exists c, outcome (getThemeColors cfg) = Returned c).
Proof.
  intros Hdark. split.
  - intros Hcustom Hnone. unfold getThemeColors, selectColorTheme.
    rewrite Hcustom, Hnone. reflexivity.
  - intros Hcustom. unfold getThemeColors, selectColorTheme.
    rewrite (eqb_custom _ Hcustom).
    destruct (getTheme (theme cfg) (colorSupport cfg)) as [t|].
    + rewrite eff_bind_ret.
      destruct (encodeThemeColors_returns cfg t Hdark) as [c ->]. now exists c.
    + rewrite darkThemeAsserted_returns, eff_bind_warn.
      unfold mbind, eff_bind. cbn [warnings outcome mret eff_ret].
      match goal with
      | |- context [encodeThemeColors cfg ?t] =>
          destruct (encodeThemeColors_returns cfg t Hdark) as [c ->]
      end.
      now exists c.
Qed.

(** A custom table that is supplied is used, whatever the built-in themes. *)
Lemma getThemeColors_custom_table `{ColorEncoders} `{Constants} `{ThemeTables}
    (cfg : PowerlineConfig) (t : ColorTheme) :
  theme cfg = "custom" -> colors cfg ≫= custom = Some t ->
  getThemeColors cfg = encodeThemeColors cfg t.
Proof.
  intros Hcustom Htable. unfold getThemeColors, selectColorTheme.
  rewrite Hcustom, Htable. cbn [String.eqb Ascii.eqb Bool.eqb].
  apply eff_bind_ret.
Qed.

(** ** Line composer *)

Section Packing.
Context `{Terminal}.
Variable cfg : PowerlineConfig.
Variable W : Z.

Lemma physicalLineWidth_nil : physicalLineWidth cfg [] = 0.
Proof. unfold physicalLineWidth. destruct (isCapsuleStyle cfg); reflexivity. Qed.

(** A segment alone is as wide as [calculateSegmentWidth] says for a first
    segment, and never wider than it says for a later one. *)
Lemma physicalLineWidth_single (s : RenderedSegment) :
  physicalLineWidth cfg [s] = calculateSegmentWidth cfg s true.
Proof.
  unfold physicalLineWidth, calculateSegmentWidth.
  destruct (isCapsuleStyle cfg); cbn [sum_list_with length]; lia.
Qed.

Lemma calculateSegmentWidth_first_le (s : RenderedSegment) (isFirst : bool) :
  calculateSegmentWidth cfg s true <= calculateSegmentWidth cfg s isFirst.
Proof.
  unfold calculateSegmentWidth. destruct (isCapsuleStyle cfg), isFirst; lia.
Qed.

(** Appending a segment adds what [calculateSegmentWidth] charges for it. *)
Lemma physicalLineWidth_snoc (line : list RenderedSegment) (s : RenderedSegment) :
  physicalLineWidth cfg (line ++ [s])
  = physicalLineWidth cfg line + calculateSegmentWidth cfg s (Nat.eqb (length line) 0).
Proof.
  unfold physicalLineWidth, calculateSegmentWidth.
  rewrite sum_list_with_app, length_app.
  destruct line as [|x line]; cbn [sum_list_with length Nat.eqb];
    destruct (isCapsuleStyle cfg); lia.
Qed.

(** The computed width is what [calculateSegmentWidth] gives the first
    segment as a first one and every other segment as a later one. *)
Lemma physicalLineWidth_cons (s : RenderedSegment) (rest : list RenderedSegment) :
  physicalLineWidth cfg (s :: rest)
  = calculateSegmentWidth cfg s true
    + fold_right (fun r acc => calculateSegmentWidth cfg r false + acc) 0 rest.
Proof.
  induction rest as [|r rest IH] using rev_ind.
  - rewrite physicalLineWidth_single. cbn. lia.
  - rewrite app_comm_cons, physicalLineWidth_snoc, IH, fold_right_app.
    cbn [length Nat.eqb fold_right].
    assert (Hacc : forall (l : list RenderedSegment) (a : Z),
               fold_right (fun r acc => calculateSegmentWidth cfg r false + acc) a l
               = fold_right (fun r acc => calculateSegmentWidth cfg r false + acc) 0 l + a).
    { induction l as [|y l IHl]; intros a; cbn [fold_right]; [lia|].
      rewrite (IHl a). lia. }
    rewrite (Hacc rest (calculateSegmentWidth cfg r false + 0)). lia.
Qed.

Lemma physicalLineWidth_nonneg (line : list RenderedSegment) :
  0 <= physicalLineWidth cfg line.
Proof. unfold physicalLineWidth. destruct (isCapsuleStyle cfg); lia. Qed.

(** Every segment of a line is at most as wide, alone, as the line. *)
Lemma physicalLineWidth_elem (line : list RenderedSegment) (s : RenderedSegment) :
  s ∈ line -> physicalLineWidth cfg [s] <= physicalLineWidth cfg line.
Proof.
  induction line as [|x line IH] using rev_ind; [inversion 1|].
  intros Hin. rewrite physicalLineWidth_snoc.
  apply elem_of_app in Hin as [Hin | Hin].
  - specialize (IH Hin).
    pose proof (calculateSegmentWidth_first_le x (Nat.eqb (length line) 0)).
    rewrite <- physicalLineWidth_single in *.
    pose proof (physicalLineWidth_nonneg [x]). lia.
  - apply list_elem_of_singleton in Hin as ->.
    pose proof (calculateSegmentWidth_first_le x (Nat.eqb (length line) 0)).
    rewrite physicalLineWidth_single.
    pose proof (physicalLineWidth_nonneg line). lia.
Qed.

(** The line being filled fits, once it holds a segment. *)
Lemma WrapInv_current_fits out0 done st :
  WrapInv cfg W out0 done st -> currentLineSegments st <> [] ->
  fitsTerminal cfg W (currentLineSegments st).
Proof.
  intros [_ Hcharged _ Hwithin] Hne. split; [exact Hne|].
  destruct (currentLineSegments st) as [|s [|s' rest]] eqn:Hcur; [congruence| |].
  - destruct (Z_le_gt_dec (physicalLineWidth cfg [s]) W); [now left|].
    right. exists s. split; [reflexivity | lia].
  - left. cbn [length] in Hwithin. specialize (Hwithin ltac:(lia)). lia.
Qed.

Lemma WrapInv_init out0 :
  WrapInv cfg W out0 []
    {| outputLines := out0; currentLineSegments := []; currentLineWidth := 0 |}.
Proof.
  split; cbn.
  - exists []. rewrite app_nil_r. repeat split. constructor.
  - now rewrite physicalLineWidth_nil.
  - reflexivity.
  - lia.
Qed.

Lemma WrapInv_step out0 done st segment :
  WrapInv cfg W out0 done st ->
  WrapInv cfg W out0 (done ++ [segment]) (wrapStep cfg W st segment).
Proof.
  intros Hinv. pose proof Hinv as [(emitted & Hout & Hfit & Hdone) Hcharged Hempty Hwithin].
  unfold wrapStep.
  set (w := calculateSegmentWidth cfg segment (Nat.eqb (length (currentLineSegments st)) 0)).
  destruct ((0 <? Z.of_nat (length (currentLineSegments st)))
            && (W <? currentLineWidth st + w)) eqn:Hflush.
  - apply andb_prop in Hflush as [Hne Hover].
    apply Z.ltb_lt in Hne.
    assert (Hcur : currentLineSegments st <> []).
    { intros Hnil. rewrite Hnil in Hne. cbn in Hne. lia. }
    split; cbn [outputLines currentLineSegments currentLineWidth].
    + exists (emitted ++ [currentLineSegments st])%list. repeat split.
      * now rewrite Hout, app_assoc.
      * apply Forall_app. split; [exact Hfit|].
        constructor; [|constructor]. eapply WrapInv_current_fits; eauto.
      * rewrite concat_app. cbn [concat]. rewrite app_nil_r.
        rewrite <- Hdone. now rewrite app_nil_l.
    + rewrite app_nil_l, physicalLineWidth_single.
      pose proof (calculateSegmentWidth_first_le segment
                    (Nat.eqb (length (currentLineSegments st)) 0)) as Hfirst.
      fold w in Hfirst. lia.
    + intros Hnil. discriminate.
    + cbn. lia.
  - split; cbn [outputLines currentLineSegments currentLineWidth].
    + exists emitted. repeat split; [exact Hout | exact Hfit|].
      now rewrite app_assoc, Hdone.
    + rewrite physicalLineWidth_snoc. fold w. lia.
    + intros Hnil. destruct (currentLineSegments st); discriminate.
    + rewrite length_app. cbn [length]. intros Htwo.
      apply andb_false_iff in Hflush as [Hnil | Hfits].
      * apply Z.ltb_ge in Hnil. lia.
      * apply Z.ltb_ge in Hfits. exact Hfits.
Qed.

Lemma WrapInv_fold out0 segments done st :
  WrapInv cfg W out0 done st ->
  WrapInv cfg W out0 (done ++ segments) (fold_left (wrapStep cfg W) segments st).
Proof.
  revert done st. induction segments as [|s segments IH]; intros done st Hinv.
  - now rewrite app_nil_r.
  - cbn [fold_left].
    replace (done ++ s :: segments)%list with ((done ++ [s]) ++ segments)%list
      by now rewrite <- app_assoc.
    apply IH, WrapInv_step, Hinv.
Qed.

(** The packing loop adds, after the lines it was given, physical lines that
    fit and that hold the segments in order. *)
Lemma wrapSegments_spec (out0 : list (list RenderedSegment))
    (segments : list RenderedSegment) :
  exists physical,
    wrapSegments cfg W out0 segments = (out0 ++ physical)%list
    /\ concat physical = segments
    /\ Forall (fitsTerminal cfg W) physical.
Proof.
  pose proof (WrapInv_fold out0 segments [] _ (WrapInv_init out0)) as Hinv.
  rewrite app_nil_l in Hinv.
  unfold wrapSegments.
  set (st := fold_left (wrapStep cfg W) segments _) in *.
  pose proof Hinv as [(emitted & Hout & Hfit & Hdone) _ _ _].
  destruct (0 <? Z.of_nat (length (currentLineSegments st))) eqn:Hne.
  - apply Z.ltb_lt in Hne.
    assert (Hcur : currentLineSegments st <> []).
    { intros Hnil. rewrite Hnil in Hne. cbn in Hne. lia. }
    exists (emitted ++ [currentLineSegments st])%list. repeat split.
    + now rewrite Hout, app_assoc.
    + rewrite concat_app. cbn [concat]. now rewrite app_nil_r.
    + apply Forall_app. split; [exact Hfit|].
      constructor; [|constructor]. eapply WrapInv_current_fits; eauto.
  - apply Z.ltb_ge in Hne.
    assert (Hcur : currentLineSegments st = []).
    { destruct (currentLineSegments st); [reflexivity | cbn in Hne; lia]. }
    exists emitted. repeat split; [exact Hout | | exact Hfit].
    now rewrite Hcur, app_nil_r in Hdone.
Qed.

End Packing.

(** With a positive terminal width, a configured line that renders a
    segment is handed to the packing loop. *)
Lemma autoWrapLine_wraps `{Formatters} `{BudgetDisplay} `{ColorEncoders} `{Terminal}
    `{Constants} `{ThemeTables} `{Providers}
    (cfg : PowerlineConfig) (env : ProcessEnv) (hookData : ClaudeHookData)
    (usageInfo : option UsageInfo) (blockInfo : option BlockInfo)
    (todayInfo : option TodayInfo) (contextInfo : option ContextInfo)
    (metricsInfo : option MetricsInfo) (colors : PowerlineColors) (currentDir : string)
    (W : Z) (out0 : list (list RenderedSegment)) (lineConfig : LineConfig) :
  1 <= W ->
  renderSegments cfg env lineConfig hookData usageInfo blockInfo todayInfo
    contextInfo metricsInfo colors currentDir <> [] ->
  autoWrapLine cfg env hookData usageInfo blockInfo todayInfo contextInfo metricsInfo
    colors currentDir (Some W) out0 lineConfig
  = wrapSegments cfg W out0
      (renderSegments cfg env lineConfig hookData usageInfo blockInfo todayInfo
         contextInfo metricsInfo colors currentDir).
Proof.
  intros HW Hne. unfold autoWrapLine.
  destruct (renderSegments _ _ _ _ _ _ _ _ _ _ _) as [|s rest]; [congruence|].
  cbn [length Nat.eqb].
  replace (W =? 0) with false by (symmetry; apply Z.eqb_neq; lia).
  replace (W <=? 0) with false by (symmetry; apply Z.leb_gt; lia).
  reflexivity.
Qed.

(** C1: for a terminal width of at least 1 and a configured line that
    renders at least one segment, composing with auto-wrap packs the
    rendered segments, whole and in the configured order, into physical
    lines, none of them empty; the computed width of each is at most the
    terminal width, unless the line is a single segment that is wider than
    the terminal on its own; and a segment that wide is alone on its line. *)
Theorem autoWrapLine_fits `{Formatters} `{BudgetDisplay} `{ColorEncoders} `{Terminal}
    `{Constants} `{ThemeTables} `{Providers}
    (cfg : PowerlineConfig) (env : ProcessEnv) (hookData : ClaudeHookData)
    (usageInfo : option UsageInfo) (blockInfo : option BlockInfo)
    (todayInfo : option TodayInfo) (contextInfo : option ContextInfo)
    (metricsInfo : option MetricsInfo) (colors : PowerlineColors) (currentDir : string)
    (W : Z) (lineConfig : LineConfig) :
  1 <= W ->
  renderSegments cfg env lineConfig hookData usageInfo blockInfo todayInfo
    contextInfo metricsInfo colors currentDir <> [] ->
  let physical :=
    autoWrapLine cfg env hookData usageInfo blockInfo todayInfo contextInfo metricsInfo
      colors currentDir (Some W) [] lineConfig in
  concat physical
  = renderSegments cfg env lineConfig hookData usageInfo blockInfo todayInfo
      contextInfo metricsInfo colors currentDir
  /\ Forall
       (fun line =>
          line <> []
          /\ (physicalLineWidth cfg line <= W
              \/ exists s, line = [s] /\ W < physicalLineWidth cfg [s]))
       physical
  /\ (forall line s, line ∈ physical -> s ∈ line ->
      W < physicalLineWidth cfg [s] -> line = [s]).
Proof.
  intros HW Hne physical. unfold physical.
  rewrite (autoWrapLine_wraps cfg env hookData usageInfo blockInfo todayInfo
             contextInfo metricsInfo colors currentDir W [] lineConfig HW Hne).
  destruct (wrapSegments_spec cfg W []
              (renderSegments cfg env lineConfig hookData usageInfo blockInfo todayInfo
                 contextInfo metricsInfo colors currentDir))
    as (lines & -> & Hconcat & Hfit).
  rewrite app_nil_l. split; [exact Hconcat|]. split; [exact Hfit|].
  intros line s Hline Hs Hwide.
  rewrite Forall_lookup in Hfit.
  apply list_elem_of_lookup in Hline as [i Hi].
  destruct (Hfit i line Hi) as [_ [Hle | (s' & -> & _)]].
  - pose proof (physicalLineWidth_elem cfg line s Hs). lia.
  - apply list_elem_of_singleton in Hs. now subst.
Qed.

(** The statusline that auto-wrap returns is the text of those physical
    lines, one after the other, joined by line breaks. *)
Lemma generateAutoWrapStatusline_lines `{Formatters} `{BudgetDisplay} `{ColorEncoders}
    `{Terminal} `{Constants} `{ThemeTables} `{Providers}
    (cfg : PowerlineConfig) (env : ProcessEnv) (hookData : ClaudeHookData)
    (usageInfo : option UsageInfo) (blockInfo : option BlockInfo)
    (todayInfo : option TodayInfo) (contextInfo : option ContextInfo)
    (metricsInfo : option MetricsInfo) (colors : PowerlineColors) :
  getThemeColors cfg = mret colors ->
  generateAutoWrapStatusline cfg env hookData usageInfo blockInfo todayInfo
    contextInfo metricsInfo
  = mret (JsString.join LF
            (map (fun l => buildLineFromSegments cfg l colors)
               (fold_left
                  (autoWrapLine cfg env hookData usageInfo blockInfo todayInfo
                     contextInfo metricsInfo colors (currentDirOf hookData)
                     getTerminalWidth)
                  (lines (display cfg)) []))).
Proof.
  intros Hcolors. unfold generateAutoWrapStatusline.
  now rewrite Hcolors, eff_bind_ret.
Qed.

(** ** Lines that render no segment *)

Lemma fold_left_unchanged {A B : Type} (f : A -> B -> A) (l : list B) (a : A) :
  (forall x acc, x ∈ l -> f acc x = acc) -> fold_left f l a = a.
Proof.
  revert a. induction l as [|x l IH]; intros a Hf; [reflexivity|].
  cbn [fold_left]. rewrite (Hf x a) by constructor.
  apply IH. intros y acc Hy. apply Hf. now constructor.
Qed.

Lemma elem_of_indexed {A : Type} (l : list A) (i : nat) (x : A) :
  (i, x) ∈ imap (fun i x => (i, x)) l -> x ∈ l.
Proof.
  intros Hin. apply list_elem_of_lookup in Hin as [j Hj].
  rewrite list_lookup_imap in Hj.
  destruct (l !! j) as [y|] eqn:Hy; [|discriminate].
  cbn in Hj. injection Hj as _ ->.
  apply list_elem_of_lookup. eauto.
Qed.

(** Without auto-wrap, a configured line that renders no segment is the
    reset code, not the empty string (it is empty only when the capability
    is "no colour", where the reset code is empty). *)
Lemma renderLine_no_segment `{Formatters} `{BudgetDisplay} `{ColorEncoders} `{Terminal}
    `{Constants} `{ThemeTables} `{Providers}
    (cfg : PowerlineConfig) (env : ProcessEnv) (lineConfig : LineConfig)
    (hookData : ClaudeHookData)
    (usageInfo : option UsageInfo) (blockInfo : option BlockInfo)
    (todayInfo : option TodayInfo) (contextInfo : option ContextInfo)
    (metricsInfo : option MetricsInfo) (colors : PowerlineColors) :
  getThemeColors cfg = mret colors ->
  (forall segment, segment ∈ enabledSegments lineConfig ->
     renderSegment cfg env segment hookData usageInfo blockInfo todayInfo contextInfo
       metricsInfo colors (currentDirOf hookData) = None) ->
  renderLine cfg env lineConfig hookData usageInfo blockInfo todayInfo contextInfo
    metricsInfo = mret (reset colors).
Proof.
  intros Hcolors Hnone. unfold renderLine.
  rewrite Hcolors, eff_bind_ret. f_equal.
  apply fold_left_unchanged. intros [i segment] line Hin.
  now rewrite (Hnone segment (elem_of_indexed _ _ _ Hin)).
Qed.

(** With auto-wrap, such a line adds no physical line. *)
Lemma autoWrapLine_no_segment `{Formatters} `{BudgetDisplay} `{ColorEncoders} `{Terminal}
    `{Constants} `{ThemeTables} `{Providers}
    (cfg : PowerlineConfig) (env : ProcessEnv) (hookData : ClaudeHookData)
    (usageInfo : option UsageInfo) (blockInfo : option BlockInfo)
    (todayInfo : option TodayInfo) (contextInfo : option ContextInfo)
    (metricsInfo : option MetricsInfo) (colors : PowerlineColors) (currentDir : string)
    (terminalWidth : option Z) (out0 : list (list RenderedSegment))
    (lineConfig : LineConfig) :
  (forall segment, segment ∈ enabledSegments lineConfig ->
     renderSegment cfg env segment hookData usageInfo blockInfo todayInfo contextInfo
       metricsInfo colors currentDir = None) ->
  autoWrapLine cfg env hookData usageInfo blockInfo todayInfo contextInfo metricsInfo
    colors currentDir terminalWidth out0 lineConfig = out0.
Proof.
  intros Hnone. unfold autoWrapLine.
  assert (Hempty : renderSegments cfg env lineConfig hookData usageInfo blockInfo
                     todayInfo contextInfo metricsInfo colors currentDir = []).
  { unfold renderSegments.
    induction (enabledSegments lineConfig) as [|segment rest IH]; [reflexivity|].
    cbn [omap list_omap]. rewrite (Hnone segment) by constructor.
    apply IH. intros s Hs. apply Hnone. now constructor. }
  now rewrite Hempty.
Qed.

(** C9, the path without auto-wrap: a configuration whose only line
    renders no segment yields the reset code of the resolved colours as its
    statusline, where the empty string is expected. *)
Theorem generateStatusline_blank_line_is_reset `{Formatters} `{BudgetDisplay}
    `{ColorEncoders} `{Terminal} `{Constants} `{ThemeTables} `{Providers}
    (cfg : PowerlineConfig) (env : ProcessEnv) (lineConfig : LineConfig)
    (hookData : ClaudeHookData) (colors : PowerlineColors) :
  autoWrap (display cfg) = false ->
  lines (display cfg) = [lineConfig] ->
  getThemeColors cfg = mret colors ->
  (forall segment usageInfo blockInfo todayInfo contextInfo metricsInfo,
     segment ∈ enabledSegments lineConfig ->
     renderSegment cfg env segment hookData usageInfo blockInfo todayInfo contextInfo
       metricsInfo colors (currentDirOf hookData) = None) ->
  generateStatusline cfg env hookData = mret (reset colors).
Proof.
  intros Hwrap Hlines Hcolors Hnone. unfold generateStatusline.
  rewrite Hwrap, Hlines. cbn [mapM].
  rewrite (renderLine_no_segment cfg env lineConfig hookData _ _ _ _ _ colors Hcolors)
    by (intros segment Hin; now apply Hnone).
  rewrite !eff_bind_ret. f_equal.
  cbn [List.filter]. destruct (reset colors) as [|c r]; reflexivity.
Qed.

(** ** The statusline and the theme *)

Lemma outcome_bind_congr {A B : Type} (m1 m2 : Eff A) (k1 k2 : A -> Eff B) :
  outcome m1 = outcome m2 ->
  (forall a, outcome (k1 a) = outcome (k2 a)) ->
  outcome (m1 ≫= k1) = outcome (m2 ≫= k2).
Proof.
  intros Hm Hk. unfold mbind, eff_bind. rewrite Hm.
  destruct (outcome m2); cbn [outcome]; [reflexivity | apply Hk].
Qed.

Lemma outcome_mapM_congr {A B : Type} (f g : A -> Eff B) (l : list A) :
  (forall x, outcome (f x) = outcome (g x)) ->
  outcome (mapM f l) = outcome (mapM g l).
Proof.
  intros Hfg. induction l as [|x l IH]; [reflexivity|].
  cbn [mapM]. apply outcome_bind_congr; [apply Hfg|]. intros y.
  apply outcome_bind_congr; [exact IH | reflexivity].
Qed.

(** After the warning rendering goes on: the statusline of an unknown theme
    name is the statusline of the theme [dark]. *)
Lemma generateStatusline_unknown_theme `{Formatters} `{BudgetDisplay} `{ColorEncoders}
    `{Terminal} `{Constants} `{ThemeTables} `{Providers}
    (cfg : PowerlineConfig) (env : ProcessEnv) (hookData : ClaudeHookData) :
  theme cfg <> "custom" ->
  BUILT_IN_THEMES !! theme cfg = None ->
  JsObject.inherits (theme cfg) = false ->
  outcome (generateStatusline cfg env hookData)
  = outcome (generateStatusline (withTheme "dark" cfg) env hookData).
Proof.
  intros Hcustom Hunknown Hinherits.
  assert (Hsame : outcome (getThemeColors cfg)
                  = outcome (getThemeColors (withTheme "dark" cfg)))
    by now rewrite (getThemeColors_fallback cfg Hcustom Hunknown Hinherits).
  unfold generateStatusline.
  change (autoWrap (display (withTheme "dark" cfg))) with (autoWrap (display cfg)).
  destruct (autoWrap (display cfg)).
  - unfold generateAutoWrapStatusline.
    apply outcome_bind_congr; [exact Hsame | reflexivity].
  - apply outcome_bind_congr; [|reflexivity].
    change (lines (display (withTheme "dark" cfg))) with (lines (display cfg)).
    apply outcome_mapM_congr. intros lineConfig. unfold renderLine.
    apply outcome_bind_congr; [exact Hsame | reflexivity].
Qed.

(** Selecting [custom] without a table fails the whole render, as soon as
    there is a line to render. *)
Lemma generateStatusline_custom_without_table `{Formatters} `{BudgetDisplay}
    `{ColorEncoders} `{Terminal} `{Constants} `{ThemeTables} `{Providers}
    (cfg : PowerlineConfig) (env : ProcessEnv) (hookData : ClaudeHookData) :
  theme cfg = "custom" -> colors cfg ≫= custom = None ->
  autoWrap (display cfg) = true \/ lines (display cfg) <> [] ->
  outcome (generateStatusline cfg env hookData)
  = Threw "Custom theme selected but no colors provided in configuration".
Proof.
  intros Hcustom Hnone Hrenders.
  assert (Hthrow : getThemeColors cfg
                   = throw "Custom theme selected but no colors provided in configuration").
  { unfold getThemeColors, selectColorTheme. now rewrite Hcustom, Hnone. }
  unfold generateStatusline.
  destruct (autoWrap (display cfg)).
  - unfold generateAutoWrapStatusline. now rewrite Hthrow.
  - destruct Hrenders as [Hwrap | Hlines]; [discriminate|].
    destruct (lines (display cfg)) as [|lineConfig rest]; [congruence|].
    cbn [mapM].
    match goal with
    | |- context [renderLine cfg env lineConfig hookData ?u ?b ?t ?c ?m] =>
        assert (Hline : renderLine cfg env lineConfig hookData u b t c m
                        = throw "Custom theme selected but no colors provided in configuration")
          by (unfold renderLine; now rewrite Hthrow);
        rewrite Hline
    end.
    reflexivity.
Qed.

(** ** The theorems at concrete inputs *)

Section Examples.
#[local] Existing Instance Sample.formatters.
#[local] Existing Instance Sample.budgetDisplay.
#[local] Existing Instance Sample.encoders.
#[local] Existing Instance Sample.terminal.
#[local] Existing Instance Sample.constants.
#[local] Existing Instance Sample.tables.
#[local] Existing Instance Sample.providers.

(** Three capsules on a terminal twenty columns wide: the first two fill
    the first physical line exactly, the third starts a second one. *)
Lemma autoWrapLine_fits_example :
  let cfg := Sample.config "dark" Capsule true [Sample.threeSegments] in
  let rendered :=
    renderSegments cfg Sample.env Sample.threeSegments Sample.hookData
      None None None None None Sample.palette "/home/alice/proj/src" in
  let physical :=
    autoWrapLine cfg Sample.env Sample.hookData None None None None None
      Sample.palette "/home/alice/proj/src" (Some 20) [] Sample.threeSegments in
  1 <= 20
  /\ rendered <> []
  /\ map (map seg_text) physical = [["src"; "M Claude"]; ["tmux:none"]]
  /\ concat physical = rendered
  /\ Forall
       (fun line =>
          line <> []
          /\ (physicalLineWidth cfg line <= 20
              \/ exists s, line = [s] /\ 20 < physicalLineWidth cfg [s]))
       physical
  /\ (forall line s, line ∈ physical -> s ∈ line ->
      20 < physicalLineWidth cfg [s] -> line = [s]).
Proof.
  intros cfg rendered physical.
  assert (Hwidth : 1 <= 20) by lia.
  assert (Hrendered : rendered <> []) by (vm_compute; discriminate).
  split; [exact Hwidth|]. split; [exact Hrendered|]. split; [reflexivity|].
  exact (autoWrapLine_fits cfg Sample.env Sample.hookData None None None None None
           Sample.palette "/home/alice/proj/src" 20 Sample.threeSegments
           Hwidth Hrendered).
Defined.

(** A ceiling of 10 with the threshold 80: 8 is the first value in the
    warning tier, 7 is ok and 10 is exceeded. *)
Lemma getBudgetStatus_tiers_example :
  (0 < 10)%Q /\ (80 <= 100)%Q
  /\ tier (getBudgetStatus 8 10 80) = TierWarning
  /\ tier (getBudgetStatus 7 10 80) = TierOk
  /\ tier (getBudgetStatus 10 10 80) = TierExceeded.
Proof.
  assert (Hceiling : (0 < 10)%Q) by reflexivity.
  assert (Hthreshold : (80 <= 100)%Q) by (unfold Qle; cbn; lia).
  split; [exact Hceiling|]. split; [exact Hthreshold|].
  split; [|split].
  - apply (getBudgetStatus_tiers 8 10 80 Hceiling Hthreshold); reflexivity.
  - apply (getBudgetStatus_tiers 7 10 80 Hceiling Hthreshold); reflexivity.
  - apply (getBudgetStatus_tiers 10 10 80 Hceiling Hthreshold); reflexivity.
Defined.

(** A negative ceiling leaves the cost display as it is. *)
Lemma formatUsageWithBudget_no_ceiling_example :
  (forall b, Some (-5)%Q = Some b -> (b <= 0)%Q)
  /\ formatUsageWithBudget (Some 4%Q) (Some 1200) None "cost" (Some (-5)%Q)
       (Some 80%Q) (Some BudgetCost)
     = "$4".
Proof.
  assert (Hoff : forall b, Some (-5)%Q = Some b -> (b <= 0)%Q).
  { intros b Hb. injection Hb as <-. unfold Qle. cbn. lia. }
  split; [exact Hoff|].
  exact (formatUsageWithBudget_no_ceiling (Some 4%Q) (Some 1200) None "cost"
           (Some (-5)%Q) (Some 80%Q) (Some BudgetCost) Hoff).
Defined.

(** The unknown name [solarized] resolves as [dark] does, with a warning. *)
Lemma getThemeColors_unknown_theme_example :
  let cfg := Sample.config "solarized" Powerline false [] in
  theme cfg <> "custom"
  /\ BUILT_IN_THEMES !! theme cfg = None
  /\ JsObject.inherits (theme cfg) = false
  /\ warnings (getThemeColors cfg)
     = ["Built-in theme 'solarized' not found, falling back to 'dark' theme"]
  /\ outcome (getThemeColors cfg)
     = outcome (getThemeColors (Sample.config "dark" Powerline false [])).
Proof.
  intros cfg.
  assert (Hcustom : theme cfg <> "custom") by discriminate.
  assert (Hunknown : BUILT_IN_THEMES !! theme cfg = None) by reflexivity.
  assert (Hinherits : JsObject.inherits (theme cfg) = false) by reflexivity.
  split; [exact Hcustom|]. split; [exact Hunknown|]. split; [exact Hinherits|].
  split.
  - exact (proj1 (getThemeColors_unknown_theme cfg Hcustom Hunknown Hinherits)).
  - exact (proj1 (proj2 (getThemeColors_unknown_theme cfg Hcustom Hunknown Hinherits))).
Defined.

(** The name [constructor]: no warning, and the dark categories (the sample
    dark table has no warning pair of its own, so the colour set is the
    dark one here). *)
Lemma getThemeColors_inherited_name_example :
  let cfg := Sample.config "constructor" Powerline false [] in
  JsObject.inherits (theme cfg) = true
  /\ theme cfg <> "custom"
  /\ BUILT_IN_THEMES !! theme cfg = None
  /\ warnings (getThemeColors cfg) = []
  /\ getThemeColors cfg = encodeThemeColors cfg inheritedTheme.
Proof.
  intros cfg.
  assert (Hinherits : JsObject.inherits (theme cfg) = true) by reflexivity.
  split; [exact Hinherits|].
  exact (getThemeColors_inherited_name cfg Hinherits).
Defined.

(** [custom] without a table throws; [nord] resolves. *)
Lemma getThemeColors_fails_only_for_custom_example :
  darkComplete = true
  /\ getThemeColors (Sample.config "custom" Powerline false [])
     = throw "Custom theme selected but no colors provided in configuration"
  /\ exists c, outcome (getThemeColors (Sample.config "nord" Powerline false []))
               = Returned c.
Proof.
  assert (Hdark : darkComplete = true) by reflexivity.
  split; [exact Hdark|]. split.
  - exact (proj1 (getThemeColors_fails_only_for_custom
                    (Sample.config "custom" Powerline false []) Hdark)
             eq_refl eq_refl).
  - apply (proj2 (getThemeColors_fails_only_for_custom
                    (Sample.config "nord" Powerline false []) Hdark)).
    discriminate.
Defined.

(** The snapshot of the example with the glyphs of the sample table. *)
Lemma renderGit_main_ahead_dirty_example :
  let symbols := symbols Sample.budgetConfig in
  showAheadBehind (segmentConfig true) <> Some false
  /\ text <$> renderGit symbols (Some Sample.gitInfo) Sample.palette
                (Some (segmentConfig true))
     = Some "br main ^2 *".
Proof.
  intros symbols.
  assert (Hab : showAheadBehind (segmentConfig true) <> Some false) by discriminate.
  split; [exact Hab|].
  exact (renderGit_main_ahead_dirty symbols Sample.palette (segmentConfig true)
           Sample.gitInfo eq_refl eq_refl eq_refl eq_refl eq_refl eq_refl eq_refl
           eq_refl eq_refl Hab eq_refl eq_refl eq_refl).
Defined.

(** A session that has used 40% of a budget whose threshold is set to 0. *)
Lemma renderSession_zero_threshold_example :
  (0 == 0)%Q /\ (0 < 10)%Q /\ (0 < 4)%Q /\ (4 / 10 * 100 < 80)%Q
  /\ text (renderSession Sample.budgetConfig (symbols Sample.budgetConfig)
             Sample.usageInfo Sample.palette None)
     = "S $4 40%"
  /\ tier (getBudgetStatus 4 10 80) = TierOk
  /\ tier (getBudgetStatus 4 10 0) = TierWarning.
Proof.
  assert (Hzero : (0 == 0)%Q) by reflexivity.
  assert (Hamount : (0 < 10)%Q) by reflexivity.
  assert (Hvalue : (0 < 4)%Q) by reflexivity.
  assert (Hbelow : (4 / 10 * 100 < 80)%Q) by reflexivity.
  split; [exact Hzero|]. split; [exact Hamount|].
  split; [exact Hvalue|]. split; [exact Hbelow|].
  exact (renderSession_zero_threshold Sample.budgetConfig (symbols Sample.budgetConfig)
           Sample.usageInfo Sample.palette None
           {| budget_amount := Some 10%Q; budget_warningThreshold := Some 0%Q;
              budget_type := None |}
           10 0 4 eq_refl eq_refl eq_refl Hzero Hamount eq_refl Hvalue Hbelow).
Defined.

(** Without auto-wrap, a statusline of one line that shows only a version
    nobody knows is the reset code. *)
Lemma generateStatusline_blank_line_example :
  let cfg := Sample.config "dark" Powerline false [Sample.versionOnly] in
  autoWrap (display cfg) = false
  /\ lines (display cfg) = [Sample.versionOnly]
  /\ generateStatusline cfg Sample.env Sample.hookData = mret "<reset>".
Proof.
  intros cfg.
  assert (Hcolors : exists c, getThemeColors cfg = mret c /\ reset c = "<reset>").
  { eexists. split; reflexivity. }
  destruct Hcolors as (c & Hcolors & Hreset).
  split; [reflexivity|]. split; [reflexivity|].
  rewrite <- Hreset.
  apply (generateStatusline_blank_line_is_reset cfg Sample.env Sample.versionOnly
           Sample.hookData c eq_refl eq_refl Hcolors).
  intros segment usageInfo blockInfo todayInfo contextInfo metricsInfo Hin.
  apply list_elem_of_singleton in Hin. subst segment. reflexivity.
Defined.

(** Two configured lines without auto-wrap, the second showing nothing: the
    statusline ends in a line break and a reset code. *)
Lemma generateStatusline_trailing_reset_example :
  outcome (generateStatusline
             (Sample.config "dark" Powerline false
                [Sample.threeSegments; Sample.versionOnly])
             Sample.env Sample.hookData)
  = Returned
      ("<reset><bg #111111><fg #eeeeee> src <reset><bg #111111><as-fg <bg #111111>>>"
       +:+ "<bg #111111><fg #eeeeee> M Claude <reset><bg #111111><as-fg <bg #111111>>>"
       +:+ "<bg #111111><fg #eeeeee> tmux:none <reset><as-fg <bg #111111>>><reset>"
       +:+ LF +:+ "<reset>").
Proof. reflexivity. Qed.

(** The same two lines with auto-wrap on a terminal twenty columns wide:
    two physical lines for the first, none for the second. *)
Lemma generateStatusline_auto_wrap_example :
  outcome (generateStatusline
             (Sample.config "dark" Powerline true
                [Sample.threeSegments; Sample.versionOnly])
             Sample.env Sample.hookData)
  = Returned
      ("<reset><bg #111111><fg #eeeeee> src <reset><bg #111111><as-fg <bg #111111>>>"
       +:+ "<bg #111111><fg #eeeeee> M Claude <reset><as-fg <bg #111111>>><reset>"
       +:+ LF
       +:+ "<reset><bg #111111><fg #eeeeee> tmux:none <reset><as-fg <bg #111111>>><reset>").
Proof. reflexivity. Qed.

(** Fish style at Alice's: every component but the last is cut. *)
Lemma renderDirectory_fish_example :
  text (renderDirectory Sample.env Sample.hookData Sample.palette
          (Some (directoryConfig StyleFish))) = "~/p/src".
Proof. reflexivity. Qed.

End Examples.

(** * Further properties of the code *)

Local Close Scope string_scope.

(** ** Numbers of the language *)

(** Comparing in the other direction gives the opposite outcome. *)
Lemma SFcompare_antisym (x y : spec_float) :
  SFcompare y x = option_map CompOpp (SFcompare x y).
Proof.
  destruct x as [sx|sx| |sx mx ex], y as [sy|sy| |sy my ey]; cbn;
    try reflexivity; try (destruct sx; reflexivity); try (destruct sy; reflexivity);
    try (destruct sx, sy; reflexivity).
  assert (Hmantissa : Pos.compare_cont Eq my mx = CompOpp (Pos.compare_cont Eq mx my))
    by now rewrite Pos.compare_cont_antisym.
  destruct sx, sy; try reflexivity; f_equal;
    rewrite (Z.compare_antisym ex ey), Hmantissa;
    destruct (ex ?= ey); cbn; try reflexivity;
    destruct (Pos.compare_cont Eq mx my); reflexivity.
Qed.

Lemma SFcompare_refl (x : spec_float) :
  SFcompare x x = match x with S754_nan => None | _ => Some Eq end.
Proof.
  destruct x as [s|s| |s m e]; cbn; try reflexivity; try (destruct s; reflexivity).
  destruct s; rewrite Z.compare_refl, Pos.compare_cont_refl; reflexivity.
Qed.

Lemma SFcompare_None (x y : spec_float) :
  SFcompare x y = None -> x = S754_nan \/ y = S754_nan.
Proof.
  destruct x as [sx|sx| |sx mx ex], y as [sy|sy| |sy my ey]; cbn; auto; discriminate.
Qed.

Lemma is_nan_spec (x : float) : is_nan x = true <-> Prim2SF x = S754_nan.
Proof.
  unfold is_nan. rewrite FloatAxioms.eqb_spec. unfold SFeqb. rewrite SFcompare_refl.
  destruct (Prim2SF x); cbn; split; congruence.
Qed.

(** Two numbers that are not [NaN] compare one way, and every test of the
    language follows from it. *)
Lemma float_compare_cases (x y : float) :
  is_nan x = false -> is_nan y = false ->
  exists c : comparison,
    (x <? y)%float = match c with Lt => true | _ => false end
    /\ (y <? x)%float = match c with Gt => true | _ => false end
    /\ (x <=? y)%float = match c with Gt => false | _ => true end
    /\ (y <=? x)%float = match c with Lt => false | _ => true end
    /\ (x =? y)%float = match c with Eq => true | _ => false end
    /\ (y =? x)%float = match c with Eq => true | _ => false end.
Proof.
  intros Hx Hy.
  rewrite !FloatAxioms.ltb_spec, !FloatAxioms.leb_spec, !FloatAxioms.eqb_spec.
  unfold SFltb, SFleb, SFeqb.
  rewrite (SFcompare_antisym (Prim2SF x) (Prim2SF y)).
  destruct (SFcompare (Prim2SF x) (Prim2SF y)) as [c|] eqn:Hc.
  - exists c. destruct c; cbn; repeat split.
  - apply SFcompare_None in Hc as [Hn | Hn]; apply is_nan_spec in Hn; congruence.
Qed.

(** [Math.max(0, r)] keeps a number at or above zero. *)
Lemma max_zero_cases (r : float) :
  is_nan r = false ->
  is_nan (JsNumber.max 0 r) = false /\ (0 <=? JsNumber.max 0 r)%float = true.
Proof.
  intros Hr. unfold JsNumber.max. change (is_nan 0) with false. rewrite Hr. cbn [orb].
  destruct (float_compare_cases 0 r eq_refl Hr) as (c & Hlt & Hgt & Hle & _).
  rewrite Hlt, Hgt. change (JsNumber.isNegZero 0) with false.
  destruct c; cbn iota; rewrite ?Hr, ?Hle; split; reflexivity.
Qed.

(** [Math.min(100, m)] keeps it at or below 100, and reaching 100 is the
    same as being 100. *)
Lemma min_hundred_cases (m : float) :
  is_nan m = false -> (0 <=? m)%float = true ->
  is_nan (JsNumber.min 100 m) = false
  /\ (0 <=? JsNumber.min 100 m)%float = true
  /\ (JsNumber.min 100 m <=? 100)%float = true
  /\ (100 <=? JsNumber.min 100 m)%float = (JsNumber.min 100 m =? 100)%float.
Proof.
  intros Hm Hzero. unfold JsNumber.min. change (is_nan 100) with false.
  rewrite Hm. cbn [orb].
  destruct (float_compare_cases 100 m eq_refl Hm) as (c & Hlt & Hgt & Hle & Hge & _ & Heq).
  rewrite Hlt, Hgt. change (JsNumber.isNegZero 100) with false.
  destruct c; cbn iota; rewrite ?Hm, ?Hzero, ?Hle, ?Hge, ?Heq; repeat split; reflexivity.
Qed.

(** A percentage is [NaN] when the rounded ratio is, and otherwise lies
    between 0 and 100. *)
Lemma percentOf_cases (length limit : float) :
  let p := ContextProvider.percentOf length limit in
  p = nan
  \/ (is_nan p = false /\ (0 <=? p)%float = true /\ (p <=? 100)%float = true
      /\ (100 <=? p)%float = (p =? 100)%float).
Proof.
  intros p. subst p. unfold ContextProvider.percentOf.
  set (r := JsNumber.round _).
  destruct (is_nan r) eqn:Hr.
  - left. unfold JsNumber.max. change (is_nan 0) with false. rewrite Hr. reflexivity.
  - right. destruct (max_zero_cases r Hr) as [Hm Hzero].
    now apply min_hundred_cases.
Qed.

Lemma orElse_truthy (a : option float) (d : float) :
  JsNumber.truthy d = true -> JsNumber.truthy (JsNumber.orElse a d) = true.
Proof.
  intros Hd. unfold JsNumber.orElse.
  destruct a as [x|]; [|exact Hd].
  now destruct (JsNumber.truthy x) eqn:Hx.
Qed.

(** ** Context provider *)

Lemma getContextLimit_truthy (limits : option (gmap string float)) (modelId : string) :
  JsNumber.truthy (ContextProvider.getContextLimit limits modelId) = true.
Proof.
  unfold ContextProvider.getContextLimit. now repeat apply orElse_truthy.
Qed.

(** What a returned snapshot is made of. *)
Lemma calculateContextTokens_shape (limits : option (gmap string float))
    (content : option string) (parsedEntries : option (list ParsedEntry))
    (modelId : option string) (info : ContextInfo) :
  ContextProvider.calculateContextTokens limits content parsedEntries modelId = Some info ->
  percentage info = ContextProvider.percentOf (inputTokens info) (maxTokens info)
  /\ usablePercentage info = percentage info
  /\ contextLeftPercentage info = JsNumber.max 0 (100 - percentage info)%float
  /\ usableTokens info = maxTokens info
  /\ JsNumber.truthy (maxTokens info) = true.
Proof.
  unfold ContextProvider.calculateContextTokens.
  destruct (negb (JsString.truthy content)); [discriminate|].
  destruct parsedEntries as [entries|]; [|discriminate].
  destruct (Nat.eqb (length entries) 0); [discriminate|].
  destruct ((List.find ContextProvider.countsForContext (rev entries) ≫= message) ≫= usage)
    as [u|]; [|discriminate].
  intros Hinfo. injection Hinfo as <-. cbn [inputTokens percentage usablePercentage
    contextLeftPercentage usableTokens maxTokens].
  repeat split.
  destruct modelId as [id|]; [|reflexivity].
  destruct (JsString.truthy (Some id)); [apply getContextLimit_truthy | reflexivity].
Qed.

(** X1: whatever the transcript and the configured limits, the percentage
    of a context snapshot that is returned is [NaN] or lies between 0 and
    100 (it is the clamped, rounded ratio of the token count to the limit,
    computed in binary64); the usable percentage equals it, the remaining
    percentage is 100 minus it and not below 0, the usable limit is the
    limit, and the limit is neither zero nor [NaN]. *)
Theorem calculateContextTokens_bounds (limits : option (gmap string float))
    (content : option string) (parsedEntries : option (list ParsedEntry))
    (modelId : option string) (info : ContextInfo) :
  ContextProvider.calculateContextTokens limits content parsedEntries modelId = Some info ->
  (percentage info = nan
   \/ ((0 <=? percentage info)%float = true /\ (percentage info <=? 100)%float = true))
  /\ percentage info
     = JsNumber.min 100
         (JsNumber.max 0 (JsNumber.round (inputTokens info / maxTokens info * 100)%float))
  /\ usablePercentage info = percentage info
  /\ contextLeftPercentage info = JsNumber.max 0 (100 - percentage info)%float
  /\ usableTokens info = maxTokens info
  /\ JsNumber.truthy (maxTokens info) = true.
Proof.
  intros Hinfo.
  destruct (calculateContextTokens_shape _ _ _ _ _ Hinfo)
    as (Hpct & Husable & Hleft & Htokens & Hmax).
  split; [|now repeat split].
  rewrite Hpct.
  destruct (percentOf_cases (inputTokens info) (maxTokens info))
    as [Hnan | (_ & Hlow & Hhigh & _)]; [now left | now right].
Qed.

Lemma find_app_none {A : Type} (f : A -> bool) (l k : list A) :
  Forall (fun x => f x = false) l -> List.find f (l ++ k) = List.find f k.
Proof.
  induction 1 as [|x l Hx _ IH]; [reflexivity|].
  cbn. now rewrite Hx.
Qed.

(** X2: the snapshot is taken from the most recent entry that counts: entries
    before it, and later entries that do not count, change nothing. *)
Theorem calculateContextTokens_most_recent (limits : option (gmap string float))
    (content : option string) (before after : list ParsedEntry) (entry : ParsedEntry)
    (modelId : option string) :
  ContextProvider.countsForContext entry = true ->
  Forall (fun e => ContextProvider.countsForContext e = false) after ->
  ContextProvider.calculateContextTokens limits content
    (Some (before ++ entry :: after)) modelId
  = ContextProvider.calculateContextTokens limits content (Some [entry]) modelId.
Proof.
  intros Hentry Hafter. unfold ContextProvider.calculateContextTokens.
  destruct (negb (JsString.truthy content)); [reflexivity|].
  rewrite length_app. cbn [length].
  replace (Nat.eqb (length before + S (length after)) 0) with false
    by (symmetry; apply Nat.eqb_neq; lia).
  cbn [Nat.eqb].
  rewrite rev_app_distr. cbn [rev]. rewrite <- app_assoc.
  rewrite find_app_none by (apply Forall_rev; exact Hafter).
  cbn [app List.find]. now rewrite Hentry.
Qed.

(** X3: no snapshot without a transcript, without parsed entries, or without
    an entry of the main chain that reports input tokens. *)
Theorem calculateContextTokens_null (limits : option (gmap string float))
    (content : option string) (parsedEntries : option (list ParsedEntry))
    (modelId : option string) :
  JsString.truthy content = false
  \/ parsedEntries = None
  \/ (exists entries, parsedEntries = Some entries
      /\ Forall (fun e => ContextProvider.countsForContext e = false) entries) ->
  ContextProvider.calculateContextTokens limits content parsedEntries modelId = None.
Proof.
  intros [Hcontent | [Hparsed | (entries & -> & Hnone)]];
    unfold ContextProvider.calculateContextTokens.
  - now rewrite Hcontent.
  - rewrite Hparsed. now destruct (negb _).
  - destruct (negb _); [reflexivity|].
    destruct (Nat.eqb _ _); [reflexivity|].
    rewrite <- (app_nil_r (rev entries)).
    rewrite find_app_none by (apply Forall_rev; exact Hnone).
    reflexivity.
Qed.

Lemma toLowerCase_app (a b : string) :
  JsText.toLowerCase (a +:+ b) = JsText.toLowerCase a +:+ JsText.toLowerCase b.
Proof.
  induction a as [|c a IH]; [reflexivity|].
  rewrite append_cons. cbn [JsText.toLowerCase]. now rewrite IH, append_cons.
Qed.

Lemma prefix_app (s b : string) : String.prefix s (s +:+ b) = true.
Proof.
  induction s as [|c s IH]; [now destruct b|].
  rewrite append_cons. cbn [String.prefix].
  destruct (ascii_dec c c); [exact IH | congruence].
Qed.

Lemma includes_app (a s b : string) : JsText.includes (a +:+ s +:+ b) s = true.
Proof.
  induction a as [|c a IH].
  - rewrite append_nil_l.
    destruct (s +:+ b) eqn:Hsb; cbn [JsText.includes]; rewrite <- Hsb;
      now rewrite prefix_app.
  - rewrite append_cons. cbn [JsText.includes].
    destruct (String.prefix s _); [reflexivity | exact IH].
Qed.

(** X4: a model identifier that holds "sonnet", in any mix of upper and lower
    case, is of type sonnet, also when it holds "opus" as well. *)
Theorem getModelType_sonnet_first (before word after : string) :
  JsText.toLowerCase word = "sonnet" ->
  ContextProvider.getModelType (before +:+ word +:+ after) = "sonnet".
Proof.
  intros Hword. unfold ContextProvider.getModelType.
  rewrite !toLowerCase_app, Hword.
  now rewrite includes_app.
Qed.

(** ** Context segment *)

(** X5: with no warning threshold configured, the context segment of a snapshot
    that the provider returned takes the warning colours exactly when the
    percentage is 100. *)
Theorem renderContext_default_warning `{Formatters} (symbols : PowerlineSymbols)
    (colors : PowerlineColors) (config : option SegmentConfig)
    (limits : option (gmap string float)) (content : option string)
    (parsedEntries : option (list ParsedEntry)) (modelId : option string)
    (info : ContextInfo) :
  ContextProvider.calculateContextTokens limits content parsedEntries modelId = Some info ->
  config ≫= cfg_warningThreshold = None ->
  (fun s => (bgColor s, fgColor s)) <$> renderContext symbols (Some info) colors config
  = Some (if (percentage info =? 100)%float
          then (warningBg colors, warningFg colors)
          else (contextBg colors, contextFg colors)).
Proof.
  intros Hinfo Hthreshold.
  destruct (calculateContextTokens_shape _ _ _ _ _ Hinfo) as (Hpct & _).
  unfold renderContext. rewrite Hthreshold.
  cbn [default fmap option_fmap option_map bgColor fgColor].
  assert (Heq : (100 <=? percentage info)%float = (percentage info =? 100)%float).
  { rewrite Hpct.
    destruct (percentOf_cases (inputTokens info) (maxTokens info))
      as [-> | (_ & _ & _ & Hfull)]; [reflexivity | exact Hfull]. }
  rewrite Heq. now destruct (percentage info =? 100)%float.
Qed.

(** ** Theme lookup *)

(** X6: for each of the six built-in themes the capability picks the table:
    the 16-colour variant for "ansi" and for "none", the 256-colour variant
    for "ansi256", the base table for "truecolor"; and a variant that is
    named directly is returned as it is at every capability. *)
Theorem getTheme_variants `{ThemeTables} (name : string) (cs cs' : ColorSupport) :
  name ∈ baseThemeNames ->
  is_Some (getTheme name cs)
  /\ getTheme name cs = BUILT_IN_THEMES !! (name +:+ variantSuffix cs)
  /\ (cs <> CsTruecolor ->
      getTheme (name +:+ variantSuffix cs) cs' = getTheme name cs).
Proof.
  intros Hname. unfold baseThemeNames in Hname.
  repeat (apply elem_of_cons in Hname as [-> | Hname];
          [destruct cs, cs';
           (split; [eexists; reflexivity
                   | split; [reflexivity | intros Hcs; try reflexivity; congruence]])|]).
  inversion Hname.
Qed.

(** ** Colour resolution *)

Lemma getSegmentColors_encoded `{ColorEncoders} (cfg : PowerlineConfig)
    (t fallback : ColorTheme) (segment : ColorTheme -> option SegmentColor) :
  colorSupport cfg = CsNone
  \/ is_Some (match segment t with Some c => Some c | None => segment fallback end) ->
  getSegmentColors cfg t fallback segment
  = mret {| bg := encodeHex (colorSupport cfg)
                    (bg (default {| bg := ""; fg := "" |}
                           (match segment t with
                            | Some c => Some c
                            | None => segment fallback
                            end))) true;
            fg := encodeHex (colorSupport cfg)
                    (fg (default {| bg := ""; fg := "" |}
                           (match segment t with
                            | Some c => Some c
                            | None => segment fallback
                            end))) false |}.
Proof.
  intros Hdefined. unfold getSegmentColors, encodeHex.
  destruct (colorSupport cfg) eqn:Hcs; [reflexivity| | |];
    (destruct Hdefined as [Hnone | [c Hc]]; [discriminate|]; now rewrite Hc).
Qed.

Lemma complete_fillFrom (t fallback : ColorTheme) :
  complete fallback = true -> complete (fillFrom t fallback) = true.
Proof.
  intros Hfb. destruct (complete_fields _ Hfb)
    as ([? Hd] & [? Hg] & [? Hm] & [? Hs] & [? Hb] & [? Ht] & [? Hx] & [? Hc] & [? He] & [? Hv]).
  unfold complete, fillFrom.
  cbn [th_directory th_git th_model th_session th_block th_today th_tmux th_context
       th_metrics th_version].
  rewrite Hd, Hg, Hm, Hs, Hb, Ht, Hx, Hc, He, Hv.
  destruct (th_directory t), (th_git t), (th_model t), (th_session t), (th_block t),
    (th_today t), (th_tmux t), (th_context t), (th_metrics t), (th_version t);
    reflexivity.
Qed.

(** Encoding a table gives the colour set of the table filled from the
    dark table, when nothing is left undefined or no colour is used. *)
Lemma encodeThemeColors_encoded `{ColorEncoders} `{Constants} `{ThemeTables}
    (cfg : PowerlineConfig) (t : ColorTheme) :
  colorSupport cfg = CsNone \/ complete (darkTable (colorSupport cfg)) = true ->
  encodeThemeColors cfg t
  = mret (encodedColors (colorSupport cfg) (fillFrom t (darkTable (colorSupport cfg)))).
Proof.
  intros Hok. unfold encodeThemeColors.
  rewrite darkThemeAsserted_returns, eff_bind_ret.
  change (match colorSupport cfg with
          | CsNone | CsAnsi => darkAnsiTheme
          | CsAnsi256 => darkAnsi256Theme
          | CsTruecolor => darkTheme
          end) with (darkTable (colorSupport cfg)).
  set (fb := darkTable (colorSupport cfg)) in *.
  assert (Hall : colorSupport cfg = CsNone
                 \/ (is_Some (th_directory (fillFrom t fb))
                     /\ is_Some (th_git (fillFrom t fb))
                     /\ is_Some (th_model (fillFrom t fb))
                     /\ is_Some (th_session (fillFrom t fb))
                     /\ is_Some (th_block (fillFrom t fb))
                     /\ is_Some (th_today (fillFrom t fb))
                     /\ is_Some (th_tmux (fillFrom t fb))
                     /\ is_Some (th_context (fillFrom t fb))
                     /\ is_Some (th_metrics (fillFrom t fb))
                     /\ is_Some (th_version (fillFrom t fb)))).
  { destruct Hok as [Hnone | Hfb]; [now left | right].
    apply complete_fields, complete_fillFrom, Hfb. }
  cbn [fillFrom th_directory th_git th_model th_session th_block th_today th_tmux
       th_context th_metrics th_version] in Hall.
  rewrite (getSegmentColors_encoded cfg t fb th_directory) by tauto.
  rewrite eff_bind_ret.
  rewrite (getSegmentColors_encoded cfg t fb th_git) by tauto.
  rewrite eff_bind_ret.
  rewrite (getSegmentColors_encoded cfg t fb th_model) by tauto.
  rewrite eff_bind_ret.
  rewrite (getSegmentColors_encoded cfg t fb th_session) by tauto.
  rewrite eff_bind_ret.
  rewrite (getSegmentColors_encoded cfg t fb th_block) by tauto.
  rewrite eff_bind_ret.
  rewrite (getSegmentColors_encoded cfg t fb th_today) by tauto.
  rewrite eff_bind_ret.
  rewrite (getSegmentColors_encoded cfg t fb th_tmux) by tauto.
  rewrite eff_bind_ret.
  rewrite (getSegmentColors_encoded cfg t fb th_context) by tauto.
  rewrite eff_bind_ret.
  rewrite (getSegmentColors_encoded cfg t fb th_metrics) by tauto.
  rewrite eff_bind_ret.
  rewrite (getSegmentColors_encoded cfg t fb th_version) by tauto.
  rewrite eff_bind_ret.
  unfold encodedColors, encodeHex.
  cbn [fillFrom th_directory th_git th_model th_session th_block th_today th_tmux
       th_context th_metrics th_version th_warning bg fg default].
  destruct (colorSupport cfg); reflexivity.
Qed.

Lemma darkComplete_table `{ThemeTables} (cs : ColorSupport) :
  darkComplete = true -> complete (darkTable cs) = true.
Proof.
  unfold darkComplete. intros Hdark.
  apply andb_prop in Hdark as [Hdark Hansi].
  apply andb_prop in Hdark as [Hbase H256].
  destruct cs; assumption.
Qed.

(** X7: with complete dark tables the outcome of colour resolution is this:
    [custom] without a table throws; otherwise the value chosen (the custom
    table, the built-in one of the capability, the value found under a name
    inherited from [Object.prototype], which defines nothing, or the dark
    table for a name that is not found) is encoded at the capability, a
    category it lacks coming from the dark table, and the warning pair from
    the chosen value or, when it has none, red on white. *)
Theorem getThemeColors_outcome `{ColorEncoders} `{Constants} `{ThemeTables}
    (cfg : PowerlineConfig) :
  darkComplete = true ->
  let cs := colorSupport cfg in
  outcome (getThemeColors cfg)
  = if String.eqb (theme cfg) "custom" then
      match colors cfg ≫= custom with
      | Some t => Returned (encodedColors cs (fillFrom t (darkTable cs)))
      | None => Threw "Custom theme selected but no colors provided in configuration"
      end
    else
      Returned (encodedColors cs
                  (fillFrom (default (darkTable cs) (getTheme (theme cfg) cs))
                     (darkTable cs))).
Proof.
  intros Hdark cs. subst cs. unfold getThemeColors, selectColorTheme.
  assert (Hok : colorSupport cfg = CsNone \/ complete (darkTable (colorSupport cfg)) = true)
    by (right; now apply darkComplete_table).
  destruct (String.eqb (theme cfg) "custom").
  - destruct (colors cfg ≫= custom) as [t|]; [|reflexivity].
    now rewrite eff_bind_ret, (encodeThemeColors_encoded cfg t Hok).
  - destruct (getTheme (theme cfg) (colorSupport cfg)) as [t|].
    + now rewrite eff_bind_ret, (encodeThemeColors_encoded cfg t Hok).
    + rewrite darkThemeAsserted_returns, eff_bind_warn.
      unfold mbind, eff_bind. cbn [warnings outcome mret eff_ret default].
      change (match colorSupport cfg with
              | CsNone | CsAnsi => darkAnsiTheme
              | CsAnsi256 => darkAnsi256Theme
              | CsTruecolor => darkTheme
              end) with (darkTable (colorSupport cfg)).
      now rewrite (encodeThemeColors_encoded cfg _ Hok).
Qed.

(** X8: at the capability "none" every colour and the reset code are the empty
    string, for every theme name and every table, complete or not; only
    [custom] without a table still throws. *)
Theorem getThemeColors_no_color `{ColorEncoders} `{Constants} `{ThemeTables}
    (cfg : PowerlineConfig) :
  colorSupport cfg = CsNone ->
  theme cfg <> "custom" \/ is_Some (colors cfg ≫= custom) ->
  outcome (getThemeColors cfg) = Returned noColors.
Proof.
  intros Hnone Hselect. unfold getThemeColors, selectColorTheme.
  assert (Hok : colorSupport cfg = CsNone \/ complete (darkTable (colorSupport cfg)) = true)
    by now left.
  assert (Henc : forall t, outcome (encodeThemeColors cfg t) = Returned noColors).
  { intros t. rewrite (encodeThemeColors_encoded cfg t Hok), Hnone. reflexivity. }
  destruct (String.eqb (theme cfg) "custom") eqn:Hcustom.
  - destruct Hselect as [Hne | [t Ht]].
    + apply String.eqb_eq in Hcustom. congruence.
    + rewrite Ht, eff_bind_ret. apply Henc.
  - destruct (getTheme (theme cfg) (colorSupport cfg)) as [t|].
    + rewrite eff_bind_ret. apply Henc.
    + rewrite darkThemeAsserted_returns, eff_bind_warn.
      unfold mbind, eff_bind. cbn [warnings outcome mret eff_ret]. apply Henc.
Qed.

Lemma eff_bind_returned {A B : Type} (w : list string) (a : A) (f : A -> Eff B) :
  mkEff w (Returned a) ≫= f = mkEff (w ++ warnings (f a)) (outcome (f a)).
Proof. reflexivity. Qed.

Lemma mapM_one_warning {A B : Type} (f : A -> Eff B) (m : string) (l : list A) :
  (forall x, exists y, f x = mkEff [m] (Returned y)) ->
  exists ys, mapM f l = mkEff (replicate (length l) m) (Returned ys).
Proof.
  intros Hf. induction l as [|x l (ys & IH)].
  - now exists [].
  - destruct (Hf x) as [y Hy]. exists (y :: ys).
    cbn [mapM length replicate]. rewrite Hy, eff_bind_returned, IH, eff_bind_returned.
    cbn [warnings outcome mret eff_ret]. now rewrite app_nil_r.
Qed.

(** X9: the warning for a theme name that the lookup does not find (it is
    neither a key of the built-in themes nor a name inherited from
    [Object.prototype]) is written once by the auto-wrap path and once for
    every configured line by the other path, which resolves the colours
    again for each line. *)
Theorem generateStatusline_warning_per_line `{Formatters} `{BudgetDisplay}
    `{ColorEncoders} `{Terminal} `{Constants} `{ThemeTables} `{Providers}
    (cfg : PowerlineConfig) (env : ProcessEnv) (hookData : ClaudeHookData) :
  theme cfg <> "custom" ->
  BUILT_IN_THEMES !! theme cfg = None ->
  JsObject.inherits (theme cfg) = false ->
  darkComplete = true ->
  warnings (generateStatusline cfg env hookData)
  = if autoWrap (display cfg) then [unknownThemeWarning (theme cfg)]
    else replicate (length (lines (display cfg))) (unknownThemeWarning (theme cfg)).
Proof.
  intros Hcustom Hunknown Hinherits Hdark.
  assert (Hcolors : exists c, getThemeColors cfg
                              = mkEff [unknownThemeWarning (theme cfg)] (Returned c)).
  { rewrite (getThemeColors_fallback cfg Hcustom Hunknown Hinherits), getThemeColors_dark.
    destruct (encodeThemeColors_returns cfg
                match colorSupport cfg with
                | CsNone | CsAnsi => darkAnsiTheme
                | CsAnsi256 => darkAnsi256Theme
                | CsTruecolor => darkTheme
                end Hdark) as [c ->].
    now exists c. }
  destruct Hcolors as [c Hcolors].
  unfold generateStatusline. destruct (autoWrap (display cfg)).
  - unfold generateAutoWrapStatusline. now rewrite Hcolors.
  - match goal with
    | |- context [mapM ?f ?l] =>
        destruct (mapM_one_warning f (unknownThemeWarning (theme cfg)) l) as [ys Hys]
    end.
    { intros lineConfig. unfold renderLine. rewrite Hcolors, eff_bind_returned.
      eexists. reflexivity. }
    rewrite Hys, eff_bind_returned. cbn [warnings mret eff_ret]. apply app_nil_r.
Qed.

(** ** Emitting a physical line *)

Section Emitting.
Context `{ColorEncoders} `{Constants}.
Variable cfg : PowerlineConfig.
Variable colors : PowerlineColors.

Lemma buildLine_from (whole : list RenderedSegment) :
  forall (rest pre : list RenderedSegment) (acc : string),
    whole = pre ++ rest ->
    fold_left
      (fun line '(i, segment) =>
         let isFirst := Nat.eqb i 0 in
         let isLast := Nat.eqb i (length whole - 1) in
         let nextSegment := if isLast then None else whole !! (i + 1)%nat in
         let nextBgColor :=
           match nextSegment with
           | Some n => getSegmentBgColor (seg_type n) colors
           | None => ""
           end in
         let line := if isCapsuleStyle cfg && negb isFirst then line +:+ " " else line in
         line +:+ formatSegment cfg (seg_bgColor segment) (seg_fgColor segment)
                    (seg_text segment)
                    (if isLast then None else Some nextBgColor) colors)
      (imap (fun i s => ((length pre + i)%nat, s)) rest)
      acc
    = acc +:+ emitSegments cfg colors (Nat.eqb (length pre) 0) rest.
Proof.
  induction rest as [|s rest IH]; intros pre acc Hwhole.
  - cbn. now rewrite append_nil_r.
  - rewrite imap_cons. cbn [fold_left].
    rewrite (imap_ext _ (fun i x => ((length (pre ++ [s]) + i)%nat, x)))
      by (intros i x _; cbn; rewrite length_app; cbn; f_equal; lia).
    rewrite (IH (pre ++ [s]) _) by (now rewrite <- app_assoc).
    rewrite length_app. cbn [length].
    replace (Nat.eqb (length pre + 1) 0) with false
      by (symmetry; apply Nat.eqb_neq; lia).
    rewrite Nat.add_0_r.
    assert (Hlast : Nat.eqb (length pre) (length whole - 1)
                    = match rest with [] => true | _ => false end).
    { subst whole. rewrite length_app. cbn [length].
      destruct rest; cbn [length];
        [apply Nat.eqb_eq | apply Nat.eqb_neq]; lia. }
    assert (Hnext : whole !! (length pre + 1)%nat = head rest).
    { subst whole. rewrite lookup_app_r by lia.
      replace (length pre + 1 - length pre)%nat with 1%nat by lia.
      now destruct rest. }
    cbn zeta. rewrite Hlast, Hnext.
    cbn [emitSegments].
    destruct rest as [|n rest]; cbn [head];
      destruct (isCapsuleStyle cfg && negb (Nat.eqb (length pre) 0));
      now normalise_strings.
Qed.

(** A physical line is the reset code followed by its segments. *)
Lemma buildLineFromSegments_emit (segs : list RenderedSegment) :
  buildLineFromSegments cfg segs colors
  = reset colors +:+ emitSegments cfg colors true segs.
Proof.
  unfold buildLineFromSegments.
  exact (buildLine_from segs segs [] (reset colors) eq_refl).
Qed.

Lemma formatSegment_capsule (bgColor fgColor text : string) (next : option string) :
  isCapsuleStyle cfg = true ->
  formatSegment cfg bgColor fgColor text next colors
  = formatSegment cfg bgColor fgColor text None colors.
Proof. intros Hcapsule. unfold formatSegment. now rewrite Hcapsule. Qed.

Lemma emitSegments_cons (isFirst : bool) (s : RenderedSegment)
    (rest : list RenderedSegment) :
  emitSegments cfg colors isFirst (s :: rest)
  = (if isCapsuleStyle cfg && negb isFirst then " " else "")
    +:+ formatSegment cfg (seg_bgColor s) (seg_fgColor s) (seg_text s)
          (option_map (fun n => getSegmentBgColor (seg_type n) colors) (head rest))
          colors
    +:+ emitSegments cfg colors false rest.
Proof. now destruct rest. Qed.

Lemma emitSegments_capsule (segs : list RenderedSegment) (s : RenderedSegment) :
  isCapsuleStyle cfg = true ->
  emitSegments cfg colors true (s :: segs)
  = JsString.join " "
      (map (fun s => formatSegment cfg (seg_bgColor s) (seg_fgColor s) (seg_text s)
                       None colors)
           (s :: segs))
  /\ emitSegments cfg colors false (s :: segs)
     = " " +:+ JsString.join " "
         (map (fun s => formatSegment cfg (seg_bgColor s) (seg_fgColor s) (seg_text s)
                          None colors)
              (s :: segs)).
Proof.
  intros Hcapsule. revert s. induction segs as [|n segs IH]; intros s.
  - rewrite !emitSegments_cons, Hcapsule, (formatSegment_capsule _ _ _ _ Hcapsule).
    cbn [emitSegments andb negb map JsString.join].
    split; now normalise_strings.
  - destruct (IH n) as [_ IHfalse].
    rewrite !(emitSegments_cons _ s), IHfalse, Hcapsule,
      (formatSegment_capsule _ _ _ _ Hcapsule).
    cbn [andb negb map JsString.join].
    split; now normalise_strings.
Qed.

End Emitting.

(** X10: in capsule style a physical line is the reset code followed by the
    capsules of its segments, each formatted on its own (the segment that
    follows plays no part) and separated by exactly one space. *)
Theorem buildLineFromSegments_capsules `{ColorEncoders} `{Constants}
    (cfg : PowerlineConfig) (colors : PowerlineColors) (segs : list RenderedSegment) :
  isCapsuleStyle cfg = true ->
  buildLineFromSegments cfg segs colors
  = reset colors
    +:+ JsString.join " "
          (map (fun s => formatSegment cfg (seg_bgColor s) (seg_fgColor s) (seg_text s)
                           None colors)
               segs).
Proof.
  intros Hcapsule. rewrite buildLineFromSegments_emit.
  destruct segs as [|s segs]; [reflexivity|].
  now rewrite (proj1 (emitSegments_capsule cfg colors segs s Hcapsule)).
Qed.

(** ** The two ways of composing a line *)

Section RenderingLines.
Context `{Formatters} `{BudgetDisplay} `{ColorEncoders} `{Terminal}
        `{Constants} `{ThemeTables} `{Providers}.
Variable cfg : PowerlineConfig.
Variable env : ProcessEnv.
Variable hookData : ClaudeHookData.
Variable usageInfo : option UsageInfo.
Variable blockInfo : option BlockInfo.
Variable todayInfo : option TodayInfo.
Variable contextInfo : option ContextInfo.
Variable metricsInfo : option MetricsInfo.
Variable colors : PowerlineColors.
Variable currentDir : string.

Lemma renderLine_from (whole : list (string * SegmentConfig)) :
  forall (rest pre : list (string * SegmentConfig)) (acc : string),
    whole = pre ++ rest ->
    Forall (fun segment =>
              is_Some (renderSegment cfg env segment hookData usageInfo blockInfo
                         todayInfo contextInfo metricsInfo colors currentDir))
           rest ->
    fold_left
      (fun line '(i, segment) =>
         let isFirst := Nat.eqb i 0 in
         let isLast := Nat.eqb i (length whole - 1) in
         let nextSegment := if isLast then None else whole !! (i + 1)%nat in
         let nextBgColor :=
           match nextSegment with
           | Some n => getSegmentBgColor (fst n) colors
           | None => ""
           end in
         let segmentData :=
           renderSegment cfg env segment hookData usageInfo blockInfo todayInfo
             contextInfo metricsInfo colors currentDir in
         match segmentData with
         | Some segmentData =>
             let line := if isCapsuleStyle cfg && negb isFirst then line +:+ " " else line in
             line +:+ formatSegment cfg (bgColor segmentData) (fgColor segmentData)
                        (text segmentData)
                        (if isLast then None else Some nextBgColor) colors
         | None => line
         end)
      (imap (fun i s => ((length pre + i)%nat, s)) rest)
      acc
    = acc +:+ emitSegments cfg colors (Nat.eqb (length pre) 0)
                (omap (fun segment =>
                         match renderSegment cfg env segment hookData usageInfo blockInfo
                                 todayInfo contextInfo metricsInfo colors currentDir with
                         | Some segmentData =>
                             Some {| seg_type := fst segment;
                                     seg_text := text segmentData;
                                     seg_bgColor := bgColor segmentData;
                                     seg_fgColor := fgColor segmentData |}
                         | None => None
                         end)
                      rest).
Proof.
  induction rest as [|s rest IH]; intros pre acc Hwhole Hall.
  - cbn. now rewrite append_nil_r.
  - apply Forall_cons in Hall as [[d Hd] Hrest].
    rewrite imap_cons. cbn [fold_left].
    rewrite (imap_ext _ (fun i x => ((length (pre ++ [s]) + i)%nat, x)))
      by (intros i x _; cbn; rewrite length_app; cbn; f_equal; lia).
    rewrite (IH (pre ++ [s]) _) by (now rewrite <- ?app_assoc).
    rewrite length_app. cbn [length].
    replace (Nat.eqb (length pre + 1) 0) with false
      by (symmetry; apply Nat.eqb_neq; lia).
    rewrite Nat.add_0_r.
    assert (Hlast : Nat.eqb (length pre) (length whole - 1)
                    = match rest with [] => true | _ => false end).
    { subst whole. rewrite length_app. cbn [length].
      destruct rest; cbn [length];
        [apply Nat.eqb_eq | apply Nat.eqb_neq]; lia. }
    assert (Hnext : whole !! (length pre + 1)%nat = head rest).
    { subst whole. rewrite lookup_app_r by lia.
      replace (length pre + 1 - length pre)%nat with 1%nat by lia.
      now destruct rest. }
    cbn zeta. rewrite Hlast, Hnext, Hd.
    cbn [omap list_omap]. rewrite Hd. rewrite emitSegments_cons.
    cbn [seg_type seg_text seg_bgColor seg_fgColor].
    destruct rest as [|n rest]; cbn [head omap list_omap option_map].
    + destruct (isCapsuleStyle cfg && negb (Nat.eqb (length pre) 0));
        now normalise_strings.
    + apply Forall_cons in Hrest as [[dn Hdn] _]. rewrite Hdn.
      cbn [head option_map seg_type].
      destruct (isCapsuleStyle cfg && negb (Nat.eqb (length pre) 0));
        now normalise_strings.
Qed.

Lemma renderSegments_all (lineConfig : LineConfig) :
  Forall (fun segment =>
            is_Some (renderSegment cfg env segment hookData usageInfo blockInfo
                       todayInfo contextInfo metricsInfo colors currentDir))
         (enabledSegments lineConfig) ->
  fold_left
    (fun line '(i, segment) =>
       let isFirst := Nat.eqb i 0 in
       let isLast := Nat.eqb i (length (enabledSegments lineConfig) - 1) in
       let nextSegment :=
         if isLast then None else enabledSegments lineConfig !! (i + 1)%nat in
       let nextBgColor :=
         match nextSegment with
         | Some n => getSegmentBgColor (fst n) colors
         | None => ""
         end in
       let segmentData :=
         renderSegment cfg env segment hookData usageInfo blockInfo todayInfo
           contextInfo metricsInfo colors currentDir in
       match segmentData with
       | Some segmentData =>
           let line := if isCapsuleStyle cfg && negb isFirst then line +:+ " " else line in
           line +:+ formatSegment cfg (bgColor segmentData) (fgColor segmentData)
                      (text segmentData)
                      (if isLast then None else Some nextBgColor) colors
       | None => line
       end)
    (imap (fun i segment => (i, segment)) (enabledSegments lineConfig))
    (reset colors)
  = buildLineFromSegments cfg
      (renderSegments cfg env lineConfig hookData usageInfo blockInfo todayInfo
         contextInfo metricsInfo colors currentDir)
      colors.
Proof.
  intros Hall. rewrite buildLineFromSegments_emit.
  exact (renderLine_from (enabledSegments lineConfig) (enabledSegments lineConfig) []
           (reset colors) eq_refl Hall).
Qed.

End RenderingLines.

(** X11: when every enabled segment of a configured line renders, the line
    composed without auto-wrap is the physical line that the auto-wrap path
    builds from the rendered segments: the two loops place the same
    separators and point every arrow at the same background. *)
Theorem renderLine_all_rendered `{Formatters} `{BudgetDisplay} `{ColorEncoders}
    `{Terminal} `{Constants} `{ThemeTables} `{Providers}
    (cfg : PowerlineConfig) (env : ProcessEnv) (lineConfig : LineConfig)
    (hookData : ClaudeHookData)
    (usageInfo : option UsageInfo) (blockInfo : option BlockInfo)
    (todayInfo : option TodayInfo) (contextInfo : option ContextInfo)
    (metricsInfo : option MetricsInfo) (written : list string)
    (colors : PowerlineColors) :
  getThemeColors cfg = mkEff written (Returned colors) ->
  Forall (fun segment =>
            is_Some (renderSegment cfg env segment hookData usageInfo blockInfo
                       todayInfo contextInfo metricsInfo colors (currentDirOf hookData)))
         (enabledSegments lineConfig) ->
  renderLine cfg env lineConfig hookData usageInfo blockInfo todayInfo contextInfo
    metricsInfo
  = mkEff written
      (Returned
         (buildLineFromSegments cfg
            (renderSegments cfg env lineConfig hookData usageInfo blockInfo todayInfo
               contextInfo metricsInfo colors (currentDirOf hookData))
            colors)).
Proof.
  intros Hcolors Hall. unfold renderLine.
  rewrite Hcolors, eff_bind_returned. cbn [warnings outcome mret eff_ret].
  rewrite app_nil_r. do 2 f_equal.
  now apply renderSegments_all.
Qed.

(** ** Lines that need no break *)

Section KeepingWhole.
Context `{Terminal}.
Variable cfg : PowerlineConfig.
Variable W : Z.

Lemma calculateSegmentWidth_pos (s : RenderedSegment) (isFirst : bool) :
  0 < calculateSegmentWidth cfg s isFirst.
Proof. unfold calculateSegmentWidth. destruct (isCapsuleStyle cfg), isFirst; lia. Qed.

Lemma physicalLineWidth_app_le (line more : list RenderedSegment) :
  physicalLineWidth cfg line <= physicalLineWidth cfg (line ++ more).
Proof.
  induction more as [|s more IH] using rev_ind; [now rewrite app_nil_r|].
  rewrite app_assoc, physicalLineWidth_snoc.
  pose proof (calculateSegmentWidth_pos s (Nat.eqb (length (line ++ more)) 0)). lia.
Qed.

(** While the segments placed so far and those to come fit together, the
    packing loop only appends. *)
Lemma wrapStep_fold_whole (out0 : list (list RenderedSegment)) :
  forall (rest placed : list RenderedSegment),
    physicalLineWidth cfg (placed ++ rest) <= W ->
    fold_left (wrapStep cfg W) rest
      {| outputLines := out0; currentLineSegments := placed;
         currentLineWidth := physicalLineWidth cfg placed |}
    = {| outputLines := out0; currentLineSegments := placed ++ rest;
         currentLineWidth := physicalLineWidth cfg (placed ++ rest) |}.
Proof.
  induction rest as [|s rest IH]; intros placed Hfits.
  - now rewrite app_nil_r.
  - cbn [fold_left].
    replace (placed ++ s :: rest) with ((placed ++ [s]) ++ rest) in *
      by now rewrite <- app_assoc.
    rewrite <- (IH (placed ++ [s]) Hfits). f_equal.
    unfold wrapStep. cbn [outputLines currentLineSegments currentLineWidth].
    pose proof (physicalLineWidth_app_le (placed ++ [s]) rest) as Hle.
    rewrite physicalLineWidth_snoc in Hle.
    replace (W <? physicalLineWidth cfg placed
                  + calculateSegmentWidth cfg s (Nat.eqb (length placed) 0))
      with false by (symmetry; apply Z.ltb_ge; lia).
    rewrite andb_false_r. cbn [outputLines currentLineSegments currentLineWidth].
    now rewrite physicalLineWidth_snoc.
Qed.

Lemma wrapSegments_whole (out0 : list (list RenderedSegment))
    (segments : list RenderedSegment) :
  segments <> [] ->
  physicalLineWidth cfg segments <= W ->
  wrapSegments cfg W out0 segments = out0 ++ [segments].
Proof.
  intros Hne Hfits. unfold wrapSegments.
  pose proof (wrapStep_fold_whole out0 segments [] Hfits) as Hfold.
  rewrite physicalLineWidth_nil in Hfold. rewrite Hfold.
  cbn [app currentLineSegments outputLines].
  destruct segments; [congruence | reflexivity].
Qed.

End KeepingWhole.

(** A configured line is one physical line, whatever the width of the
    terminal, when it is not put through the packing loop (width unknown or
    not positive) or when the loop finds that it fits. *)
Lemma autoWrapLine_whole `{Formatters} `{BudgetDisplay} `{ColorEncoders} `{Terminal}
    `{Constants} `{ThemeTables} `{Providers}
    (cfg : PowerlineConfig) (env : ProcessEnv) (hookData : ClaudeHookData)
    (usageInfo : option UsageInfo) (blockInfo : option BlockInfo)
    (todayInfo : option TodayInfo) (contextInfo : option ContextInfo)
    (metricsInfo : option MetricsInfo) (colors : PowerlineColors) (currentDir : string)
    (terminalWidth : option Z) (out0 : list (list RenderedSegment))
    (lineConfig : LineConfig) :
  renderSegments cfg env lineConfig hookData usageInfo blockInfo todayInfo
    contextInfo metricsInfo colors currentDir <> [] ->
  (forall W, terminalWidth = Some W -> 0 < W ->
     physicalLineWidth cfg
       (renderSegments cfg env lineConfig hookData usageInfo blockInfo todayInfo
          contextInfo metricsInfo colors currentDir) <= W) ->
  autoWrapLine cfg env hookData usageInfo blockInfo todayInfo contextInfo metricsInfo
    colors currentDir terminalWidth out0 lineConfig
  = out0 ++ [renderSegments cfg env lineConfig hookData usageInfo blockInfo todayInfo
               contextInfo metricsInfo colors currentDir].
Proof.
  intros Hne Hfits. unfold autoWrapLine.
  destruct (renderSegments _ _ _ _ _ _ _ _ _ _ _) as [|s rest] eqn:Hsegs; [congruence|].
  cbn [length Nat.eqb].
  destruct terminalWidth as [w|]; [|reflexivity].
  destruct ((w =? 0) || (w <=? 0)) eqn:Hw; [reflexivity|].
  apply orb_false_iff in Hw as [_ Hpos]. apply Z.leb_gt in Hpos.
  apply wrapSegments_whole; [discriminate | now apply Hfits].
Qed.

(** X12: a configured line whose rendered segments fit the terminal is never
    broken: with auto-wrap it is exactly one physical line, holding all of
    them. *)
Theorem autoWrapLine_fitting_line_whole `{Formatters} `{BudgetDisplay} `{ColorEncoders}
    `{Terminal} `{Constants} `{ThemeTables} `{Providers}
    (cfg : PowerlineConfig) (env : ProcessEnv) (hookData : ClaudeHookData)
    (usageInfo : option UsageInfo) (blockInfo : option BlockInfo)
    (todayInfo : option TodayInfo) (contextInfo : option ContextInfo)
    (metricsInfo : option MetricsInfo) (colors : PowerlineColors) (currentDir : string)
    (W : Z) (out0 : list (list RenderedSegment)) (lineConfig : LineConfig) :
  renderSegments cfg env lineConfig hookData usageInfo blockInfo todayInfo
    contextInfo metricsInfo colors currentDir <> [] ->
  physicalLineWidth cfg
    (renderSegments cfg env lineConfig hookData usageInfo blockInfo todayInfo
       contextInfo metricsInfo colors currentDir) <= W ->
  autoWrapLine cfg env hookData usageInfo blockInfo todayInfo contextInfo metricsInfo
    colors currentDir (Some W) out0 lineConfig
  = out0 ++ [renderSegments cfg env lineConfig hookData usageInfo blockInfo todayInfo
               contextInfo metricsInfo colors currentDir].
Proof.
  intros Hne Hfits. apply autoWrapLine_whole; [exact Hne|].
  intros W' HW' _. now injection HW' as <-.
Qed.

(** The three cases of one turn of the packing loop. *)
Lemma wrapStep_first `{Terminal} (cfg : PowerlineConfig) (W : Z)
    (out : list (list RenderedSegment)) (w : Z) (s : RenderedSegment) :
  wrapStep cfg W {| outputLines := out; currentLineSegments := []; currentLineWidth := w |} s
  = {| outputLines := out; currentLineSegments := [s];
       currentLineWidth := w + calculateSegmentWidth cfg s true |}.
Proof. reflexivity. Qed.

Lemma wrapStep_break `{Terminal} (cfg : PowerlineConfig) (W : Z)
    (out : list (list RenderedSegment)) (x : RenderedSegment)
    (current : list RenderedSegment) (w : Z) (s : RenderedSegment) :
  W < w + calculateSegmentWidth cfg s false ->
  wrapStep cfg W
    {| outputLines := out; currentLineSegments := x :: current; currentLineWidth := w |} s
  = {| outputLines := out ++ [x :: current]; currentLineSegments := [s];
       currentLineWidth := calculateSegmentWidth cfg s false |}.
Proof.
  intros Hover. unfold wrapStep.
  cbn [outputLines currentLineSegments currentLineWidth length Nat.eqb].
  replace (W <? w + calculateSegmentWidth cfg s false) with true
    by (symmetry; apply Z.ltb_lt; lia).
  replace (0 <? Z.of_nat (S (length current))) with true
    by (symmetry; apply Z.ltb_lt; lia).
  reflexivity.
Qed.

Lemma wrapStep_append `{Terminal} (cfg : PowerlineConfig) (W : Z)
    (out : list (list RenderedSegment)) (x : RenderedSegment)
    (current : list RenderedSegment) (w : Z) (s : RenderedSegment) :
  w + calculateSegmentWidth cfg s false <= W ->
  wrapStep cfg W
    {| outputLines := out; currentLineSegments := x :: current; currentLineWidth := w |} s
  = {| outputLines := out; currentLineSegments := (x :: current) ++ [s];
       currentLineWidth := w + calculateSegmentWidth cfg s false |}.
Proof.
  intros Hfits. unfold wrapStep.
  cbn [outputLines currentLineSegments currentLineWidth length Nat.eqb].
  replace (W <? w + calculateSegmentWidth cfg s false) with false
    by (symmetry; apply Z.ltb_ge; lia).
  now rewrite andb_false_r.
Qed.

(** X13: in capsule style the segment that opens a physical line after a break
    is charged as a later segment, one column more than the line's computed
    width counts for it: two segments that would fill the terminal exactly
    are put on two lines when they follow a break.  In arrow style they
    share the line. *)
Theorem wrapSegments_line_after_break `{Terminal} (cfg : PowerlineConfig) (W : Z)
    (a b c : RenderedSegment) :
  W < physicalLineWidth cfg [a; b] ->
  physicalLineWidth cfg [b; c] = W ->
  wrapSegments cfg W [] [a; b; c]
  = if isCapsuleStyle cfg then [[a]; [b]; [c]] else [[a]; [b; c]].
Proof.
  intros Hab Hbc.
  unfold physicalLineWidth in Hab, Hbc.
  cbn [sum_list_with length] in Hab, Hbc.
  unfold wrapSegments. cbn [fold_left].
  rewrite wrapStep_first.
  rewrite wrapStep_break
    by (unfold calculateSegmentWidth; destruct (isCapsuleStyle cfg); lia).
  destruct (isCapsuleStyle cfg) eqn:Hstyle.
  - rewrite wrapStep_break
      by (unfold calculateSegmentWidth; rewrite Hstyle; lia).
    reflexivity.
  - rewrite wrapStep_append
      by (unfold calculateSegmentWidth; rewrite Hstyle; lia).
    reflexivity.
Qed.

(** ** Statuslines whose lines are kept whole *)

Lemma length_append (a b : string) :
  String.length (a +:+ b) = (String.length a + String.length b)%nat.
Proof.
  induction a as [|c a IH]; [now rewrite append_nil_l|].
  rewrite append_cons. cbn [String.length]. now rewrite IH.
Qed.

(** A formatted segment is never the empty string: it holds at least the
    two spaces around its text. *)
Lemma formatSegment_length `{ColorEncoders} `{Constants} (cfg : PowerlineConfig)
    (bgColor fgColor text : string) (next : option string) (colors : PowerlineColors) :
  (2 <= String.length (formatSegment cfg bgColor fgColor text next colors))%nat.
Proof.
  unfold formatSegment.
  destruct (isCapsuleStyle cfg); [|destruct next as [n|]; [destruct (JsString.truthy _)|]];
    rewrite !length_append; cbn [String.length]; lia.
Qed.

Lemma buildLineFromSegments_length `{ColorEncoders} `{Constants} (cfg : PowerlineConfig)
    (segs : list RenderedSegment) (colors : PowerlineColors) :
  segs <> [] ->
  (0 <? Z.of_nat (String.length (buildLineFromSegments cfg segs colors))) = true.
Proof.
  intros Hne. destruct segs as [|s rest]; [congruence|].
  rewrite buildLineFromSegments_emit, emitSegments_cons, !length_append.
  pose proof (formatSegment_length cfg (seg_bgColor s) (seg_fgColor s) (seg_text s)
                (option_map (fun n => getSegmentBgColor (seg_type n) colors) (head rest))
                colors).
  apply Z.ltb_lt. lia.
Qed.

Lemma filter_all {A : Type} (f : A -> bool) (l : list A) :
  Forall (fun x => f x = true) l -> List.filter f l = l.
Proof.
  induction 1 as [|x l Hx _ IH]; [reflexivity|].
  cbn [List.filter]. now rewrite Hx, IH.
Qed.

Lemma outcome_mapM_returned {A B : Type} (f : A -> Eff B) (g : A -> B) (l : list A) :
  Forall (fun x => outcome (f x) = Returned (g x)) l ->
  outcome (mapM f l) = Returned (map g l).
Proof.
  induction 1 as [|x l Hx _ IH]; [reflexivity|].
  cbn [mapM map]. rewrite (eff_bind_outcome _ _ _ Hx). cbn [outcome].
  rewrite (eff_bind_outcome _ _ _ IH). reflexivity.
Qed.

Lemma generateStatusline_gathered `{Formatters} `{BudgetDisplay} `{ColorEncoders}
    `{Terminal} `{Constants} `{ThemeTables} `{Providers}
    (cfg : PowerlineConfig) (env : ProcessEnv) (hookData : ClaudeHookData) :
  generateStatusline cfg env hookData
  = if autoWrap (display cfg) then
      generateAutoWrapStatusline cfg env hookData (gatheredUsage cfg hookData)
        (gatheredBlock cfg) (gatheredToday cfg) (gatheredContext cfg hookData)
        (gatheredMetrics cfg hookData)
    else
      rendered ←
        mapM (fun lineConfig =>
                renderLine cfg env lineConfig hookData (gatheredUsage cfg hookData)
                  (gatheredBlock cfg) (gatheredToday cfg) (gatheredContext cfg hookData)
                  (gatheredMetrics cfg hookData))
             (lines (display cfg));
      mret (JsString.join LF
              (List.filter (fun line => 0 <? Z.of_nat (String.length line)) rendered)).
Proof. reflexivity. Qed.

Lemma allRendered_Forall `{Formatters} `{BudgetDisplay} `{ColorEncoders} `{Terminal}
    `{Constants} `{ThemeTables} `{Providers}
    (cfg : PowerlineConfig) (env : ProcessEnv) (hookData : ClaudeHookData)
    (colors : PowerlineColors) (lineConfig : LineConfig) :
  allRendered cfg env hookData colors lineConfig = true ->
  Forall (fun segment =>
            is_Some
              (renderSegment cfg env segment hookData (gatheredUsage cfg hookData)
                 (gatheredBlock cfg) (gatheredToday cfg) (gatheredContext cfg hookData)
                 (gatheredMetrics cfg hookData) colors (currentDirOf hookData)))
         (enabledSegments lineConfig).
Proof.
  unfold allRendered. intros Hall.
  induction (enabledSegments lineConfig) as [|s rest IH]; [constructor|].
  cbn [forallb] in Hall. apply andb_prop in Hall as [Hs Hrest].
  constructor; [now apply bool_decide_eq_true in Hs | now apply IH].
Qed.

Lemma lineSegments_nonempty `{Formatters} `{BudgetDisplay} `{ColorEncoders} `{Terminal}
    `{Constants} `{ThemeTables} `{Providers}
    (cfg : PowerlineConfig) (env : ProcessEnv) (hookData : ClaudeHookData)
    (colors : PowerlineColors) (lineConfig : LineConfig) :
  enabledSegments lineConfig <> [] ->
  allRendered cfg env hookData colors lineConfig = true ->
  lineSegments cfg env hookData colors lineConfig <> [].
Proof.
  intros Hne Hall. apply allRendered_Forall in Hall.
  unfold lineSegments, renderSegments.
  destruct (enabledSegments lineConfig) as [|s rest]; [congruence|].
  apply Forall_cons in Hall as [[d Hd] _].
  cbn [omap list_omap]. now rewrite Hd.
Qed.

(** X14: a statusline whose configured lines each enable a segment and render
    all they enable is the same with and without auto-wrap, as long as
    auto-wrap has no line to break (the width of the terminal is unknown or
    not positive, or every line fits it): one physical line for every
    configured line, in order, joined by line breaks. *)
Theorem generateStatusline_lines_whole `{Formatters} `{BudgetDisplay} `{ColorEncoders}
    `{Terminal} `{Constants} `{ThemeTables} `{Providers}
    (cfg : PowerlineConfig) (env : ProcessEnv) (hookData : ClaudeHookData)
    (colors : PowerlineColors) :
  outcome (getThemeColors cfg) = Returned colors ->
  Forall (fun lineConfig =>
            enabledSegments lineConfig <> []
            /\ allRendered cfg env hookData colors lineConfig = true)
         (lines (display cfg)) ->
  (autoWrap (display cfg) = true ->
   forall W, getTerminalWidth = Some W -> 0 < W ->
     Forall (fun lineConfig =>
               physicalLineWidth cfg (lineSegments cfg env hookData colors lineConfig) <= W)
            (lines (display cfg))) ->
  outcome (generateStatusline cfg env hookData)
  = Returned
      (JsString.join LF
         (map (fun lineConfig =>
                 buildLineFromSegments cfg
                   (lineSegments cfg env hookData colors lineConfig) colors)
            (lines (display cfg)))).
Proof.
  intros Hcolors Hlines Hfit. rewrite generateStatusline_gathered.
  destruct (autoWrap (display cfg)).
  - specialize (Hfit eq_refl).
    unfold generateAutoWrapStatusline.
    rewrite (eff_bind_outcome _ _ _ Hcolors). cbn [outcome mret eff_ret].
    do 2 f_equal.
    rewrite <- (List.map_map (lineSegments cfg env hookData colors)
                  (fun l => buildLineFromSegments cfg l colors)).
    f_equal.
    enough (Hfold : forall l out0,
               Forall (fun lineConfig =>
                         enabledSegments lineConfig <> []
                         /\ allRendered cfg env hookData colors lineConfig = true) l ->
               (forall W, getTerminalWidth = Some W -> 0 < W ->
                  Forall (fun lineConfig =>
                            physicalLineWidth cfg
                              (lineSegments cfg env hookData colors lineConfig) <= W) l) ->
               fold_left
                 (autoWrapLine cfg env hookData (gatheredUsage cfg hookData)
                    (gatheredBlock cfg) (gatheredToday cfg) (gatheredContext cfg hookData)
                    (gatheredMetrics cfg hookData) colors (currentDirOf hookData)
                    getTerminalWidth)
                 l out0
               = out0 ++ map (lineSegments cfg env hookData colors) l)
      by (now rewrite (Hfold _ [] Hlines Hfit)).
    induction l as [|lineConfig l IH]; intros out0 Hall Hwidth.
    + now rewrite app_nil_r.
    + apply Forall_cons in Hall as [[Hne Hrendered] Hall].
      cbn [fold_left map]. rewrite autoWrapLine_whole.
      * rewrite IH; [now rewrite <- app_assoc | exact Hall|].
        intros W HW Hpos. specialize (Hwidth W HW Hpos).
        now apply Forall_cons in Hwidth as [_ Hwidth].
      * now apply lineSegments_nonempty.
      * intros W HW Hpos. specialize (Hwidth W HW Hpos).
        now apply Forall_cons in Hwidth as [Hwidth _].
  - clear Hfit.
    assert (Hrendered :
              outcome
                (mapM (fun lineConfig =>
                         renderLine cfg env lineConfig hookData (gatheredUsage cfg hookData)
                           (gatheredBlock cfg) (gatheredToday cfg)
                           (gatheredContext cfg hookData) (gatheredMetrics cfg hookData))
                      (lines (display cfg)))
              = Returned
                  (map (fun lineConfig =>
                          buildLineFromSegments cfg
                            (lineSegments cfg env hookData colors lineConfig) colors)
                     (lines (display cfg)))).
    { apply outcome_mapM_returned.
      eapply Forall_impl; [exact Hlines|].
      intros lineConfig [_ Hall]. cbn beta. unfold renderLine.
      rewrite (eff_bind_outcome _ _ _ Hcolors). cbn [outcome mret eff_ret].
      f_equal. apply renderSegments_all, allRendered_Forall, Hall. }
    rewrite (eff_bind_outcome _ _ _ Hrendered). cbn [outcome mret eff_ret].
    do 2 f_equal. apply filter_all.
    apply Forall_map. eapply Forall_impl; [exact Hlines|].
    intros lineConfig [Hne Hall]. cbn beta.
    apply buildLineFromSegments_length. now apply lineSegments_nonempty.
Qed.

(** ** Directory segment, in general *)

Lemma orElse_nonempty (a : option string) (d : string) :
  d <> "" -> JsString.orElse a d <> "".
Proof.
  intros Hd. unfold JsString.orElse.
  destruct a as [s|]; [|exact Hd].
  destruct (String.eqb s "") eqn:Hs; [exact Hd|].
  now apply String.eqb_neq in Hs.
Qed.

Lemma currentDirOf_nonempty (hookData : ClaudeHookData) : currentDirOf hookData <> "".
Proof. unfold currentDirOf. apply orElse_nonempty, orElse_nonempty. discriminate. Qed.

Lemma startsWith_nonempty (s p : string) :
  p <> "" -> JsString.startsWith s p = true -> s <> "".
Proof.
  intros Hp Hstarts ->. unfold JsString.startsWith in Hstarts.
  destruct p; [congruence | discriminate].
Qed.

Lemma getDisplayDirectoryName_nonempty (currentDir : string) (projectDir : option string) :
  getDisplayDirectoryName currentDir projectDir <> "".
Proof.
  unfold getDisplayDirectoryName.
  destruct (JsString.startsWith currentDir "~") eqn:Hhome.
  - apply (startsWith_nonempty _ "~"); [discriminate | exact Hhome].
  - destruct projectDir as [p|]; [|apply orElse_nonempty; discriminate].
    destruct (JsString.truthy (Some p) && negb (String.eqb p currentDir));
      [|apply orElse_nonempty; discriminate].
    destruct (JsString.startsWith currentDir p);
      repeat apply orElse_nonempty; discriminate.
Qed.

Lemma split_empty (sep : ascii) (s : string) : JsString.split sep s = [""] -> s = "".
Proof.
  destruct s as [|c s]; [reflexivity|]. cbn [JsString.split].
  pose proof (split_not_nil sep s) as Hne.
  destruct (Ascii.eqb c sep).
  - intros Hsplit. injection Hsplit as Hnil. congruence.
  - destruct (JsString.split sep s); [congruence | discriminate].
Qed.

Lemma abbreviateFishStyle_nonempty (p : string) : p <> "" -> abbreviateFishStyle p <> "".
Proof.
  intros Hp Hempty.
  pose proof (abbreviateFishStyle_split p) as Hsplit.
  rewrite Hempty in Hsplit. cbn [JsString.split] in Hsplit.
  destruct (JsString.split Path.sep p) as [|x [|y rest]] eqn:Hparts; [discriminate| |discriminate].
  cbn in Hsplit. injection Hsplit as <-.
  apply Hp, (split_empty Path.sep), Hparts.
Qed.

Lemma dropPrefix_app (p rest : string) : JsString.dropPrefix p (p +:+ rest) = Some rest.
Proof.
  induction p as [|c p IH]; [now destruct rest|].
  rewrite append_cons. cbn [JsString.dropPrefix]. now rewrite Ascii.eqb_refl.
Qed.

Lemma replace_prefix (p rep rest : string) :
  p <> "" -> JsString.replace p rep (p +:+ rest) = rep +:+ rest.
Proof.
  intros Hp. destruct p as [|c p]; [congruence|].
  rewrite append_cons. cbn [JsString.replace].
  rewrite <- append_cons. now rewrite dropPrefix_app.
Qed.

(** X15: the directory segment always shows something: its text is not the
    empty string, for every style, every working directory, project root
    and home directory, present or not. *)
Theorem renderDirectory_never_empty (env : ProcessEnv) (hookData : ClaudeHookData)
    (colors : PowerlineColors) (config : option SegmentConfig) :
  text (renderDirectory env hookData colors config) <> "".
Proof.
  unfold renderDirectory.
  change (match config ≫= cfg_style with
          | Some s => s
          | None => if isOn (config ≫= showBasename) then StyleBasename else StyleFull
          end) with (directoryStyle config).
  destruct (directoryStyle config); cbn [text].
  - apply getDisplayDirectoryName_nonempty.
  - apply abbreviateFishStyle_nonempty, getDisplayDirectoryName_nonempty.
  - apply orElse_nonempty. discriminate.
Qed.

(** X16: a working directory whose text begins with the home directory is shown
    with that prefix replaced by [~] and nothing else changed, whatever the
    project root is; the fish style abbreviates the result.  The prefix is
    compared as text, not by path component. *)
Theorem renderDirectory_under_home (env : ProcessEnv) (hookData : ClaudeHookData)
    (colors : PowerlineColors) (config : option SegmentConfig) (home rest : string) :
  JsString.orOpt (HOME env) (USERPROFILE env) = Some home ->
  home <> "" ->
  currentDirOf hookData = home +:+ rest ->
  directoryStyle config <> StyleBasename ->
  text (renderDirectory env hookData colors config)
  = match directoryStyle config with
    | StyleFish => abbreviateFishStyle ("~" +:+ rest)
    | _ => "~" +:+ rest
    end.
Proof.
  intros Hhome Hne Hcwd Hstyle. unfold renderDirectory.
  change (match config ≫= cfg_style with
          | Some s => s
          | None => if isOn (config ≫= showBasename) then StyleBasename else StyleFull
          end) with (directoryStyle config).
  rewrite Hhome, Hcwd.
  assert (Htruthy : JsString.truthy (Some home) = true).
  { cbn. apply negb_true_iff, String.eqb_neq, Hne. }
  assert (Hstarts : JsString.startsWith (home +:+ rest) home = true)
    by apply prefix_app.
  rewrite Htruthy, Hstarts, (replace_prefix home "~" rest Hne).
  cbn [andb]. rewrite append_cons, append_nil_l, getDisplayDirectoryName_home.
  destruct (directoryStyle config); [reflexivity | reflexivity | congruence].
Qed.

(** ** Block segment and the kind of its budget *)

Lemma formatUsageWithBudget_other_kind `{Formatters} `{BudgetDisplay}
    (cost : option Q) (tokens : option Z) (tokenBreakdown : option TokenBreakdown)
    (type : string) (budget warningThreshold : option Q) (budgetType : option BudgetType) :
  budgetValueOf budgetType cost tokens = None ->
  formatUsageWithBudget cost tokens tokenBreakdown type budget warningThreshold budgetType
  = formatUsageDisplay cost tokens tokenBreakdown type.
Proof.
  intros Hvalue. unfold formatUsageWithBudget. rewrite Hvalue.
  destruct budget as [b|]; [|reflexivity].
  now destruct (Qtruthy b && Qltb 0 b).
Qed.

(** X17: the block segment measures its usage against the block budget only
    when the two are of one kind: a block that displays tokens ignores a
    cost budget, and a block that displays cost ignores a token budget;
    the segment is then what it is with no budget configured. *)
Theorem renderBlock_budget_of_other_kind `{Formatters} `{BudgetDisplay}
    (cfg : PowerlineConfig) (symbols : PowerlineSymbols) (blockInfo : BlockInfo)
    (colors : PowerlineColors) (config : option SegmentConfig) :
  (JsString.orElse (config ≫= cfg_type) "cost" = "tokens"
   /\ (budget cfg ≫= budget_block) ≫= budget_type <> Some BudgetTokens)
  \/ (JsString.orElse (config ≫= cfg_type) "cost" = "cost"
      /\ (budget cfg ≫= budget_block) ≫= budget_type = Some BudgetTokens) ->
  renderBlock cfg symbols blockInfo colors config
  = renderBlock (withBudget None cfg) symbols blockInfo colors config.
Proof.
  intros [[Htype Hkind] | [Htype Hkind]]; unfold renderBlock; rewrite Htype.
  - cbn [String.eqb Ascii.eqb Bool.eqb withBudget budget mbind option_bind].
    rewrite !formatUsageWithBudget_other_kind; [reflexivity | reflexivity |].
    destruct ((budget cfg ≫= budget_block) ≫= budget_type) as [[]|];
      [reflexivity | congruence | reflexivity].
  - cbn [String.eqb Ascii.eqb Bool.eqb withBudget budget mbind option_bind].
    rewrite Hkind.
    rewrite (formatUsageWithBudget_other_kind _ _ _ _ _ _ (Some BudgetTokens))
      by now destruct (blk_cost blockInfo).
    reflexivity.
Qed.

(** ** The background of a segment and of its kind *)


(** ** Directory names inside the project *)

Lemma slice_app (p rest : string) :
  JsString.slice (p +:+ rest) (String.length p) = rest.
Proof.
  induction p as [|c p IH]; [now destruct rest|].
  rewrite append_cons. cbn [String.length JsString.slice]. exact IH.
Qed.

Lemma append_longer (p rest : string) : rest <> "" -> p <> p +:+ rest.
Proof.
  intros Hrest Heq. apply (f_equal String.length) in Heq.
  rewrite length_append in Heq.
  destruct rest; [congruence | cbn [String.length] in Heq; lia].
Qed.

(** X19: a working directory that continues the text of the project root is
    shown without the root and without the one character that follows it,
    whichever character that is: the root is compared as text, and the
    separator is assumed rather than checked. *)
Theorem getDisplayDirectoryName_inside_project (projectDir rest : string) (c : ascii) :
  JsString.startsWith projectDir "~" = false ->
  projectDir <> "" ->
  rest <> "" ->
  getDisplayDirectoryName (projectDir +:+ String c rest) (Some projectDir) = rest.
Proof.
  intros Hhome Hproject Hrest. unfold getDisplayDirectoryName.
  assert (Hstart : JsString.startsWith (projectDir +:+ String c rest) "~" = false).
  { destruct projectDir as [|x p]; [congruence|].
    unfold JsString.startsWith in *. rewrite append_cons.
    cbn [String.prefix] in *.
    destruct (ascii_dec _ x); [|reflexivity].
    now destruct p. }
  rewrite Hstart.
  assert (Htruthy : JsString.truthy (Some projectDir) = true).
  { cbn. apply negb_true_iff, String.eqb_neq, Hproject. }
  assert (Hother : String.eqb projectDir (projectDir +:+ String c rest) = false).
  { apply String.eqb_neq, append_longer. discriminate. }
  rewrite Htruthy, Hother. cbn [andb negb].
  unfold JsString.startsWith at 1. rewrite prefix_app.
  replace (String.length projectDir + 1)%nat with (S (String.length projectDir)) by lia.
  assert (Hslice : JsString.slice (projectDir +:+ String c rest)
                     (S (String.length projectDir)) = rest).
  { pose proof (slice_app (projectDir +:+ String c "") rest) as Hs.
    rewrite append_assoc, append_cons, append_nil_l, length_append in Hs.
    cbn [String.length] in Hs.
    now replace (String.length projectDir + 1)%nat
      with (S (String.length projectDir)) in Hs by lia. }
  rewrite Hslice. unfold JsString.orElse.
  destruct (String.eqb rest "") eqn:Hempty; [|reflexivity].
  now apply String.eqb_eq in Hempty.
Qed.

(** ** A hidden segment beside a shown one *)

(** X20: without auto-wrap an enabled segment that renders nothing still
    counts as a neighbour.  A shown segment followed by a hidden one is not
    formatted as the last of its line: its arrow takes the background of the
    hidden kind.  A shown segment preceded by a hidden one is not the first:
    in capsule style a space comes before it.  (The auto-wrap path composes
    the rendered segments only.) *)
Theorem renderLine_hidden_neighbour `{Formatters} `{BudgetDisplay} `{ColorEncoders}
    `{Terminal} `{Constants} `{ThemeTables} `{Providers}
    (cfg : PowerlineConfig) (env : ProcessEnv) (lineConfig : LineConfig)
    (hookData : ClaudeHookData)
    (usageInfo : option UsageInfo) (blockInfo : option BlockInfo)
    (todayInfo : option TodayInfo) (contextInfo : option ContextInfo)
    (metricsInfo : option MetricsInfo) (colors : PowerlineColors)
    (shown hidden : string * SegmentConfig) (segmentData : SegmentData) :
  outcome (getThemeColors cfg) = Returned colors ->
  renderSegment cfg env shown hookData usageInfo blockInfo todayInfo contextInfo
    metricsInfo colors (currentDirOf hookData) = Some segmentData ->
  renderSegment cfg env hidden hookData usageInfo blockInfo todayInfo contextInfo
    metricsInfo colors (currentDirOf hookData) = None ->
  (enabledSegments lineConfig = [shown; hidden] ->
   outcome (renderLine cfg env lineConfig hookData usageInfo blockInfo todayInfo
              contextInfo metricsInfo)
   = Returned
       (reset colors
        +:+ formatSegment cfg (bgColor segmentData) (fgColor segmentData)
              (text segmentData) (Some (getSegmentBgColor (fst hidden) colors)) colors))
  /\ (enabledSegments lineConfig = [hidden; shown] ->
      outcome (renderLine cfg env lineConfig hookData usageInfo blockInfo todayInfo
                 contextInfo metricsInfo)
      = Returned
          (reset colors
           +:+ (if isCapsuleStyle cfg then " " else "")
           +:+ formatSegment cfg (bgColor segmentData) (fgColor segmentData)
                 (text segmentData) None colors)).
Proof.
  intros Hcolors Hshown Hhidden.
  split; intros Henabled; unfold renderLine;
    rewrite (eff_bind_outcome _ _ _ Hcolors); cbn [outcome mret eff_ret];
    rewrite Henabled; cbn [imap fold_left length Nat.eqb Nat.sub Nat.add lookup list_lookup compose];
    rewrite Hshown, Hhidden; cbn [andb negb]; f_equal;
    destruct (isCapsuleStyle cfg); cbn [andb]; now normalise_strings.
Qed.

(** ** The further properties at concrete inputs *)

Section FurtherExamples.
#[local] Existing Instance Sample.formatters.
#[local] Existing Instance Sample.budgetDisplay.
#[local] Existing Instance Sample.encoders.
#[local] Existing Instance Sample.terminal.
#[local] Existing Instance Sample.constants.
#[local] Existing Instance Sample.tables.
#[local] Existing Instance Sample.providers.
Local Open Scope string_scope.

(** An opus model at 29000 of 200000 tokens: 14 per cent, where exact
    arithmetic would give 14.5 and round to 15. *)
Lemma calculateContextTokens_bounds_example :
  ContextProvider.calculateContextTokens Sample.limits (Some "{}")
    (Some Sample.transcript) (Some "claude-opus-4") = Some Sample.contextInfo
  /\ (percentage Sample.contextInfo = nan
      \/ ((0 <=? percentage Sample.contextInfo)%float = true
          /\ (percentage Sample.contextInfo <=? 100)%float = true))
  /\ percentage Sample.contextInfo
     = JsNumber.min 100
         (JsNumber.max 0
            (JsNumber.round
               (inputTokens Sample.contextInfo / maxTokens Sample.contextInfo * 100)%float))
  /\ usablePercentage Sample.contextInfo = percentage Sample.contextInfo
  /\ contextLeftPercentage Sample.contextInfo
     = JsNumber.max 0 (100 - percentage Sample.contextInfo)%float
  /\ usableTokens Sample.contextInfo = maxTokens Sample.contextInfo
  /\ JsNumber.truthy (maxTokens Sample.contextInfo) = true.
Proof.
  assert (Hinfo : ContextProvider.calculateContextTokens Sample.limits (Some "{}")
                    (Some Sample.transcript) (Some "claude-opus-4")
                  = Some Sample.contextInfo) by reflexivity.
  split; [exact Hinfo|].
  exact (calculateContextTokens_bounds Sample.limits (Some "{}") (Some Sample.transcript)
           (Some "claude-opus-4") Sample.contextInfo Hinfo).
Defined.

(** Token counts beyond the range of the numbers: a transcript line with
    1e999 input tokens and -1e999 cached ones holds both infinities, their
    sum is [NaN], and so is every percentage of the snapshot. *)
Lemma calculateContextTokens_nan_example :
  ContextProvider.calculateContextTokens None (Some "{}")
    (Some [Sample.entry infinity neg_infinity 0 false]) None
  = Some {| inputTokens := nan;
            percentage := nan; usablePercentage := nan; contextLeftPercentage := nan;
            maxTokens := 200000; usableTokens := 200000 |}.
Proof. reflexivity. Qed.

(** One infinite count alone fills the context. *)
Lemma calculateContextTokens_infinite_example :
  percentage <$> ContextProvider.calculateContextTokens None (Some "{}")
                   (Some [Sample.entry infinity 0 0 false]) None
  = Some 100%float.
Proof. reflexivity. Qed.

(** The second entry of the sample transcript is the one that counts. *)
Lemma calculateContextTokens_most_recent_example :
  ContextProvider.countsForContext (Sample.entry 20000 5000 4000 false) = true
  /\ Forall (fun e => ContextProvider.countsForContext e = false)
       [Sample.entry 999 0 0 true; Sample.noUsage]
  /\ ContextProvider.calculateContextTokens Sample.limits (Some "{}")
       (Some Sample.transcript) (Some "claude-opus-4")
     = ContextProvider.calculateContextTokens Sample.limits (Some "{}")
         (Some [Sample.entry 20000 5000 4000 false]) (Some "claude-opus-4").
Proof.
  assert (Hentry : ContextProvider.countsForContext (Sample.entry 20000 5000 4000 false)
                   = true) by reflexivity.
  assert (Hafter : Forall (fun e => ContextProvider.countsForContext e = false)
                     [Sample.entry 999 0 0 true; Sample.noUsage])
    by (repeat constructor).
  split; [exact Hentry|]. split; [exact Hafter|].
  exact (calculateContextTokens_most_recent Sample.limits (Some "{}")
           [Sample.entry 1000 0 0 false] [Sample.entry 999 0 0 true; Sample.noUsage]
           (Sample.entry 20000 5000 4000 false) (Some "claude-opus-4") Hentry Hafter).
Defined.

(** A transcript of sidechain entries and entries without usage. *)
Lemma calculateContextTokens_null_example :
  (JsString.truthy (Some "{}") = false
   \/ Some [Sample.entry 999 0 0 true; Sample.noUsage] = None
   \/ exists entries,
        Some [Sample.entry 999 0 0 true; Sample.noUsage] = Some entries
        /\ Forall (fun e => ContextProvider.countsForContext e = false) entries)
  /\ ContextProvider.calculateContextTokens Sample.limits (Some "{}")
       (Some [Sample.entry 999 0 0 true; Sample.noUsage]) (Some "claude-opus-4")
     = None.
Proof.
  assert (Hnone : JsString.truthy (Some "{}") = false
                  \/ Some [Sample.entry 999 0 0 true; Sample.noUsage] = None
                  \/ exists entries,
                       Some [Sample.entry 999 0 0 true; Sample.noUsage] = Some entries
                       /\ Forall (fun e => ContextProvider.countsForContext e = false)
                            entries).
  { right. right. eexists. split; [reflexivity|]. repeat constructor. }
  split; [exact Hnone|].
  exact (calculateContextTokens_null Sample.limits (Some "{}")
           (Some [Sample.entry 999 0 0 true; Sample.noUsage]) (Some "claude-opus-4")
           Hnone).
Defined.

(** An identifier that names both families. *)
Lemma getModelType_sonnet_first_example :
  JsText.toLowerCase "Sonnet" = "sonnet"
  /\ ContextProvider.getModelType "claude-opus-Sonnet-mix" = "sonnet".
Proof.
  assert (Hword : JsText.toLowerCase "Sonnet" = "sonnet") by reflexivity.
  split; [exact Hword|].
  exact (getModelType_sonnet_first "claude-opus-" "Sonnet" "-mix" Hword).
Defined.

(** At 14 per cent the context segment keeps its own colours. *)
Lemma renderContext_default_warning_example :
  ContextProvider.calculateContextTokens Sample.limits (Some "{}")
    (Some Sample.transcript) (Some "claude-opus-4") = Some Sample.contextInfo
  /\ Some (segmentConfig true) ≫= cfg_warningThreshold = None
  /\ (fun s => (bgColor s, fgColor s))
       <$> renderContext (symbols Sample.budgetConfig) (Some Sample.contextInfo)
             Sample.palette (Some (segmentConfig true))
     = Some ("<bg context>", "<fg context>").
Proof.
  assert (Hinfo : ContextProvider.calculateContextTokens Sample.limits (Some "{}")
                    (Some Sample.transcript) (Some "claude-opus-4")
                  = Some Sample.contextInfo) by reflexivity.
  split; [exact Hinfo|]. split; [reflexivity|].
  exact (renderContext_default_warning (symbols Sample.budgetConfig) Sample.palette
           (Some (segmentConfig true)) Sample.limits (Some "{}") (Some Sample.transcript)
           (Some "claude-opus-4") Sample.contextInfo Hinfo eq_refl).
Defined.

(** The 256-colour variant of nord. *)
Lemma getTheme_variants_example :
  "nord" ∈ baseThemeNames
  /\ CsAnsi256 <> CsTruecolor
  /\ is_Some (getTheme "nord" CsAnsi256)
  /\ getTheme "nord" CsAnsi256 = BUILT_IN_THEMES !! "nord-ansi256"
  /\ getTheme "nord-ansi256" CsTruecolor = getTheme "nord" CsAnsi256.
Proof.
  assert (Hname : "nord" ∈ baseThemeNames) by (unfold baseThemeNames; repeat constructor).
  assert (Hcs : CsAnsi256 <> CsTruecolor) by discriminate.
  split; [exact Hname|]. split; [exact Hcs|].
  split; [|split].
  - exact (proj1 (getTheme_variants "nord" CsAnsi256 CsTruecolor Hname)).
  - exact (proj1 (proj2 (getTheme_variants "nord" CsAnsi256 CsTruecolor Hname))).
  - exact (proj2 (proj2 (getTheme_variants "nord" CsAnsi256 CsTruecolor Hname)) Hcs).
Defined.

(** The theme nord at full colour: its own table, encoded. *)
Lemma getThemeColors_outcome_example :
  darkComplete = true
  /\ outcome (getThemeColors (Sample.config "nord" Powerline false []))
     = Returned (encodedColors CsTruecolor (Sample.table "#2e3440" "#d8dee9")).
Proof.
  assert (Hdark : darkComplete = true) by reflexivity.
  split; [exact Hdark|].
  exact (getThemeColors_outcome (Sample.config "nord" Powerline false []) Hdark).
Defined.

(** A custom table with one category, without colours. *)
Lemma getThemeColors_no_color_example :
  colorSupport Sample.monochrome = CsNone
  /\ (theme Sample.monochrome <> "custom"
      \/ is_Some (colors Sample.monochrome ≫= custom))
  /\ outcome (getThemeColors Sample.monochrome) = Returned noColors.
Proof.
  assert (Hnone : colorSupport Sample.monochrome = CsNone) by reflexivity.
  assert (Hselect : theme Sample.monochrome <> "custom"
                    \/ is_Some (colors Sample.monochrome ≫= custom))
    by (right; eexists; reflexivity).
  split; [exact Hnone|]. split; [exact Hselect|].
  exact (getThemeColors_no_color Sample.monochrome Hnone Hselect).
Defined.

(** Two configured lines without auto-wrap: the warning is written twice. *)
Lemma generateStatusline_warning_per_line_example :
  let cfg :=
    Sample.config "solarized" Powerline false [Sample.threeSegments; Sample.versionOnly] in
  theme cfg <> "custom"
  /\ BUILT_IN_THEMES !! theme cfg = None
  /\ JsObject.inherits (theme cfg) = false
  /\ darkComplete = true
  /\ warnings (generateStatusline cfg Sample.env Sample.hookData)
     = ["Built-in theme 'solarized' not found, falling back to 'dark' theme";
        "Built-in theme 'solarized' not found, falling back to 'dark' theme"].
Proof.
  intros cfg.
  assert (Hcustom : theme cfg <> "custom") by discriminate.
  assert (Hunknown : BUILT_IN_THEMES !! theme cfg = None) by reflexivity.
  assert (Hinherits : JsObject.inherits (theme cfg) = false) by reflexivity.
  assert (Hdark : darkComplete = true) by reflexivity.
  split; [exact Hcustom|]. split; [exact Hunknown|]. split; [exact Hinherits|].
  split; [exact Hdark|].
  exact (generateStatusline_warning_per_line cfg Sample.env Sample.hookData
           Hcustom Hunknown Hinherits Hdark).
Defined.

(** Two capsules. *)
Lemma buildLineFromSegments_capsules_example :
  let cfg := Sample.config "dark" Capsule false [] in
  isCapsuleStyle cfg = true
  /\ buildLineFromSegments cfg
       [Sample.rendered "directory" "src"; Sample.rendered "model" "M Claude"]
       Sample.palette
     = "<reset>"
       +:+ "<as-fg <bg>>(<reset><bg><fg> src <reset><as-fg <bg>>)<reset>"
       +:+ " "
       +:+ "<as-fg <bg>>(<reset><bg><fg> M Claude <reset><as-fg <bg>>)<reset>".
Proof.
  intros cfg.
  assert (Hcapsule : isCapsuleStyle cfg = true) by reflexivity.
  split; [exact Hcapsule|].
  exact (buildLineFromSegments_capsules cfg Sample.palette
           [Sample.rendered "directory" "src"; Sample.rendered "model" "M Claude"]
           Hcapsule).
Defined.

(** The line of directory, model and multiplexer: all three render. *)
Lemma renderLine_all_rendered_example :
  let cfg := Sample.config "dark" Powerline false [Sample.threeSegments] in
  getThemeColors cfg = mkEff [] (Returned Sample.darkColors)
  /\ Forall (fun segment =>
               is_Some (renderSegment cfg Sample.env segment Sample.hookData None None
                          None None None Sample.darkColors
                          (currentDirOf Sample.hookData)))
       (enabledSegments Sample.threeSegments)
  /\ renderLine cfg Sample.env Sample.threeSegments Sample.hookData None None None
       None None
     = mkEff []
         (Returned
            (buildLineFromSegments cfg
               (renderSegments cfg Sample.env Sample.threeSegments Sample.hookData
                  None None None None None Sample.darkColors
                  (currentDirOf Sample.hookData))
               Sample.darkColors)).
Proof.
  intros cfg.
  assert (Hcolors : getThemeColors cfg = mkEff [] (Returned Sample.darkColors))
    by reflexivity.
  assert (Hall : Forall (fun segment =>
                           is_Some (renderSegment cfg Sample.env segment Sample.hookData
                                      None None None None None Sample.darkColors
                                      (currentDirOf Sample.hookData)))
                   (enabledSegments Sample.threeSegments))
    by (repeat (constructor; [eexists; reflexivity|]); constructor).
  split; [exact Hcolors|]. split; [exact Hall|].
  exact (renderLine_all_rendered cfg Sample.env Sample.threeSegments Sample.hookData
           None None None None None [] Sample.darkColors Hcolors Hall).
Defined.

(** Three arrow segments, 29 columns in all, on a terminal of 40. *)
Lemma autoWrapLine_fitting_line_whole_example :
  let cfg := Sample.config "dark" Powerline true [Sample.threeSegments] in
  let rendered :=
    renderSegments cfg Sample.env Sample.threeSegments Sample.hookData
      None None None None None Sample.palette "/home/alice/proj/src" in
  rendered <> []
  /\ physicalLineWidth cfg rendered <= 40
  /\ autoWrapLine cfg Sample.env Sample.hookData None None None None None
       Sample.palette "/home/alice/proj/src" (Some 40) [] Sample.threeSegments
     = [rendered].
Proof.
  intros cfg rendered.
  assert (Hne : rendered <> []) by (vm_compute; discriminate).
  assert (Hfits : physicalLineWidth cfg rendered <= 40) by (vm_compute; discriminate).
  split; [exact Hne|]. split; [exact Hfits|].
  exact (autoWrapLine_fitting_line_whole cfg Sample.env Sample.hookData None None None
           None None Sample.palette "/home/alice/proj/src" 40 [] Sample.threeSegments
           Hne Hfits).
Defined.

(** Capsules of 8 and 9 columns of text fill 26 columns; after a first
    capsule that leaves no room they are still put on two lines. *)
Lemma wrapSegments_line_after_break_example :
  let cfg := Sample.config "dark" Capsule true [] in
  let a := Sample.rendered "directory" "a-long-directory-name" in
  let b := Sample.rendered "model" "M Claude" in
  let c := Sample.rendered "tmux" "tmux:none" in
  26 < physicalLineWidth cfg [a; b]
  /\ physicalLineWidth cfg [b; c] = 26
  /\ wrapSegments cfg 26 [] [a; b; c] = [[a]; [b]; [c]].
Proof.
  intros cfg a b c.
  assert (Hab : 26 < physicalLineWidth cfg [a; b]) by reflexivity.
  assert (Hbc : physicalLineWidth cfg [b; c] = 26) by reflexivity.
  split; [exact Hab|]. split; [exact Hbc|].
  exact (wrapSegments_line_after_break cfg 26 a b c Hab Hbc).
Defined.

(** Two short lines on the terminal of twenty columns, with auto-wrap:
    one physical line each. *)
Lemma generateStatusline_lines_whole_example :
  let cfg :=
    Sample.config "dark" Powerline true [Sample.directoryOnly; Sample.modelOnly] in
  outcome (getThemeColors cfg) = Returned Sample.darkColors
  /\ Forall (fun lineConfig =>
               enabledSegments lineConfig <> []
               /\ allRendered cfg Sample.env Sample.hookData Sample.darkColors lineConfig
                  = true)
       (lines (display cfg))
  /\ Forall (fun lineConfig =>
               physicalLineWidth cfg
                 (lineSegments cfg Sample.env Sample.hookData Sample.darkColors lineConfig)
               <= 20)
       (lines (display cfg))
  /\ outcome (generateStatusline cfg Sample.env Sample.hookData)
     = Returned
         ("<reset><bg #111111><fg #eeeeee> src <reset><as-fg <bg #111111>>><reset>"
          +:+ LF
          +:+ "<reset><bg #111111><fg #eeeeee> M Claude <reset><as-fg <bg #111111>>><reset>").
Proof.
  intros cfg.
  assert (Hcolors : outcome (getThemeColors cfg) = Returned Sample.darkColors)
    by reflexivity.
  assert (Hlines : Forall (fun lineConfig =>
                             enabledSegments lineConfig <> []
                             /\ allRendered cfg Sample.env Sample.hookData
                                  Sample.darkColors lineConfig = true)
                     (lines (display cfg)))
    by (repeat (constructor; [split; [discriminate | reflexivity]|]); constructor).
  assert (Hfit : Forall (fun lineConfig =>
                           physicalLineWidth cfg
                             (lineSegments cfg Sample.env Sample.hookData
                                Sample.darkColors lineConfig) <= 20)
                   (lines (display cfg)))
    by (repeat (constructor; [vm_compute; discriminate|]); constructor).
  split; [exact Hcolors|]. split; [exact Hlines|]. split; [exact Hfit|].
  apply (generateStatusline_lines_whole cfg Sample.env Sample.hookData Sample.darkColors
           Hcolors Hlines).
  intros _ W HW _. injection HW as <-. exact Hfit.
Defined.

(** Alice's directory in fish style. *)
Lemma renderDirectory_under_home_example :
  JsString.orOpt (HOME Sample.env) (USERPROFILE Sample.env) = Some "/home/alice"
  /\ "/home/alice" <> ""
  /\ currentDirOf Sample.hookData = "/home/alice" +:+ "/proj/src"
  /\ directoryStyle (Some (directoryConfig StyleFish)) <> StyleBasename
  /\ text (renderDirectory Sample.env Sample.hookData Sample.palette
             (Some (directoryConfig StyleFish)))
     = "~/p/src".
Proof.
  assert (Hne : "/home/alice" <> "") by discriminate.
  assert (Hstyle : directoryStyle (Some (directoryConfig StyleFish)) <> StyleBasename)
    by discriminate.
  split; [reflexivity|]. split; [exact Hne|]. split; [reflexivity|].
  split; [exact Hstyle|].
  exact (renderDirectory_under_home Sample.env Sample.hookData Sample.palette
           (Some (directoryConfig StyleFish)) "/home/alice" "/proj/src"
           eq_refl Hne eq_refl Hstyle).
Defined.

(** A block that displays its cost, under a budget counted in tokens. *)
Lemma renderBlock_budget_of_other_kind_example :
  ((JsString.orElse (None ≫= cfg_type) "cost" = "tokens"
    /\ (budget Sample.tokenBudgetConfig ≫= budget_block) ≫= budget_type
       <> Some BudgetTokens)
   \/ (JsString.orElse (None ≫= cfg_type) "cost" = "cost"
       /\ (budget Sample.tokenBudgetConfig ≫= budget_block) ≫= budget_type
          = Some BudgetTokens))
  /\ renderBlock Sample.tokenBudgetConfig (symbols Sample.tokenBudgetConfig)
       Sample.blockInfo Sample.palette None
     = renderBlock (withBudget None Sample.tokenBudgetConfig)
         (symbols Sample.tokenBudgetConfig) Sample.blockInfo Sample.palette None.
Proof.
  assert (Hkind : (JsString.orElse (None ≫= cfg_type) "cost" = "tokens"
                   /\ (budget Sample.tokenBudgetConfig ≫= budget_block) ≫= budget_type
                      <> Some BudgetTokens)
                  \/ (JsString.orElse (None ≫= cfg_type) "cost" = "cost"
                      /\ (budget Sample.tokenBudgetConfig ≫= budget_block) ≫= budget_type
                         = Some BudgetTokens))
    by (right; split; reflexivity).
  split; [exact Hkind|].
  exact (renderBlock_budget_of_other_kind Sample.tokenBudgetConfig
           (symbols Sample.tokenBudgetConfig) Sample.blockInfo Sample.palette None Hkind).
Defined.


(** The root /work/proj and the directory /work/project2/x. *)
Lemma getDisplayDirectoryName_inside_project_example :
  JsString.startsWith "/work/proj" "~" = false
  /\ "/work/proj" <> ""
  /\ "ct2/x" <> ""
  /\ getDisplayDirectoryName "/work/project2/x" (Some "/work/proj") = "ct2/x".
Proof.
  assert (Hproject : "/work/proj" <> "") by discriminate.
  assert (Hrest : "ct2/x" <> "") by discriminate.
  split; [reflexivity|]. split; [exact Hproject|]. split; [exact Hrest|].
  exact (getDisplayDirectoryName_inside_project "/work/proj" "ct2/x" "e"%char
           eq_refl Hproject Hrest).
Defined.

(** The model followed by a version nobody knows: the arrow of the model
    takes the version background and the line does not end in a reset. *)
Lemma renderLine_hidden_neighbour_example :
  let cfg := Sample.config "dark" Powerline false [Sample.modelThenVersion] in
  let shown := ("model", segmentConfig true) in
  let hidden := ("version", segmentConfig true) in
  outcome (getThemeColors cfg) = Returned Sample.darkColors
  /\ renderSegment cfg Sample.env shown Sample.hookData None None None None None
       Sample.darkColors (currentDirOf Sample.hookData)
     = Some (renderModel (symbols cfg) Sample.hookData Sample.darkColors)
  /\ renderSegment cfg Sample.env hidden Sample.hookData None None None None None
       Sample.darkColors (currentDirOf Sample.hookData) = None
  /\ enabledSegments Sample.modelThenVersion = [shown; hidden]
  /\ outcome (renderLine cfg Sample.env Sample.modelThenVersion Sample.hookData
                None None None None None)
     = Returned
         "<reset><bg #111111><fg #eeeeee> M Claude <reset><bg #111111><as-fg <bg #111111>>>".
Proof.
  intros cfg shown hidden.
  assert (Hcolors : outcome (getThemeColors cfg) = Returned Sample.darkColors)
    by reflexivity.
  assert (Hshown : renderSegment cfg Sample.env shown Sample.hookData None None None
                     None None Sample.darkColors (currentDirOf Sample.hookData)
                   = Some (renderModel (symbols cfg) Sample.hookData Sample.darkColors))
    by reflexivity.
  assert (Hhidden : renderSegment cfg Sample.env hidden Sample.hookData None None None
                      None None Sample.darkColors (currentDirOf Sample.hookData) = None)
    by reflexivity.
  assert (Henabled : enabledSegments Sample.modelThenVersion = [shown; hidden])
    by reflexivity.
  split; [exact Hcolors|]. split; [exact Hshown|]. split; [exact Hhidden|].
  split; [exact Henabled|].
  exact (proj1 (renderLine_hidden_neighbour cfg Sample.env Sample.modelThenVersion
                  Sample.hookData None None None None None Sample.darkColors
                  shown hidden
                  (renderModel (symbols cfg) Sample.hookData Sample.darkColors)
                  Hcolors Hshown Hhidden)
           Henabled).
Defined.

End FurtherExamples.
